(** * Mood movie recommender: emotion-profile synthesis and mood ranking

    A shallow embedding of the emotion engine ([src/emotion_engine]) and of
    the recommender ([src/recommender/engine.py]), with the properties of
    the specification proved about it.

    Numbers.  The Python code computes with [float]; the embedding computes
    with exact rationals [Q], so every arithmetic statement below is about
    the formulas the code evaluates, in exact arithmetic.  Equality of
    scores is [Qeq] ([==]), the counterpart of Python's [==] on numbers, and
    [round] rounds the exact value to the nearest decimal, ties to even.
    A float differs from the exact value by its rounding, which can break
    or make a tie and turn the rounding of a half the other way; where an
    order or a rounded value is stated, the statement is about the stored
    scores or holds for either direction.  The one place where the float
    differs in kind, the overflow of the sum of the weights, is modelled in
    binary64 arithmetic ([Float64]).

    Dictionaries.  A dict that the code iterates ([.items()], [sorted]) is
    an association list in insertion order; a dict that is only queried
    ([.get], [in]) is a [gmap].

    Text.  A Python string is a [string]; [len], [lower] and [strip] are
    the ASCII ones: [String.length] counts bytes, so a statement that
    measures a text is made for ASCII texts ([ascii_text]) unless it holds
    for bytes and characters alike. *)

From Stdlib Require Import Floats.PrimFloat.
From Stdlib Require Import QArith Qround Qabs Qminmax Lqa ZArith Lia Ascii String.
From Stdlib Require Import Sorting.Sorted Sorting.Permutation.
From stdpp Require Import gmap strings list fin_maps pretty sorting.

Local Open Scope Q_scope.

(** ** Python primitives *)

Module Py.

(** [a < b] on numbers, as a boolean. *)
Definition ltb (a b : Q) : bool := negb (Qle_bool b a).

(** [max(a, b)]: the first argument unless the second is larger. *)
Definition max (a b : Q) : Q := if ltb a b then b else a.

(** [min(a, b)]: the first argument unless the second is smaller. *)
Definition min (a b : Q) : Q := if ltb b a then b else a.

(** [max(xs)] for a non-empty list [x :: xs]. *)
Definition max_list (x : Q) (xs : list Q) : Q := foldl max x xs.

(** [sum(xs)]. *)
Definition sum (xs : list Q) : Q := foldl Qplus 0 xs.

(** [len(xs)] as a number. *)
Definition len {A} (xs : list A) : Q := inject_Z (Z.of_nat (length xs)).

(** Rounding to the nearest integer, ties to the even one. *)
Definition round_half_even (x : Q) : Z :=
  let f := Qfloor x in
  match Qcompare (x - inject_Z f) (1 # 2) with
  | Lt => f
  | Gt => (f + 1)%Z
  | Eq => if Z.even f then f else (f + 1)%Z
  end.

(** [round(x, ndigits)]. *)
Definition round (x : Q) (ndigits : nat) : Q :=
  let p := inject_Z (10 ^ Z.of_nat ndigits) in
  Qred (inject_Z (round_half_even (x * p)) / p).

(** [s.lower()]. *)
Definition lower_ascii (c : ascii) : ascii :=
  let n := nat_of_ascii c in
  if ((65 <=? n) && (n <=? 90))%nat then ascii_of_nat (n + 32) else c.

Fixpoint lower (s : string) : string :=
  match s with
  | EmptyString => EmptyString
  | String c s' => String (lower_ascii c) (lower s')
  end.

(** The characters [s.strip()] removes: tab, line feed, vertical tab,
    form feed, carriage return, the four separators 28..31, and space. *)
Definition is_space (c : ascii) : bool :=
  let n := nat_of_ascii c in
  (((9 <=? n) && (n <=? 13)) || ((28 <=? n) && (n <=? 32)))%nat.

Fixpoint lstrip (s : string) : string :=
  match s with
  | EmptyString => EmptyString
  | String c s' => if is_space c then lstrip s' else s
  end.

Fixpoint rstrip (s : string) : string :=
  match s with
  | EmptyString => EmptyString
  | String c s' =>
      match rstrip s' with
      | EmptyString => if is_space c then EmptyString else String c EmptyString
      | r => String c r
      end
  end.

(** [s.strip()]. *)
Definition strip (s : string) : string := rstrip (lstrip s).

(** [xs[:n]] for an integer [n]: a negative [n] counts from the end. *)
Definition slice_to {A} (n : Z) (xs : list A) : list A :=
  if (0 <=? n)%Z then take (Z.to_nat n) xs
  else take (Z.to_nat (Z.of_nat (length xs) + n)) xs.

(** [d.get(k, default)] on an insertion-ordered dict. *)
Fixpoint get {V} (d : list (string * V)) (k : string) : option V :=
  match d with
  | [] => None
  | (k', v) :: d' => if String.eqb k' k then Some v else get d' k
  end.

(** [d[k] = v] on an insertion-ordered dict: an existing key keeps its
    position, a new key goes last. *)
Fixpoint set {V} (d : list (string * V)) (k : string) (v : V) : list (string * V) :=
  match d with
  | [] => [(k, v)]
  | (k', v') :: d' => if String.eqb k' k then (k', v) :: d' else (k', v') :: set d' k v
  end.

(** [xs.sort(key=key, reverse=True)] and [sorted(xs, key=key, reverse=True)]:
    the sort is stable, and [reverse=True] keeps the original order of
    elements with equal keys.  [insert_desc] puts [x] in front of the
    first element whose key is not larger than its own. *)
Section Sort.
Context {A : Type} (key : A -> Q).

Fixpoint insert_desc (x : A) (l : list A) : list A :=
  match l with
  | [] => [x]
  | y :: l' => if ltb (key x) (key y) then y :: insert_desc x l' else x :: l
  end.

Definition sorted_desc (l : list A) : list A := foldr insert_desc [] l.
End Sort.

(** [kw in s] on strings: [kw] occurs somewhere in [s]. *)
Fixpoint contains (kw s : string) : bool :=
  String.prefix kw s
  || match s with
     | EmptyString => false
     | String _ s' => contains kw s'
     end.

End Py.

(** ** The classifier and its label mapper ([emotion_engine/classifier.py]) *)

Module Classifier.

(** One invocation of the external model on a text: [Some results] is the
    list of label and score records it returns, [None] stands for any
    exception raised while loading or running it. *)
Definition model : Type := string -> option (list (string * Q)).

Definition classify_text (classifier : model) (text : string) (max_length : nat)
    : list (string * Q) :=
  if ((String.length text =? 0) || (String.length (Py.strip text) <? 10))%nat then []
  else
    let text :=
      if (max_length <? String.length text)%nat
      then String.substring 0 max_length text else text in
    match classifier text with
    | Some results =>
        foldl (fun emotions '(label, score) => Py.set emotions (Py.lower label) score)
              [] results
    | None => []
    end.

Definition MODEL_TO_CATEGORY : gmap string (option string) :=
  list_to_map
    [ ("joy", Some "pure_joy");
      ("sadness", Some "cathartic_sadness");
      ("anger", Some "righteous_anger");
      ("fear", Some "controlled_fear");
      ("surprise", Some "mind_blown");
      ("disgust", Some "controlled_fear");
      ("neutral", None);
      ("love", Some "romantic_warmth");
      ("excitement", Some "thrilling_tension");
      ("admiration", Some "triumphant_inspired");
      ("amusement", Some "pure_joy");
      ("gratitude", Some "bittersweet_hope");
      ("optimism", Some "bittersweet_hope");
      ("relief", Some "cozy_comfort");
      ("pride", Some "triumphant_inspired");
      ("curiosity", Some "intellectual_stimulation");
      ("confusion", Some "mind_blown");
      ("nervousness", Some "thrilling_tension");
      ("remorse", Some "cathartic_sadness");
      ("grief", Some "cathartic_sadness");
      ("disappointment", Some "cathartic_sadness");
      ("embarrassment", Some "cathartic_sadness");
      ("realization", Some "mind_blown");
      ("approval", Some "cozy_comfort");
      ("caring", Some "romantic_warmth");
      ("desire", Some "romantic_warmth");
      ("annoyance", Some "righteous_anger");
      ("disapproval", Some "righteous_anger") ].

(** [MODEL_TO_CATEGORY.get(emotion.lower())] followed by the test
    [if category:], which rejects [None] and the empty string. *)
Definition category_of (emotion : string) : option string :=
  match MODEL_TO_CATEGORY !! Py.lower emotion with
  | Some (Some category) => if String.eqb category "" then None else Some category
  | _ => None
  end.

(** The body of the loop of [map_to_categories]. *)
Definition map_step (category_scores : gmap string Q) (item : string * Q)
    : gmap string Q :=
  let '(emotion, score) := item in
  match category_of emotion with
  | Some category =>
      match category_scores !! category with
      | Some old => <[category := Py.max old score]> category_scores
      | None => <[category := score]> category_scores
      end
  | None => category_scores
  end.

Definition map_to_categories (emotions : list (string * Q)) : gmap string Q :=
  foldl map_step ∅ emotions.

End Classifier.

(** ** The genre heuristic model ([emotion_engine/genre_mapper.py]) *)

Module GenreMapper.

Definition GENRE_EMOTION_MAP : gmap string (list (string * Q)) :=
  list_to_map
    [ ("action", [("thrilling_tension", 0.8); ("triumphant_inspired", 0.6);
                  ("righteous_anger", 0.4); ("awe_wonder", 0.3)]);
      ("adventure", [("awe_wonder", 0.8); ("thrilling_tension", 0.6);
                     ("triumphant_inspired", 0.5); ("pure_joy", 0.4)]);
      ("thriller", [("thrilling_tension", 0.9); ("controlled_fear", 0.6);
                    ("mind_blown", 0.5); ("intellectual_stimulation", 0.4)]);
      ("drama", [("cathartic_sadness", 0.7); ("bittersweet_hope", 0.6);
                 ("intellectual_stimulation", 0.4); ("triumphant_inspired", 0.3)]);
      ("romance", [("romantic_warmth", 0.9); ("bittersweet_hope", 0.5);
                   ("cathartic_sadness", 0.3); ("pure_joy", 0.4)]);
      ("comedy", [("pure_joy", 0.9); ("cozy_comfort", 0.5); ("romantic_warmth", 0.3)]);
      ("family", [("cozy_comfort", 0.8); ("pure_joy", 0.7);
                  ("bittersweet_hope", 0.4); ("romantic_warmth", 0.3)]);
      ("animation", [("awe_wonder", 0.7); ("pure_joy", 0.6); ("cozy_comfort", 0.5)]);
      ("horror", [("controlled_fear", 0.9); ("thrilling_tension", 0.7);
                  ("cathartic_sadness", 0.2)]);
      ("crime", [("thrilling_tension", 0.7); ("righteous_anger", 0.6);
                 ("intellectual_stimulation", 0.5); ("mind_blown", 0.4)]);
      ("mystery", [("intellectual_stimulation", 0.8); ("thrilling_tension", 0.6);
                   ("mind_blown", 0.7)]);
      ("war", [("cathartic_sadness", 0.7); ("righteous_anger", 0.6);
               ("triumphant_inspired", 0.5); ("thrilling_tension", 0.5)]);
      ("science fiction", [("awe_wonder", 0.8); ("intellectual_stimulation", 0.7);
                           ("mind_blown", 0.6); ("thrilling_tension", 0.4)]);
      ("fantasy", [("awe_wonder", 0.8); ("pure_joy", 0.5);
                   ("triumphant_inspired", 0.5); ("romantic_warmth", 0.3)]);
      ("documentary", [("intellectual_stimulation", 0.9); ("mind_blown", 0.5);
                       ("awe_wonder", 0.4)]);
      ("music", [("pure_joy", 0.7); ("triumphant_inspired", 0.6);
                 ("romantic_warmth", 0.5)]);
      ("history", [("intellectual_stimulation", 0.7); ("bittersweet_hope", 0.5);
                   ("cathartic_sadness", 0.4)]);
      ("western", [("righteous_anger", 0.6); ("thrilling_tension", 0.5);
                   ("triumphant_inspired", 0.4)]) ].

(** [genre.lower().strip()]. *)
Definition normalize (genre : string) : string := Py.strip (Py.lower genre).

(** The inner loop body: one [(emotion, score)] entry of a genre. *)
Definition emotion_step (emotion_scores : gmap string Q) (item : string * Q)
    : gmap string Q :=
  let '(emotion, score) := item in
  match emotion_scores !! emotion with
  | Some old => <[emotion := (old + score) / 2]> emotion_scores
  | None => <[emotion := score]> emotion_scores
  end.

(** The outer loop body: one genre of the input list. *)
Definition genre_step (emotion_scores : gmap string Q) (genre : string)
    : gmap string Q :=
  match GENRE_EMOTION_MAP !! normalize genre with
  | Some genre_emotions => foldl emotion_step emotion_scores genre_emotions
  | None => emotion_scores
  end.

Definition get_genre_emotions (genres : list string) : gmap string Q :=
  match genres with
  | [] => ∅
  | _ => foldl genre_step ∅ genres
  end.

Definition HIGH_INTENSITY : gset string :=
  list_to_set ["action"; "thriller"; "horror"; "war"; "crime"].
Definition MEDIUM_INTENSITY : gset string :=
  list_to_set ["adventure"; "mystery"; "science fiction"; "drama"; "western"].
Definition LOW_INTENSITY : gset string :=
  list_to_set ["comedy"; "family"; "romance"; "animation"; "music"].

Definition intensity_of (genre : string) : Q :=
  let genre_lower := normalize genre in
  if bool_decide (genre_lower ∈ HIGH_INTENSITY) then 8
  else if bool_decide (genre_lower ∈ MEDIUM_INTENSITY) then 5
  else if bool_decide (genre_lower ∈ LOW_INTENSITY) then 3
  else 5.

Definition get_intensity_from_genres (genres : list string) : Q :=
  let scores := map intensity_of genres in
  match scores with
  | [] => 5
  | _ => Py.sum scores / Py.len scores
  end.

Definition HIGH_COMFORT : gset string :=
  list_to_set ["comedy"; "family"; "animation"; "romance"; "music"].
Definition MEDIUM_COMFORT : gset string :=
  list_to_set ["adventure"; "fantasy"; "drama"; "documentary"].
Definition LOW_COMFORT : gset string :=
  list_to_set ["horror"; "thriller"; "war"; "crime"].

Definition comfort_of (genre : string) : Q :=
  let genre_lower := normalize genre in
  if bool_decide (genre_lower ∈ HIGH_COMFORT) then 8
  else if bool_decide (genre_lower ∈ MEDIUM_COMFORT) then 5
  else if bool_decide (genre_lower ∈ LOW_COMFORT) then 2
  else 5.

Definition get_comfort_from_genres (genres : list string) : Q :=
  let scores := map comfort_of genres in
  match scores with
  | [] => 5
  | _ => Py.sum scores / Py.len scores
  end.

End GenreMapper.

(** ** The profile synthesizer ([emotion_engine/profiler.py]) *)

Module Profiler.

(** The exceptions the synthesizer can raise. *)
Inductive exn : Type := ZeroDivisionError.

Definition result (A : Type) : Type := exn + A.

Definition bind {A B} (r : result A) (k : A -> result B) : result B :=
  match r with
  | inl e => inl e
  | inr a => k a
  end.

Notation "x <-! r ; k" := (bind r (fun x => k))
  (at level 100, r at next level, right associativity).

(** [a / b] on floats raises on a zero divisor. *)
Definition div (a b : Q) : result Q :=
  if Qeq_bool b 0 then inl ZeroDivisionError else inr (a / b).

Definition EMOTION_CATEGORIES : list string :=
  [ "cathartic_sadness"; "thrilling_tension"; "mind_blown"; "pure_joy";
    "bittersweet_hope"; "righteous_anger"; "cozy_comfort"; "controlled_fear";
    "intellectual_stimulation"; "romantic_warmth"; "triumphant_inspired";
    "awe_wonder" ].

Record EmotionProfile : Type := {
  emotion_scores : list (string * Q);
  dominant_emotions : list string;
  intensity_score : Q;
  catharsis_score : Q;
  comfort_score : Q;
  confidence : Q
}.

(** [emotions.get(e, 0)]. *)
Definition score_of (emotions : list (string * Q)) (e : string) : Q :=
  default 0 (Py.get emotions e).

(** [max(xs) if xs else 0]. *)
Definition max_or_zero (xs : list Q) : Q :=
  match xs with
  | [] => 0
  | x :: xs' => Py.max_list x xs'
  end.

(** [sum(xs) / len(xs) if xs else 0]. *)
Definition mean_or_zero (xs : list Q) : Q :=
  match xs with
  | [] => 0
  | _ => Py.sum xs / Py.len xs
  end.

Definition HIGH_INTENSITY_EMOTIONS : list string :=
  ["thrilling_tension"; "controlled_fear"; "righteous_anger"; "mind_blown"].

Definition calculate_intensity (emotions : list (string * Q)) (genres : list string) : Q :=
  let intensity_scores := map (score_of emotions) HIGH_INTENSITY_EMOTIONS in
  let emotion_intensity := max_or_zero intensity_scores in
  let genre_intensity := GenreMapper.get_intensity_from_genres genres / 10 in
  let combined := emotion_intensity * 0.7 + genre_intensity * 0.3 in
  combined * 10.

Definition CATHARTIC_EMOTIONS : list string :=
  ["cathartic_sadness"; "bittersweet_hope"; "triumphant_inspired"; "awe_wonder"].

Definition calculate_catharsis (emotions : list (string * Q)) : Q :=
  let catharsis_scores := map (score_of emotions) CATHARTIC_EMOTIONS in
  let max_catharsis := max_or_zero catharsis_scores in
  let avg_catharsis := mean_or_zero catharsis_scores in
  (max_catharsis * 0.7 + avg_catharsis * 0.3) * 10.

Definition COMFORT_EMOTIONS : list string :=
  ["pure_joy"; "cozy_comfort"; "romantic_warmth"].

Definition DISCOMFORT_EMOTIONS : list string :=
  ["controlled_fear"; "thrilling_tension"; "cathartic_sadness"].

Definition calculate_comfort (emotions : list (string * Q)) (genres : list string) : Q :=
  let comfort_scores := map (score_of emotions) COMFORT_EMOTIONS in
  let discomfort_scores := map (score_of emotions) DISCOMFORT_EMOTIONS in
  let comfort := mean_or_zero comfort_scores in
  let discomfort := mean_or_zero discomfort_scores in
  let genre_comfort := GenreMapper.get_comfort_from_genres genres / 10 in
  let net_comfort := comfort - discomfort * 0.5 in
  let combined := net_comfort * 0.6 + genre_comfort * 0.4 in
  Py.max 0 (Py.min 10 (combined * 10)).

(** [len(overview)] as a number. *)
Definition text_len (overview : string) : Q :=
  inject_Z (Z.of_nat (String.length overview)).

(** The test [overview and len(overview) > 20]; [None] is an absent text. *)
Definition text_used (overview : option string) : option string :=
  match overview with
  | Some text =>
      if (negb (String.length text =? 0) && (20 <? String.length text))%nat
      then Some text else None
  | None => None
  end.

(** The weighted combination of one category, [None] when it is dropped. *)
Definition combined_entry (nlp_emotions genre_emotions : gmap string Q)
    (nlp_weight genre_weight : Q) (category : string) : option (string * Q) :=
  let nlp_score := default 0 (nlp_emotions !! category) in
  let genre_score := default 0 (genre_emotions !! category) in
  let combined_score := nlp_score * nlp_weight + genre_score * genre_weight in
  if Py.ltb 0.01 combined_score
  then Some (category, Py.round combined_score 3) else None.

(** The body of [create_emotion_profile] after the weights are normalized.
    The loop over [EMOTION_CATEGORIES] inserts distinct keys in the order
    of that list, so the dict it builds is the list of the entries kept. *)
Definition profile_of (classifier : Classifier.model) (overview : option string)
    (genres : list string) (nlp_weight genre_weight : Q) : EmotionProfile :=
  let '(nlp_emotions, confidence) :=
    match text_used overview with
    | Some text =>
        let raw_emotions := Classifier.classify_text classifier text 512 in
        (Classifier.map_to_categories raw_emotions,
         Py.min 0.9 (0.5 + text_len text / 1000))
    | None => (∅, 0.5)
    end in
  let genre_emotions := GenreMapper.get_genre_emotions genres in
  let combined_emotions :=
    omap (combined_entry nlp_emotions genre_emotions nlp_weight genre_weight)
         EMOTION_CATEGORIES in
  let sorted_emotions := Py.sorted_desc snd combined_emotions in
  let dominant_emotions := map fst (Py.slice_to 3 sorted_emotions) in
  let intensity := calculate_intensity combined_emotions genres in
  let catharsis := calculate_catharsis combined_emotions in
  let comfort := calculate_comfort combined_emotions genres in
  {| emotion_scores := combined_emotions;
     dominant_emotions := dominant_emotions;
     intensity_score := Py.round intensity 1;
     catharsis_score := Py.round catharsis 1;
     comfort_score := Py.round comfort 1;
     confidence := Py.round confidence 2 |}.

Definition create_emotion_profile (classifier : Classifier.model)
    (overview : option string) (genres : list string) (nlp_weight genre_weight : Q)
    : result EmotionProfile :=
  let total_weight := nlp_weight + genre_weight in
  nlp_weight' <-! div nlp_weight total_weight;
  genre_weight' <-! div genre_weight total_weight;
  inr (profile_of classifier overview genres nlp_weight' genre_weight').

(** The default weights of [create_emotion_profile]. *)
Definition default_nlp_weight : Q := 0.6.
Definition default_genre_weight : Q := 0.4.

End Profiler.

(** ** The weights in floating point *)

Module Float64.

(** The first three statements of [create_emotion_profile] in binary64
    arithmetic, the arithmetic of Python's [float]: [None] stands for the
    [ZeroDivisionError] of a division by zero. *)
Definition normalized_weights (nlp_weight genre_weight : PrimFloat.float)
    : option (PrimFloat.float * PrimFloat.float) :=
  let total_weight := PrimFloat.add nlp_weight genre_weight in
  if PrimFloat.eqb total_weight PrimFloat.zero then None
  else Some (PrimFloat.div nlp_weight total_weight,
             PrimFloat.div genre_weight total_weight).

End Float64.

(** ** The mood recommender ([recommender/engine.py]) *)

Module Engine.

(** One entry of [MOOD_PRESETS]: a dict with the optional keys
    ['primary'], ['intensity'] and ['comfort']. *)
Record MoodParams : Type := {
  primary : option string;
  intensity : option string;
  comfort : option string
}.

Definition mood (p i c : option string) : MoodParams :=
  {| primary := p; intensity := i; comfort := c |}.

(** The empty dict [{}] of an unknown mood. *)
Definition no_params : MoodParams := mood None None None.

Definition MOOD_PRESETS : gmap string MoodParams :=
  list_to_map
    [ ("stressed", mood None (Some "low") (Some "high"));
      ("sad", mood (Some "cathartic_sadness") None (Some "medium"));
      ("bored", mood (Some "thrilling_tension") (Some "high") None);
      ("anxious", mood None (Some "low") (Some "high"));
      ("happy", mood (Some "pure_joy") None (Some "high"));
      ("lonely", mood (Some "romantic_warmth") None (Some "high"));
      ("angry", mood (Some "righteous_anger") (Some "high") None);
      ("tired", mood None (Some "low") (Some "high"));
      ("curious", mood (Some "intellectual_stimulation") None None);
      ("romantic", mood (Some "romantic_warmth") None None);
      ("adventurous", mood (Some "awe_wonder") (Some "high") None);
      ("reflective", mood (Some "bittersweet_hope") (Some "low") None) ].

Definition DESIRED_FEELINGS : gmap string (list string) :=
  list_to_map
    [ ("feel-good", ["pure_joy"; "cozy_comfort"; "romantic_warmth"]);
      ("thrilled", ["thrilling_tension"; "controlled_fear"; "mind_blown"]);
      ("inspired", ["triumphant_inspired"; "awe_wonder"; "bittersweet_hope"]);
      ("cry", ["cathartic_sadness"; "bittersweet_hope"]);
      ("laugh", ["pure_joy"; "cozy_comfort"]);
      ("think", ["intellectual_stimulation"; "mind_blown"]);
      ("scared", ["controlled_fear"; "thrilling_tension"]);
      ("romantic", ["romantic_warmth"; "bittersweet_hope"]);
      ("empowered", ["triumphant_inspired"; "righteous_anger"]);
      ("relaxed", ["cozy_comfort"; "pure_joy"]);
      ("amazed", ["awe_wonder"; "mind_blown"]) ].

(** One row of [movies_df], with the columns the recommender reads.  Every
    column is present, so the defaults of [row.get(column, default)] are
    never taken, and the title is the ['title'] column. *)
Record MovieRow : Type := {
  title : string;
  overview : string;
  genres : list string;
  poster_url : string;
  dominant_emotions : list string;
  intensity_score : Q;
  comfort_score : Q
}.

Record MovieRecommendation : Type := {
  rec_title : string;
  rec_overview : string;
  rec_genres : list string;
  rec_poster_url : string;
  rec_dominant_emotions : list string;
  rec_intensity_score : Q;
  rec_comfort_score : Q;
  match_score : Q;
  explanation : string
}.

(** [e in movie_emotions]. *)
Definition mem (e : string) (movie_emotions : list string) : bool :=
  bool_decide (e ∈ movie_emotions).

Definition _calculate_match_score (movie_row : MovieRow) (mood_params : MoodParams)
    (desired_emotions : list string) : Q :=
  let score := 0 in
  let movie_emotions := dominant_emotions movie_row in
  let emotion_match :=
    foldl (fun m emotion => if mem emotion movie_emotions then m + 1 else m)
          0 desired_emotions in
  let emotion_score :=
    match desired_emotions with
    | [] => 0
    | _ => emotion_match / Py.len desired_emotions
    end in
  let score := score + emotion_score * 0.4 in
  let movie_intensity := intensity_score movie_row in
  let desired_intensity := default "medium" (intensity mood_params) in
  let intensity_score :=
    if String.eqb desired_intensity "low" then Py.max 0 (1 - movie_intensity / 10)
    else if String.eqb desired_intensity "high" then movie_intensity / 10
    else 1 - Qabs (movie_intensity - 5) / 5 in
  let score := score + intensity_score * 0.3 in
  let movie_comfort := comfort_score movie_row in
  let desired_comfort := default "medium" (comfort mood_params) in
  let comfort_score :=
    if String.eqb desired_comfort "high" then movie_comfort / 10
    else if String.eqb desired_comfort "low" then Py.max 0 (1 - movie_comfort / 10)
    else 1 - Qabs (movie_comfort - 5) / 5 in
  let score := score + comfort_score * 0.3 in
  let score :=
    match primary mood_params with
    | Some p => if mem p movie_emotions then score + 0.1 else score
    | None => score
    end in
  Py.min 1 score.

(** [e.replace('_', ' ')]. *)
Fixpoint replace_underscores (s : string) : string :=
  match s with
  | EmptyString => EmptyString
  | String c s' =>
      String (if Ascii.eqb c "_" then " "%char else c) (replace_underscores s')
  end.

Definition _generate_explanation (movie_row : MovieRow)
    (current_mood desired_feeling : string) : string :=
  let dominant := dominant_emotions movie_row in
  let emotions_text :=
    String.concat ", " (map replace_underscores (Py.slice_to 2 dominant)) in
  if String.eqb desired_feeling "feel-good" then
    "A comforting choice with " +:+ emotions_text +:+ " to lift your spirits."
  else if String.eqb desired_feeling "thrilled" then
    "An intense experience with " +:+ emotions_text +:+ " to get your heart racing."
  else if String.eqb desired_feeling "cry" then
    "An emotional journey with " +:+ emotions_text +:+ " for a good cathartic release."
  else if String.eqb desired_feeling "inspired" then
    "An uplifting film with " +:+ emotions_text +:+ " to inspire you."
  else if String.eqb desired_feeling "think" then
    "A thought-provoking movie with " +:+ emotions_text +:+ " to engage your mind."
  else
    "Featuring " +:+ emotions_text +:+ " - a great match for your mood.".

(** The fields every recommendation copies from its row. *)
Definition recommendation (row : MovieRow) (score : Q) (text : string)
    : MovieRecommendation :=
  {| rec_title := title row;
     rec_overview := String.substring 0 200 (overview row) +:+ "...";
     rec_genres := genres row;
     rec_poster_url := poster_url row;
     rec_dominant_emotions := dominant_emotions row;
     rec_intensity_score := intensity_score row;
     rec_comfort_score := comfort_score row;
     match_score := score;
     explanation := text |}.

(** [MOOD_PRESETS.get(current_mood.lower(), {})]. *)
Definition mood_params_of (current_mood : string) : MoodParams :=
  default no_params (MOOD_PRESETS !! Py.lower current_mood).

(** [DESIRED_FEELINGS.get(desired_feeling.lower(), [])], with the default
    taken when the list is empty. *)
Definition desired_emotions_of (desired_feeling : string) : list string :=
  match default [] (DESIRED_FEELINGS !! Py.lower desired_feeling) with
  | [] => ["pure_joy"; "cozy_comfort"]
  | desired_emotions => desired_emotions
  end.

(** The list [scores] of [recommend_by_mood] after [scores.sort]: the
    pairs of a row index and its score, best first. *)
Definition ranked_by_mood (movies_df : list MovieRow)
    (current_mood desired_feeling : string) : list (nat * Q) :=
  let mood_params := mood_params_of current_mood in
  let desired_emotions := desired_emotions_of desired_feeling in
  let scores :=
    imap (fun idx row => (idx, _calculate_match_score row mood_params desired_emotions))
         movies_df in
  Py.sorted_desc snd scores.

(** The second loop of [recommend_by_mood]; [movies_df.iloc[idx]] is a
    lookup by position. *)
Definition recommend_by_mood (movies_df : list MovieRow)
    (current_mood desired_feeling : string) (n_recommendations : Z)
    : list MovieRecommendation :=
  let scores := ranked_by_mood movies_df current_mood desired_feeling in
  omap (fun '(idx, score) =>
          row ← movies_df !! idx;
          Some (recommendation row score
                  (_generate_explanation row current_mood desired_feeling)))
       (Py.slice_to n_recommendations scores).

(** The ranking and the selection of [recommend_by_mood] with the scoring
    left open: [score row] stands for the number [_calculate_match_score]
    returns for the row, whatever way it is computed and rounded, and
    [explain row] for the explanation of the row.  Only the comparison of
    the scores enters the order. *)
Definition ranked_by (score : MovieRow -> Q) (movies_df : list MovieRow)
    : list (nat * Q) :=
  let scores := imap (fun idx row => (idx, score row)) movies_df in
  Py.sorted_desc snd scores.

Definition recommend_by (score : MovieRow -> Q) (explain : MovieRow -> string)
    (movies_df : list MovieRow) (n_recommendations : Z) : list MovieRecommendation :=
  let scores := ranked_by score movies_df in
  omap (fun '(idx, score) =>
          row ← movies_df !! idx;
          Some (recommendation row score (explain row)))
       (Py.slice_to n_recommendations scores).

(** [int(x)]: truncation towards zero. *)
Definition int (x : Q) : Z := Z.quot (Qnum x) (Zpos (Qden x)).

(** The fraction of [target_emotions] found in the row's dominant
    emotions, [0] for an empty target list. *)
Definition emotion_fraction (target_emotions movie_emotions : list string) : Q :=
  let match_count :=
    Py.sum (map (fun _ => 1) (filter (fun e => mem e movie_emotions = true) target_emotions)) in
  match target_emotions with
  | [] => 0
  | _ => match_count / Py.len target_emotions
  end.

(** The boolean mask that selects the rows of [df]. *)
Definition in_bounds (min_intensity max_intensity min_comfort : Q) (row : MovieRow)
    : bool :=
  Qle_bool min_intensity (intensity_score row)
  && Qle_bool (intensity_score row) max_intensity
  && Qle_bool min_comfort (comfort_score row).

(** The list [scores] of [recommend_by_emotions] after [scores.sort]; the
    filtered frame [df] keeps the index labels of [movies_df]. *)
Definition ranked_by_emotions (movies_df : list MovieRow) (target_emotions : list string)
    (min_intensity max_intensity min_comfort : Q) : list (nat * Q) :=
  let df :=
    filter (fun ir => in_bounds min_intensity max_intensity min_comfort ir.2 = true)
           (imap pair movies_df) in
  let scores :=
    map (fun ir => (ir.1, emotion_fraction target_emotions (dominant_emotions ir.2))) df in
  Py.sorted_desc snd scores.

(** The second loop of [recommend_by_emotions]; [movies_df.loc[idx]] is a
    lookup by index label. *)
Definition recommend_by_emotions (movies_df : list MovieRow)
    (target_emotions : list string) (min_intensity max_intensity min_comfort : Q)
    (n_recommendations : Z) : list MovieRecommendation :=
  let scores :=
    ranked_by_emotions movies_df target_emotions min_intensity max_intensity min_comfort in
  omap (fun '(idx, score) =>
          row ← movies_df !! idx;
          Some (recommendation row score
                  ("Matches " +:+ pretty (int (score * 100))
                   +:+ "% of your desired emotions.")))
       (Py.slice_to n_recommendations scores).

(** [journey.append(recs[0])] under the guard [if recs:]. *)
Definition append_first {A} (journey recs : list A) : list A :=
  match recs with
  | r :: _ => journey ++ [r]
  | [] => journey
  end.

Definition get_mood_journey (movies_df : list MovieRow) (start_mood end_mood : string)
    (n_movies : Z) : list MovieRecommendation :=
  let journey := [] in
  let first_recs := recommend_by_mood movies_df start_mood start_mood 1 in
  let journey := append_first journey first_recs in
  let journey :=
    if (3 <=? n_movies)%Z
    then journey ++ recommend_by_mood movies_df start_mood end_mood (n_movies - 2)
    else journey in
  let final_recs := recommend_by_mood movies_df "neutral" end_mood 1 in
  let journey := append_first journey final_recs in
  Py.slice_to n_movies journey.

(** [MovieRecommendation.to_dict]: the dict has the fields of the dataclass
    as keys, with the match score rounded to two decimals. *)
Definition to_dict (rec : MovieRecommendation) : MovieRecommendation :=
  {| rec_title := rec_title rec;
     rec_overview := rec_overview rec;
     rec_genres := rec_genres rec;
     rec_poster_url := rec_poster_url rec;
     rec_dominant_emotions := rec_dominant_emotions rec;
     rec_intensity_score := rec_intensity_score rec;
     rec_comfort_score := rec_comfort_score rec;
     match_score := Py.round (match_score rec) 2;
     explanation := explanation rec |}.

End Engine.

(** ** The web layer ([api/main.py]) *)

Module Api.

(** The two keyword dicts, in the order of their declaration, which is the
    order [.items()] yields them in. *)
Definition MOOD_KEYWORDS : list (string * list string) :=
  [ ("stressed", ["stressed"; "stress"; "overwhelmed"; "anxious"; "anxiety"; "tense";
                  "pressure"]);
    ("sad", ["sad"; "depressed"; "down"; "unhappy"; "lonely"; "melancholy"; "blue";
             "crying"]);
    ("bored", ["bored"; "boring"; "nothing to do"; "uninterested"; "dull"]);
    ("happy", ["happy"; "good"; "great"; "excited"; "joyful"; "cheerful"]);
    ("tired", ["tired"; "exhausted"; "sleepy"; "worn out"; "fatigued"]);
    ("angry", ["angry"; "frustrated"; "annoyed"; "mad"; "furious"]);
    ("lonely", ["lonely"; "alone"; "isolated"; "single"]);
    ("romantic", ["romantic"; "love"; "date night"; "partner"; "couple"]);
    ("curious", ["curious"; "interesting"; "learn"; "documentary"; "educational"]);
    ("adventurous", ["adventurous"; "adventure"; "explore"; "exciting"]) ].

Definition FEELING_KEYWORDS : list (string * list string) :=
  [ ("feel-good", ["feel good"; "feel-good"; "uplifting"; "positive"; "happy ending";
                   "light"; "cheerful"]);
    ("thrilled", ["thrilling"; "thriller"; "exciting"; "action"; "edge of seat";
                  "adrenaline"; "intense"]);
    ("inspired", ["inspired"; "inspiring"; "motivating"; "motivation"; "uplifting";
                  "triumphant"]);
    ("cry", ["cry"; "crying"; "emotional"; "tearjerker"; "sad movie"; "cathartic"]);
    ("laugh", ["laugh"; "funny"; "comedy"; "hilarious"; "humor"]);
    ("think", ["think"; "thought-provoking"; "mind-bending"; "intellectual"; "smart";
               "clever"]);
    ("scared", ["scared"; "scary"; "horror"; "frightening"; "terrifying"; "creepy"]);
    ("romantic", ["romantic"; "romance"; "love story"; "relationship"]);
    ("relaxed", ["relaxed"; "relaxing"; "calm"; "peaceful"; "cozy"; "comfort"]);
    ("amazed", ["amazed"; "amazing"; "spectacular"; "epic"; "visually stunning"]) ].

(** [sum(1 for kw in keywords if kw in text_lower)]. *)
Definition keyword_matches (keywords : list string) (text_lower : string) : nat :=
  length (filter (fun kw => Py.contains kw text_lower = true) keywords).

(** The body of a detection loop: the best key so far and its number of
    matches, updated only by a strictly larger number. *)
Definition detect_step (text_lower : string) (best : string * nat)
    (entry : string * list string) : string * nat :=
  let '(current, max_matches) := best in
  let '(key, keywords) := entry in
  let matches := keyword_matches keywords text_lower in
  if (max_matches <? matches)%nat then (key, matches) else (current, max_matches).

(** The first loop, with its default, and the second. *)
Definition detect_mood (text_lower : string) : string :=
  (foldl (detect_step text_lower) ("bored", 0%nat) MOOD_KEYWORDS).1.

Definition detect_feeling (text_lower : string) : string :=
  (foldl (detect_step text_lower) ("feel-good", 0%nat) FEELING_KEYWORDS).1.

Definition detect_mood_from_text (text : string) : string * string :=
  let text_lower := Py.lower text in
  let current_mood := detect_mood text_lower in
  let desired_feeling := detect_feeling text_lower in
  let desired_feeling :=
    if Py.contains "sunday" text_lower
       && (Py.contains "rainy" text_lower || Py.contains "lazy" text_lower)
    then "relaxed" else desired_feeling in
  let desired_feeling :=
    if Py.contains "date" text_lower then "romantic" else desired_feeling in
  if Py.contains "can't sleep" text_lower || Py.contains "insomnia" text_lower
  then ("anxious", "relaxed")
  else (current_mood, desired_feeling).

(** The dict [responses] of [generate_chat_response]. *)
Definition responses : list (string * string) :=
  [ ("feel-good", "I sense you could use some positivity! Here are some uplifting films that'll brighten your day:");
    ("thrilled", "Looking for excitement? These heart-pounding picks will get your adrenaline pumping:");
    ("inspired", "Ready to be motivated? These inspiring films will lift your spirits:");
    ("cry", "Sometimes we all need a good cry. These emotional gems will help you release those feelings:");
    ("laugh", "Laughter is the best medicine! Here are some comedies guaranteed to make you smile:");
    ("think", "Ready for a mental workout? These thought-provoking films will keep your mind engaged:");
    ("scared", "In the mood for some safe scares? These films will thrill without traumatizing:");
    ("romantic", "Love is in the air! These romantic picks are perfect for the mood:");
    ("relaxed", "Time to unwind! These cozy films are perfect for relaxation:");
    ("amazed", "Prepare to be amazed! These visually stunning films will blow your mind:") ].

Definition fallback_response : string :=
  "Based on what you're looking for, here are my top picks:".

Definition generate_chat_response (current_mood desired_feeling : string)
    (num_movies : nat) : string :=
  default fallback_response (Py.get responses desired_feeling).

(** The three recommendation endpoints: the recommender's answer, each
    recommendation turned into a dict. *)
Definition recommend_by_mood (movies_df : list Engine.MovieRow)
    (current_mood desired_feeling : string) (n_recommendations : Z)
    : list Engine.MovieRecommendation :=
  map Engine.to_dict
    (Engine.recommend_by_mood movies_df current_mood desired_feeling n_recommendations).

Definition recommend_by_emotions (movies_df : list Engine.MovieRow)
    (target_emotions : list string) (min_intensity max_intensity min_comfort : Q)
    (n_recommendations : Z) : list Engine.MovieRecommendation :=
  map Engine.to_dict
    (Engine.recommend_by_emotions movies_df target_emotions
       min_intensity max_intensity min_comfort n_recommendations).

Definition recommend_journey (movies_df : list Engine.MovieRow)
    (start_mood end_mood : string) (n_movies : Z) : list Engine.MovieRecommendation :=
  map Engine.to_dict (Engine.get_mood_journey movies_df start_mood end_mood n_movies).

(** The answer of the [/chat] endpoint when nothing raises. *)
Record ChatResponse : Type := {
  response : string;
  detected_mood : string;
  detected_feeling : string;
  movies : list Engine.MovieRecommendation
}.

Definition chat (movies_df : list Engine.MovieRow) (message : string) : ChatResponse :=
  let '(current_mood, desired_feeling) := detect_mood_from_text message in
  let recommendations :=
    Engine.recommend_by_mood movies_df current_mood desired_feeling 5 in
  let response_text :=
    generate_chat_response current_mood desired_feeling (length recommendations) in
  {| response := response_text;
     detected_mood := current_mood;
     detected_feeling := desired_feeling;
     movies := map Engine.to_dict recommendations |}.

End Api.

(** * The vocabulary of the specification

    The notions the properties are stated in: those of the specification,
    written from its words, and names for a few intermediate values of the
    code. *)

(** ** Orders of a ranking *)

(** [ranks_before a b]: [a] has the larger key, or the keys are equal and
    [a] precedes [b] in the input. *)
Definition ranks_before {A : Type} (key : A -> Q) (prec : A -> A -> Prop) (a b : A)
    : Prop :=
  key b < key a \/ (key a == key b /\ prec a b).

(** Catalog order on the pairs of a row index and a score. *)
Definition index_order (a b : nat * Q) : Prop := (a.1 < b.1)%nat.

(** The order of a ranking: descending score, ties by catalog order. *)
Definition rank_order : nat * Q -> nat * Q -> Prop := ranks_before snd index_order.

(** ** The match score *)

(** The fraction of the target categories that are among the item's
    dominant emotions. *)
Definition fraction_present (targets dominant : list string) : Q :=
  inject_Z (Z.of_nat (length (filter (.∈ dominant) targets)))
  / inject_Z (Z.of_nat (length targets)).

(** The match of a scalar [x] of the item with a preference band. *)
Definition preference_match (preference : option string) (x : Q) : Q :=
  if decide (preference = Some "low") then Qmax 0 (1 - x / 10)
  else if decide (preference = Some "high") then x / 10
  else 1 - Qabs (x - 5) / 5.

Definition primary_bonus (primary : option string) (dominant : list string) : Q :=
  match primary with
  | Some p => if decide (p ∈ dominant) then 0.1 else 0
  | None => 0
  end.

Definition match_score_spec (params : Engine.MoodParams) (targets : list string)
    (row : Engine.MovieRow) : Q :=
  Qmin 1
    (0.4 * fraction_present targets (Engine.dominant_emotions row)
     + 0.3 * preference_match (Engine.intensity params) (Engine.intensity_score row)
     + 0.3 * preference_match (Engine.comfort params) (Engine.comfort_score row)
     + primary_bonus (Engine.primary params) (Engine.dominant_emotions row)).

(** The score [recommend_by_mood] gives a row under the resolved query. *)
Definition mood_score (current_mood desired_feeling : string) (row : Engine.MovieRow)
    : Q :=
  Engine._calculate_match_score row (Engine.mood_params_of current_mood)
    (Engine.desired_emotions_of desired_feeling).

(** The recommendation built for a ranked pair. *)
Definition mood_recommendation (movies_df : list Engine.MovieRow)
    (current_mood desired_feeling : string)
    (rec : Engine.MovieRecommendation) (ranked : nat * Q)
    : Prop :=
  exists row, movies_df !! ranked.1 = Some row
    /\ rec = Engine.recommendation row ranked.2
               (Engine._generate_explanation row current_mood desired_feeling).

(** The rows that pass the intensity and comfort bounds. *)
Definition within_bounds (min_intensity max_intensity min_comfort : Q)
    (row : Engine.MovieRow) : Prop :=
  min_intensity <= Engine.intensity_score row <= max_intensity
  /\ min_comfort <= Engine.comfort_score row.

(** The recommendation built for a ranked pair. *)
Definition emotion_recommendation (movies_df : list Engine.MovieRow)
    (rec : Engine.MovieRecommendation)
    (ranked : nat * Q) : Prop :=
  exists row, movies_df !! ranked.1 = Some row
    /\ rec = Engine.recommendation row ranked.2
               ("Matches " +:+ pretty (Engine.int (ranked.2 * 100))
                +:+ "% of your desired emotions.").

(** ** The journey *)

(** The results of the three ranking calls, one after the other. *)
Definition journey_calls (movies_df : list Engine.MovieRow)
    (start_mood end_mood : string) (n_movies : Z) : list Engine.MovieRecommendation :=
  Engine.recommend_by_mood movies_df start_mood start_mood 1
  ++ (if (3 <=? n_movies)%Z
      then Engine.recommend_by_mood movies_df start_mood end_mood (n_movies - 2)
      else [])
  ++ Engine.recommend_by_mood movies_df "neutral" end_mood 1.

(** ** The signal mappers *)

(** The value a key holds after one more score [s] arrived for it. *)
Definition merge_score (combine : Q -> Q -> Q) (held : option Q) (s : Q) : option Q :=
  Some (match held with Some old => combine old s | None => s end).

(** The scores of the external labels that map to category [c], in the
    order of the raw output. *)
Definition scores_for (c : string) (emotions : list (string * Q)) : list Q :=
  map snd (filter (fun item => Classifier.category_of item.1 = Some c) emotions).

(** The largest element of a list, if it has one. *)
Definition maximum (xs : list Q) : option Q :=
  match xs with
  | [] => None
  | x :: xs' => Some (Py.max_list x xs')
  end.

(** The scores the known genres of the input contribute to category [c],
    in the order of the input list. *)
Definition contributions (c : string) (genres : list string) : list Q :=
  flat_map
    (fun genre =>
       match GenreMapper.GENRE_EMOTION_MAP !! GenreMapper.normalize genre with
       | Some genre_emotions => map snd (filter (fun item => item.1 = c) genre_emotions)
       | None => []
       end)
    genres.

(** The running average of a list of scores: the first one as it is, then
    the mean of the estimate so far and each next score. *)
Definition running_average (scores : list Q) : option Q :=
  match scores with
  | [] => None
  | s :: scores' => Some (foldl (fun acc s' => (acc + s') / 2) s scores')
  end.

Definition average (acc s : Q) : Q := (acc + s) / 2.

(** ** The profile *)

(** [a] is declared before [b] in the taxonomy. *)
Definition taxonomy_before (a b : string) : Prop :=
  exists i j, (i < j)%nat
    /\ Profiler.EMOTION_CATEGORIES !! i = Some a
    /\ Profiler.EMOTION_CATEGORIES !! j = Some b.

(** The order of the entries of a score map built category by category. *)
Definition entry_before (x y : string * Q) : Prop := taxonomy_before x.1 y.1.

(** The entries of a score map sorted by descending score, and the keys of
    the first [k] of them. *)
Definition ranked_entries (d : list (string * Q)) : list (string * Q) :=
  Py.sorted_desc snd d.

Definition top_entries (d : list (string * Q)) (k : nat) : list string :=
  (take k (ranked_entries d)).*1.


(** The confidence before rounding: [0.5] for an absent text or one of at
    most 20 characters, and [min(0.9, 0.5 + len(text)/1000)] otherwise. *)
Definition confidence_spec (overview : option string) : Q :=
  match overview with
  | None => 0.5
  | Some text =>
      if (String.length text <=? 20)%nat then 0.5
      else Qmin 0.9 (0.5 + Profiler.text_len text / 1000)
  end.

Definition unit_range (x : Q) : Prop := 0 <= x <= 1.

(** The contract of the external classifier: every score it returns lies
    in [[0, 1]]. *)
Definition classifier_contract (classifier : Classifier.model) : Prop :=
  forall text results,
    classifier text = Some results -> Forall (fun r => unit_range r.2) results.

(** ** A small catalog and a classifier, for instances of the theorems *)

(** Two films. *)
Definition the_lighthouse : Engine.MovieRow :=
  {| Engine.title := "The Lighthouse";
     Engine.overview := "Two keepers on a remote island.";
     Engine.genres := ["Horror"; "Drama"];
     Engine.poster_url := "";
     Engine.dominant_emotions := ["controlled_fear"; "thrilling_tension"; "cathartic_sadness"];
     Engine.intensity_score := 7.5;
     Engine.comfort_score := 1.5 |}.

Definition paddington : Engine.MovieRow :=
  {| Engine.title := "Paddington";
     Engine.overview := "A young bear travels to London in search of a home.";
     Engine.genres := ["Family"; "Comedy"; "Adventure"];
     Engine.poster_url := "";
     Engine.dominant_emotions := ["pure_joy"; "cozy_comfort"; "awe_wonder"];
     Engine.intensity_score := 2.7;
     Engine.comfort_score := 7.3 |}.

Definition two_films : list Engine.MovieRow := [the_lighthouse; paddington].

(** A classifier that answers every text with the same two labels, and one
    that is certain of fear. *)
Definition joyful : Classifier.model :=
  fun _ => Some [("joy", 0.9); ("sadness", 0.05)].

Definition fearful : Classifier.model := fun _ => Some [("fear", 1)].

(** ** Notions for the further properties *)

(** A recommendation with its explanation replaced. *)
Definition with_explanation (text : string) (rec : Engine.MovieRecommendation)
    : Engine.MovieRecommendation :=
  {| Engine.rec_title := Engine.rec_title rec;
     Engine.rec_overview := Engine.rec_overview rec;
     Engine.rec_genres := Engine.rec_genres rec;
     Engine.rec_poster_url := Engine.rec_poster_url rec;
     Engine.rec_dominant_emotions := Engine.rec_dominant_emotions rec;
     Engine.rec_intensity_score := Engine.rec_intensity_score rec;
     Engine.rec_comfort_score := Engine.rec_comfort_score rec;
     Engine.match_score := Engine.match_score rec;
     Engine.explanation := text |}.

(** The number of entries of [xs[:n]]. *)
Definition slice_length (n : Z) (len : nat) : nat :=
  if (0 <=? n)%Z then Nat.min (Z.to_nat n) len else Z.to_nat (Z.of_nat len + n).

(** The preference bands [_calculate_match_score] tells apart. *)
Definition known_band (band : option string) : Prop :=
  band = None \/ band = Some "low" \/ band = Some "medium" \/ band = Some "high".

(** A genre the genre table does not hold. *)
Definition unknown_genre (genre : string) : Prop :=
  GenreMapper.GENRE_EMOTION_MAP !! GenreMapper.normalize genre = None.

(** The profile of an item without usable text and without a known genre. *)
Definition low_signal_profile : Profiler.EmotionProfile :=
  {| Profiler.emotion_scores := [];
     Profiler.dominant_emotions := [];
     Profiler.intensity_score := 3 # 2;
     Profiler.catharsis_score := 0;
     Profiler.comfort_score := 2;
     Profiler.confidence := 1 # 2 |}.

(** The answer [key] of a detection loop over [table]: the default when
    no keyword of the table occurs in the text, and otherwise the first
    entry of the table among those with the most keywords in the text. *)
Definition first_best (text : string) (table : list (string * list string))
    (default key : string) : Prop :=
  (Forall (fun e => Api.keyword_matches e.2 text = 0%nat) table /\ key = default)
  \/ exists i kws,
       table !! i = Some (key, kws)
       /\ (0 < Api.keyword_matches kws text)%nat
       /\ Forall (fun e => (Api.keyword_matches e.2 text
                            <= Api.keyword_matches kws text)%nat) table
       /\ forall j e, (j < i)%nat -> table !! j = Some e ->
            (Api.keyword_matches e.2 text < Api.keyword_matches kws text)%nat.

(** A row whose intensity and comfort lie on the scale of the profiles. *)
Definition on_scale (row : Engine.MovieRow) : Prop :=
  0 <= Engine.intensity_score row <= 10 /\ 0 <= Engine.comfort_score row <= 10.

(** A number with at most two decimals. *)
Definition two_decimals (x : Q) : Prop := exists k : Z, x * 100 == inject_Z k.

(** The record returned for a ranked pair: it carries the title, the
    genres, the poster, the dominant emotions, the intensity and the
    comfort of the row at the index of the pair, and the score of the
    pair. *)
Definition record_of (movies_df : list Engine.MovieRow)
    (rec : Engine.MovieRecommendation) (ranked : nat * Q) : Prop :=
  exists row, movies_df !! ranked.1 = Some row
    /\ Engine.rec_title rec = Engine.title row
    /\ Engine.rec_genres rec = Engine.genres row
    /\ Engine.rec_poster_url rec = Engine.poster_url row
    /\ Engine.rec_dominant_emotions rec = Engine.dominant_emotions row
    /\ Engine.rec_intensity_score rec = Engine.intensity_score row
    /\ Engine.rec_comfort_score rec = Engine.comfort_score row
    /\ Engine.match_score rec = ranked.2.

(** [a] ranks before [b] in the score map [d]: a higher score, or the same
    score and an earlier place in the taxonomy. *)
Definition outranks (d : list (string * Q)) (a b : string) : Prop :=
  Profiler.score_of d b < Profiler.score_of d a
  \/ (Profiler.score_of d a == Profiler.score_of d b /\ taxonomy_before a b).

(** [l] lists the three best categories of the score map [d], best first,
    or all its categories when it holds fewer than three. *)
Definition top_three (d : list (string * Q)) (l : list string) : Prop :=
  length l = Nat.min 3 (length d)
  /\ (forall a, a ∈ l -> a ∈ d.*1)
  /\ (forall i j a b, (i < j)%nat -> l !! i = Some a -> l !! j = Some b -> outranks d a b)
  /\ (forall a b, a ∈ l -> b ∈ d.*1 -> b ∉ l -> outranks d a b).

(** The lookup table of the mapper, as the pairs of an external label and
    the taxonomy category it stands for; ['neutral'] stands for none and
    has no pair. *)
Definition label_categories : list (string * string) :=
  [ ("joy", "pure_joy"); ("sadness", "cathartic_sadness"); ("anger", "righteous_anger");
    ("fear", "controlled_fear"); ("surprise", "mind_blown");
    ("disgust", "controlled_fear"); ("love", "romantic_warmth");
    ("excitement", "thrilling_tension"); ("admiration", "triumphant_inspired");
    ("amusement", "pure_joy"); ("gratitude", "bittersweet_hope");
    ("optimism", "bittersweet_hope"); ("relief", "cozy_comfort");
    ("pride", "triumphant_inspired"); ("curiosity", "intellectual_stimulation");
    ("confusion", "mind_blown"); ("nervousness", "thrilling_tension");
    ("remorse", "cathartic_sadness"); ("grief", "cathartic_sadness");
    ("disappointment", "cathartic_sadness"); ("embarrassment", "cathartic_sadness");
    ("realization", "mind_blown"); ("approval", "cozy_comfort");
    ("caring", "romantic_warmth"); ("desire", "romantic_warmth");
    ("annoyance", "righteous_anger"); ("disapproval", "righteous_anger") ].

(** The scores of the raw output whose label, in lower case, stands for
    category [c] in the table, in the order of the raw output. *)
Definition table_scores (c : string) (emotions : list (string * Q)) : list Q :=
  map snd (filter (fun item => (Py.lower item.1, c) ∈ label_categories) emotions).

(** A text of ASCII characters only.  [String.length] counts the bytes of
    a text and Python's [len] its characters: on such a text they agree. *)
Definition ascii_text (text : string) : Prop :=
  Forall (fun c => (nat_of_ascii c < 128)%nat) (list_ascii_of_string text).


(** * Properties *)

(** Linear arithmetic on rationals, after the divisions by the constants of
    the code are turned into multiplications. *)
Ltac lra_div :=
  unfold Qdiv in *;
  change (/ 2) with (1 # 2) in *; change (/ 5) with (1 # 5) in *;
  change (/ 10) with (1 # 10) in *; change (/ 1000) with (1 # 1000) in *;
  lra.

(** ** Facts about the Python primitives *)

Section PyNumbers.

Lemma ltb_lt (a b : Q) : Py.ltb a b = true <-> a < b.
Proof.
  unfold Py.ltb. rewrite negb_true_iff.
  destruct (Qle_bool b a) eqn:E.
  - apply Qle_bool_iff in E. split; [discriminate | intros H; lra].
  - split; [intros _ | reflexivity].
    apply Qnot_le_lt. intros H. apply Qle_bool_iff in H. congruence.
Qed.

Lemma ltb_ge (a b : Q) : Py.ltb a b = false <-> b <= a.
Proof.
  destruct (Py.ltb a b) eqn:E.
  - apply ltb_lt in E. split; [discriminate | intros H; lra].
  - split; [intros _ | reflexivity].
    apply Qnot_lt_le. intros H. apply ltb_lt in H. congruence.
Qed.

Lemma max_cases (a b : Q) :
  (a < b /\ Py.max a b = b) \/ (b <= a /\ Py.max a b = a).
Proof.
  unfold Py.max. destruct (Py.ltb a b) eqn:E.
  - left. split; [by apply ltb_lt | done].
  - right. split; [by apply ltb_ge | done].
Qed.

Lemma min_cases (a b : Q) :
  (b < a /\ Py.min a b = b) \/ (a <= b /\ Py.min a b = a).
Proof.
  unfold Py.min. destruct (Py.ltb b a) eqn:E.
  - left. split; [by apply ltb_lt | done].
  - right. split; [by apply ltb_ge | done].
Qed.

Lemma max_Qmax (a b : Q) : Py.max a b == Qmax a b.
Proof.
  destruct (max_cases a b) as [[H ->] | [H ->]].
  - symmetry. apply Q.max_r. lra.
  - symmetry. by apply Q.max_l.
Qed.

Lemma min_Qmin (a b : Q) : Py.min a b == Qmin a b.
Proof.
  destruct (min_cases a b) as [[H ->] | [H ->]].
  - symmetry. apply Q.min_r. lra.
  - symmetry. by apply Q.min_l.
Qed.

Lemma max_bounds (lo hi a b : Q) :
  lo <= a <= hi -> lo <= b <= hi -> lo <= Py.max a b <= hi.
Proof. intros Ha Hb. by destruct (max_cases a b) as [[_ ->] | [_ ->]]. Qed.

Lemma max_list_bounds (lo hi x : Q) (xs : list Q) :
  lo <= x <= hi -> Forall (fun y => lo <= y <= hi) xs ->
  lo <= Py.max_list x xs <= hi.
Proof.
  unfold Py.max_list. intros Hx Hxs. revert x Hx.
  induction Hxs as [| y ys Hy _ IH]; intros x Hx; simpl; [done |].
  apply IH. by apply max_bounds.
Qed.

Lemma sum_from (acc : Q) (xs : list Q) : foldl Qplus acc xs == acc + Py.sum xs.
Proof.
  unfold Py.sum. revert acc. induction xs as [| x xs IH]; intros acc; simpl.
  - lra.
  - rewrite IH, (IH (0 + x)). lra.
Qed.

Lemma sum_cons (x : Q) (xs : list Q) : Py.sum (x :: xs) == x + Py.sum xs.
Proof. unfold Py.sum at 1. simpl. rewrite sum_from. lra. Qed.

Lemma len_cons {A} (x : A) (xs : list A) : Py.len (x :: xs) == 1 + Py.len xs.
Proof.
  unfold Py.len. simpl length. rewrite Nat2Z.inj_succ, <- Z.add_1_l.
  by rewrite inject_Z_plus.
Qed.

Lemma len_nonneg {A} (xs : list A) : 0 <= Py.len xs.
Proof. unfold Py.len. rewrite <- (Zle_Qle 0). lia. Qed.

(** The sum of a list lies between the bounds of its elements, scaled by
    its length. *)
Lemma sum_bounds (lo hi : Q) (xs : list Q) :
  Forall (fun y => lo <= y <= hi) xs ->
  lo * Py.len xs <= Py.sum xs <= hi * Py.len xs.
Proof.
  induction 1 as [| y ys Hy _ IH].
  - change (Py.sum []) with 0. change (Py.len (@nil Q)) with 0. lra.
  - rewrite sum_cons, len_cons. nra.
Qed.

(** The mean of a non-empty list lies between the bounds of its elements. *)
Lemma mean_bounds (lo hi : Q) (xs : list Q) :
  xs <> [] -> Forall (fun y => lo <= y <= hi) xs ->
  lo <= Py.sum xs / Py.len xs <= hi.
Proof.
  intros Hne Hxs. pose proof (sum_bounds lo hi xs Hxs) as [Hlo Hhi].
  assert (0 < Py.len xs) as Hpos.
  { destruct xs as [| x xs']; [done |].
    rewrite len_cons. pose proof (len_nonneg xs'). lra. }
  split.
  - by apply Qle_shift_div_l.
  - by apply Qle_shift_div_r.
Qed.

End PyNumbers.

Section Rounding.

Lemma round_half_even_cases (y : Q) :
  (y - inject_Z (Qfloor y) < 1 # 2 /\ Py.round_half_even y = Qfloor y)
  \/ (y - inject_Z (Qfloor y) == 1 # 2
      /\ (Py.round_half_even y = Qfloor y \/ Py.round_half_even y = (Qfloor y + 1)%Z))
  \/ (1 # 2 < y - inject_Z (Qfloor y) /\ Py.round_half_even y = (Qfloor y + 1)%Z).
Proof.
  unfold Py.round_half_even. cbv zeta.
  destruct (Qcompare (y - inject_Z (Qfloor y)) (1 # 2)) eqn:E.
  - right. left. apply Qeq_alt in E. split; [done |]. destruct (Z.even _); auto.
  - left. by apply Qlt_alt in E.
  - right. right. by apply Qgt_alt in E.
Qed.

Lemma round_half_even_lower (k : Z) (y : Q) :
  inject_Z k <= y -> (k <= Py.round_half_even y)%Z.
Proof.
  intros H. apply Qfloor_resp_le in H. rewrite Qfloor_Z in H.
  destruct (round_half_even_cases y) as [[_ ->] | [[_ [-> | ->]] | [_ ->]]]; lia.
Qed.

Lemma round_half_even_upper (k : Z) (y : Q) :
  y <= inject_Z k -> (Py.round_half_even y <= k)%Z.
Proof.
  intros H. pose proof (Qfloor_resp_le _ _ H) as Hf. rewrite Qfloor_Z in Hf.
  destruct (round_half_even_cases y) as [[_ ->] | [[Hhalf [-> | ->]] | [Hhalf ->]]];
    [done | done | |];
    (assert (Qfloor y < k)%Z; [rewrite Zlt_Qlt; lra | lia]).
Qed.

Lemma pow10_pos (ndigits : nat) : 0 < inject_Z (10 ^ Z.of_nat ndigits).
Proof. rewrite <- (Zlt_Qlt 0). apply Z.pow_pos_nonneg; lia. Qed.

Lemma round_scaled (x : Q) (ndigits : nat) :
  let p := inject_Z (10 ^ Z.of_nat ndigits) in
  Py.round x ndigits * p == inject_Z (Py.round_half_even (x * p)).
Proof.
  intros p. unfold Py.round. fold p. rewrite Qred_correct.
  pose proof (pow10_pos ndigits) as Hp. fold p in Hp.
  field. lra.
Qed.

(** Rounding to [ndigits] decimals does not cross a bound that has at
    most [ndigits] decimals itself. *)
Lemma round_lower (x : Q) (ndigits : nat) (a : Z) :
  let p := inject_Z (10 ^ Z.of_nat ndigits) in
  inject_Z a <= x * p -> inject_Z a <= Py.round x ndigits * p.
Proof.
  intros p Ha. subst p. rewrite round_scaled, <- Zle_Qle.
  by apply round_half_even_lower.
Qed.

Lemma round_upper (x : Q) (ndigits : nat) (b : Z) :
  let p := inject_Z (10 ^ Z.of_nat ndigits) in
  x * p <= inject_Z b -> Py.round x ndigits * p <= inject_Z b.
Proof.
  intros p Hb. subst p. rewrite round_scaled, <- Zle_Qle.
  by apply round_half_even_upper.
Qed.

(** Rounding to two decimals moves a number by at most half a hundredth. *)
Lemma round_two_error (x : Q) : Qabs (Py.round x 2 - x) <= 0.005.
Proof.
  pose proof (round_scaled x 2) as Hrs.
  pose proof (round_half_even_cases (x * 100)) as Hcases.
  pose proof (Qfloor_le (x * 100)) as Hfl.
  pose proof (Qlt_floor (x * 100)) as Hfu.
  cbv zeta in Hrs. change (inject_Z (10 ^ Z.of_nat 2)) with 100 in *.
  rewrite inject_Z_plus in Hfu. change (inject_Z 1) with 1 in Hfu.
  apply Qabs_Qle_condition. set (r := Py.round x 2) in *. clearbody r.
  set (f := inject_Z (Qfloor (x * 100))) in *.
  destruct Hcases as [[Hfrac Heq] | [[Hfrac [Heq | Heq]] | [Hfrac Heq]]];
    rewrite Heq in Hrs; clear Heq;
    rewrite ?inject_Z_plus in Hrs; change (inject_Z 1) with 1 in Hrs;
    fold f in Hrs; clearbody f; split; lra.
Qed.

End Rounding.

(** ** The stable descending sort *)

Section SortFacts.
Context {A : Type} (key : A -> Q) (prec : A -> A -> Prop).

Lemma insert_desc_perm (x : A) (l : list A) : Py.insert_desc key x l ≡ₚ x :: l.
Proof.
  induction l as [| y l IH]; simpl; [done |].
  destruct (Py.ltb (key x) (key y)); [| done].
  by rewrite IH, Permutation_swap.
Qed.

Lemma sorted_desc_perm (l : list A) : Py.sorted_desc key l ≡ₚ l.
Proof.
  induction l as [| x l IH]; simpl; [done |].
  by rewrite insert_desc_perm, IH.
Qed.

Lemma sorted_desc_length (l : list A) : length (Py.sorted_desc key l) = length l.
Proof. by rewrite sorted_desc_perm. Qed.

Lemma insert_desc_sorted (x : A) (l : list A) :
  StronglySorted (ranks_before key prec) l -> Forall (prec x) l ->
  StronglySorted (ranks_before key prec) (Py.insert_desc key x l).
Proof.
  induction 1 as [| y l Hl IH Hy]; intros Hx; simpl.
  - repeat constructor.
  - apply Forall_cons_1 in Hx as [Hxy Hxl].
    destruct (Py.ltb (key x) (key y)) eqn:E.
    + apply ltb_lt in E. constructor; [by apply IH |].
      rewrite insert_desc_perm. constructor; [by left | done].
    + apply ltb_ge in E. constructor; [by constructor |].
      assert (ranks_before key prec x y) as Hfirst.
      { destruct (Qlt_le_dec (key y) (key x)); [by left | right].
        split; [lra | done]. }
      constructor; [done |].
      rewrite Forall_forall in Hy, Hxl |- *. intros z Hz.
      destruct (Hy z Hz) as [Hlt | [Heq _]].
      * left. lra.
      * destruct (Qlt_le_dec (key y) (key x)); [left; lra | right].
        split; [lra | by apply Hxl].
Qed.

(** Sorting a list whose order is [prec] ranks it by descending key and,
    between equal keys, by [prec]. *)
Lemma sorted_desc_sorted (l : list A) :
  StronglySorted prec l -> StronglySorted (ranks_before key prec) (Py.sorted_desc key l).
Proof.
  induction 1 as [| x l Hl IH Hx]; simpl; [constructor |].
  apply insert_desc_sorted; [done |]. by rewrite sorted_desc_perm.
Qed.

(** Any other arrangement of the input that respects [ranks_before] is
    the one [sorted_desc] returns: the result does not depend on the
    sorting algorithm, only on its being stable. *)
Lemma sorted_desc_unique (l l' : list A) :
  (forall a b, prec a b -> prec b a -> False) ->
  StronglySorted prec l -> l' ≡ₚ l -> StronglySorted (ranks_before key prec) l' ->
  l' = Py.sorted_desc key l.
Proof.
  intros Hasym Hl Hperm Hl'.
  apply (StronglySorted_unique_strong (ranks_before key prec)); [| done | | ].
  - intros a b _ _ [H1 | [H1 P1]] [H2 | [H2 P2]]; try lra.
    destruct (Hasym a b P1 P2).
  - by apply sorted_desc_sorted.
  - by rewrite sorted_desc_perm.
Qed.

(** With equal keys throughout, the sort changes nothing. *)
Lemma sorted_desc_ties (l : list A) (k : Q) :
  Forall (fun a => key a == k) l -> Py.sorted_desc key l = l.
Proof.
  induction 1 as [| x l Hx Hl IH]; simpl; [done |].
  rewrite IH. destruct Hl as [| y l Hy Hl]; simpl; [done |].
  destruct (Py.ltb (key x) (key y)) eqn:E; [| done].
  apply ltb_lt in E. lra.
Qed.

Lemma StronglySorted_lookup (R : A -> A -> Prop) (l : list A) (i j : nat) (a b : A) :
  StronglySorted R l -> (i < j)%nat -> l !! i = Some a -> l !! j = Some b -> R a b.
Proof.
  intros Hl. revert i j. induction Hl as [| x l Hl IH Hx]; intros i j Hij Hi Hj.
  - by rewrite lookup_nil in Hi.
  - destruct j as [| j]; [lia |]. destruct i as [| i]; simpl in *.
    + simplify_eq. rewrite Forall_forall in Hx. apply Hx.
      by eapply list_elem_of_lookup_2.
    + apply (IH i j); [lia | done..].
Qed.

Lemma StronglySorted_take (R : A -> A -> Prop) (l : list A) (n : nat) :
  StronglySorted R l -> StronglySorted R (take n l).
Proof.
  intros Hl. rewrite <- (take_drop n l) in Hl.
  by apply StronglySorted_app_1_l in Hl.
Qed.

End SortFacts.

(** ** The match score of [rank_by_mood] *)

Section MatchScore.

Lemma count_matches (dominant targets : list string) (acc : Q) :
  foldl (fun m e => if Engine.mem e dominant then m + 1 else m) acc targets
  == acc + inject_Z (Z.of_nat (length (filter (.∈ dominant) targets))).
Proof.
  revert acc. induction targets as [| e targets IH]; intros acc; simpl.
  - change (inject_Z (Z.of_nat 0)) with 0. lra.
  - rewrite IH. unfold Engine.mem. rewrite filter_cons.
    destruct (decide (e ∈ dominant)) as [Hin | Hout].
    + rewrite bool_decide_eq_true_2 by done. simpl length.
      rewrite Nat2Z.inj_succ, <- Z.add_1_l, inject_Z_plus.
      change (inject_Z 1) with 1. lra.
    + rewrite bool_decide_eq_false_2 by done. lra.
Qed.

Lemma emotion_score_spec (dominant targets : list string) :
  match targets with
  | [] => 0
  | _ => foldl (fun m e => if Engine.mem e dominant then m + 1 else m) 0 targets
         / Py.len targets
  end == fraction_present targets dominant.
Proof.
  unfold fraction_present. destruct targets as [| e targets]; [done |].
  rewrite count_matches, Qplus_0_l. done.
Qed.

Lemma intensity_match_spec (preference : option string) (x : Q) :
  (let desired := default "medium" preference in
   if String.eqb desired "low" then Py.max 0 (1 - x / 10)
   else if String.eqb desired "high" then x / 10
   else 1 - Qabs (x - 5) / 5) == preference_match preference x.
Proof.
  unfold preference_match. cbv zeta.
  destruct preference as [s |]; simpl default.
  - destruct (String.eqb_spec s "low") as [-> | Hlow].
    + rewrite decide_True by done. apply max_Qmax.
    + rewrite decide_False by congruence.
      destruct (String.eqb_spec s "high") as [-> | Hhigh].
      * by rewrite decide_True.
      * by rewrite decide_False by congruence.
  - by rewrite !decide_False.
Qed.

Lemma comfort_match_spec (preference : option string) (x : Q) :
  (let desired := default "medium" preference in
   if String.eqb desired "high" then x / 10
   else if String.eqb desired "low" then Py.max 0 (1 - x / 10)
   else 1 - Qabs (x - 5) / 5) == preference_match preference x.
Proof.
  unfold preference_match. cbv zeta.
  destruct preference as [s |]; simpl default.
  - destruct (String.eqb_spec s "high") as [-> | Hhigh].
    + by rewrite decide_False, decide_True.
    + destruct (String.eqb_spec s "low") as [-> | Hlow].
      * rewrite decide_True by done. apply max_Qmax.
      * by rewrite !decide_False by congruence.
  - by rewrite !decide_False.
Qed.

Lemma calculate_match_score_spec (row : Engine.MovieRow) (params : Engine.MoodParams)
    (targets : list string) :
  Engine._calculate_match_score row params targets == match_score_spec params targets row.
Proof.
  unfold Engine._calculate_match_score, match_score_spec. cbv zeta.
  pose proof (emotion_score_spec (Engine.dominant_emotions row) targets) as He.
  pose proof (intensity_match_spec (Engine.intensity params) (Engine.intensity_score row)) as Hi.
  pose proof (comfort_match_spec (Engine.comfort params) (Engine.comfort_score row)) as Hc.
  cbv zeta in Hi, Hc.
  set (e := match targets with [] => 0 | _ => _ end) in *.
  set (i := if String.eqb _ "low" then _ else _) in *.
  set (c := if String.eqb _ "high" then _ else _) in *.
  set (s := match Engine.primary params with Some _ => _ | None => _ end).
  assert (s == 0.4 * fraction_present targets (Engine.dominant_emotions row)
               + 0.3 * preference_match (Engine.intensity params) (Engine.intensity_score row)
               + 0.3 * preference_match (Engine.comfort params) (Engine.comfort_score row)
               + primary_bonus (Engine.primary params) (Engine.dominant_emotions row)) as Hs.
  { subst s. unfold primary_bonus, Engine.mem.
    destruct (Engine.primary params) as [p |]; [| lra].
    destruct (decide (p ∈ Engine.dominant_emotions row)).
    - rewrite bool_decide_eq_true_2 by done. lra.
    - rewrite bool_decide_eq_false_2 by done. lra. }
  rewrite min_Qmin. by rewrite Hs.
Qed.

End MatchScore.

(** ** Lists of indexed scores *)

Section Ranking.

Lemma StronglySorted_lookup_2 {A} (R : A -> A -> Prop) (l : list A) :
  (forall i j a b, (i < j)%nat -> l !! i = Some a -> l !! j = Some b -> R a b) ->
  StronglySorted R l.
Proof.
  induction l as [| x l IH]; intros H; constructor.
  - apply IH. intros i j a b Hij Hi Hj. apply (H (S i) (S j)); [lia | done..].
  - apply Forall_forall. intros y Hy.
    apply list_elem_of_lookup_1 in Hy as [j Hj].
    apply (H 0%nat (S j)); [lia | done..].
Qed.

Lemma imap_sorted_by_index {A B} (f : nat -> A -> B) (ix : B -> nat) (l : list A) :
  (forall i a, ix (f i a) = i) ->
  StronglySorted (fun x y => (ix x < ix y)%nat) (imap f l).
Proof.
  intros Hix. apply StronglySorted_lookup_2. intros i j a b Hij Hi Hj.
  rewrite list_lookup_imap in Hi, Hj.
  destruct (l !! i), (l !! j); simplify_eq/=. by rewrite !Hix.
Qed.

Lemma imap_index_sorted {A} (f : A -> Q) (l : list A) :
  StronglySorted index_order (imap (fun idx row => (idx, f row)) l).
Proof. by apply (imap_sorted_by_index _ fst). Qed.

Lemma index_sorted_NoDup (l : list (nat * Q)) :
  StronglySorted index_order l -> NoDup l.*1.
Proof.
  induction 1 as [| x l Hl IH Hx]; simpl; constructor; [| done].
  rewrite Forall_forall in Hx. intros Hin.
  apply list_elem_of_fmap in Hin as [y [Heq Hy]].
  specialize (Hx y Hy). unfold index_order in Hx. lia.
Qed.

Lemma filter_sorted {A} (R : A -> A -> Prop) (P : A -> Prop)
    `{!forall x, Decision (P x)} (l : list A) :
  StronglySorted R l -> StronglySorted R (filter P l).
Proof.
  induction 1 as [| x l Hl IH Hx]; [constructor |].
  rewrite filter_cons. destruct (decide (P x)); [| done].
  constructor; [done |]. rewrite Forall_forall in Hx |- *.
  intros y Hy. apply Hx. by apply list_elem_of_filter in Hy as [_ ?].
Qed.

Lemma map_sorted {A B} (R : A -> A -> Prop) (S : B -> B -> Prop) (g : A -> B)
    (l : list A) :
  (forall a b, R a b -> S (g a) (g b)) ->
  StronglySorted R l -> StronglySorted S (map g l).
Proof.
  intros HRS. induction 1 as [| x l Hl IH Hx]; simpl; constructor; [done |].
  rewrite Forall_forall in Hx. apply Forall_forall. intros y Hy.
  apply list_elem_of_fmap in Hy as [a [-> Ha]]. by apply HRS, Hx.
Qed.

Lemma index_order_asym (a b : nat * Q) : index_order a b -> index_order b a -> False.
Proof. unfold index_order. lia. Qed.

Lemma slice_to_nonneg {A} (n : Z) (l : list A) :
  (0 <= n)%Z -> Py.slice_to n l = take (Z.to_nat n) l.
Proof. intros H. unfold Py.slice_to. by rewrite (proj2 (Z.leb_le 0 n) H). Qed.

(** [omap] keeps every element on which the function is defined. *)
Lemma omap_Forall2 {A B} (g : A -> option B) (l : list A) :
  Forall (fun x => is_Some (g x)) l ->
  Forall2 (fun y x => g x = Some y) (omap g l) l.
Proof.
  induction 1 as [| x l [y Hy] _ IH]; simpl; [constructor |].
  rewrite Hy. by constructor.
Qed.

End Ranking.

(** ** Ranking by a score *)

Section ScoreRanking.
Context (score : Engine.MovieRow -> Q) (explain : Engine.MovieRow -> string).
Context (movies_df : list Engine.MovieRow).

Lemma ranked_by_perm :
  Engine.ranked_by score movies_df
  ≡ₚ imap (fun idx row => (idx, score row)) movies_df.
Proof. unfold Engine.ranked_by. cbv zeta. apply sorted_desc_perm. Qed.

Lemma ranked_by_elem (idx : nat) (s : Q) :
  (idx, s) ∈ Engine.ranked_by score movies_df
  <-> exists row, movies_df !! idx = Some row /\ s = score row.
Proof.
  rewrite ranked_by_perm, elem_of_lookup_imap. split.
  - intros (i & row & Heq & Hrow). simplify_eq. eauto.
  - intros (row & Hrow & ->). eauto.
Qed.

Lemma ranked_by_sorted : StronglySorted rank_order (Engine.ranked_by score movies_df).
Proof.
  unfold Engine.ranked_by. cbv zeta. apply sorted_desc_sorted, imap_index_sorted.
Qed.

Lemma ranked_by_unique (other : list (nat * Q)) :
  other ≡ₚ Engine.ranked_by score movies_df -> StronglySorted rank_order other ->
  other = Engine.ranked_by score movies_df.
Proof.
  intros Hperm Hsorted. unfold Engine.ranked_by. cbv zeta.
  apply (sorted_desc_unique snd index_order).
  - apply index_order_asym.
  - apply imap_index_sorted.
  - by rewrite Hperm, ranked_by_perm.
  - done.
Qed.

Lemma recommend_by_slice (n : Z) :
  Forall2 (record_of movies_df)
    (Engine.recommend_by score explain movies_df n)
    (Py.slice_to n (Engine.ranked_by score movies_df)).
Proof.
  unfold Engine.recommend_by. cbv zeta.
  set (ranked := Engine.ranked_by _ _).
  set (g := fun '(idx, s) => _).
  assert (Forall (fun x => is_Some (g x)) (Py.slice_to n ranked)) as Hdef.
  { apply Forall_forall. intros [idx s] Hin.
    assert ((idx, s) ∈ ranked) as Hranked.
    { unfold Py.slice_to in Hin.
      destruct (0 <=? n)%Z; by apply (subseteq_take _ ranked) in Hin. }
    apply ranked_by_elem in Hranked as (row & Hrow & _).
    subst g. simpl. rewrite Hrow. by eexists. }
  eapply Forall2_impl; [by apply omap_Forall2 |].
  intros rec [idx s] Hg. subst g. simpl in Hg.
  destruct (movies_df !! idx) as [row |] eqn:Hrow; simplify_eq/=.
  exists row. by repeat split.
Qed.

End ScoreRanking.

(** ** [rank_by_mood] *)

Section MoodRanking.
Context (movies_df : list Engine.MovieRow) (current_mood desired_feeling : string).

Lemma ranked_by_mood_perm :
  Engine.ranked_by_mood movies_df current_mood desired_feeling
  ≡ₚ imap (fun idx row => (idx, mood_score current_mood desired_feeling row)) movies_df.
Proof. unfold Engine.ranked_by_mood. cbv zeta. apply sorted_desc_perm. Qed.

Lemma ranked_by_mood_elem (idx : nat) (score : Q) :
  (idx, score) ∈ Engine.ranked_by_mood movies_df current_mood desired_feeling
  <-> exists row, movies_df !! idx = Some row /\ score = mood_score current_mood desired_feeling row.
Proof.
  rewrite ranked_by_mood_perm, elem_of_lookup_imap. split.
  - intros (i & row & Heq & Hrow). simplify_eq. eauto.
  - intros (row & Hrow & ->). eauto.
Qed.

Lemma ranked_by_mood_sorted :
  StronglySorted rank_order (Engine.ranked_by_mood movies_df current_mood desired_feeling).
Proof.
  unfold Engine.ranked_by_mood. cbv zeta.
  apply sorted_desc_sorted, imap_index_sorted.
Qed.

Lemma ranked_by_mood_length :
  length (Engine.ranked_by_mood movies_df current_mood desired_feeling) = length movies_df.
Proof. by rewrite ranked_by_mood_perm, length_imap. Qed.

Lemma recommend_by_mood_slice (n : Z) :
  Forall2 (mood_recommendation movies_df current_mood desired_feeling)
    (Engine.recommend_by_mood movies_df current_mood desired_feeling n)
    (Py.slice_to n (Engine.ranked_by_mood movies_df current_mood desired_feeling)).
Proof.
  unfold Engine.recommend_by_mood. cbv zeta.
  set (ranked := Engine.ranked_by_mood _ _ _).
  set (g := fun '(idx, score) => _).
  assert (Forall (fun x => is_Some (g x)) (Py.slice_to n ranked)) as Hdef.
  { apply Forall_forall. intros [idx score] Hin.
    assert ((idx, score) ∈ ranked) as Hranked.
    { unfold Py.slice_to in Hin.
      destruct (0 <=? n)%Z; by apply (subseteq_take _ ranked) in Hin. }
    apply ranked_by_mood_elem in Hranked as (row & Hrow & _).
    subst g. simpl. rewrite Hrow. by eexists. }
  eapply Forall2_impl; [by apply omap_Forall2 |].
  intros rec [idx score] Hg. subst g. simpl in Hg.
  destruct (movies_df !! idx) as [row |] eqn:Hrow; simplify_eq/=.
  by exists row.
Qed.

Lemma recommend_by_mood_length (n : Z) :
  (0 <= n)%Z ->
  length (Engine.recommend_by_mood movies_df current_mood desired_feeling n)
  = Nat.min (Z.to_nat n) (length movies_df).
Proof.
  intros Hn. pose proof (recommend_by_mood_slice n) as H.
  apply Forall2_length in H. rewrite H, slice_to_nonneg by done.
  by rewrite length_take, ranked_by_mood_length.
Qed.

(** C1: for every catalog item, [rank_by_mood] computes the match score
    [min(1, 0.4 * emotion_match + 0.3 * intensity_match + 0.3 * comfort_match
    + bonus)]: [emotion_match] is the fraction of the target categories
    among the item's dominant emotions, the intensity and comfort matches
    are [max(0, 1 - x/10)] for a ['low'] preference, [x/10] for ['high']
    and [1 - |x - 5|/5] otherwise, and the bonus is [0.1] when the primary
    category of the mood is a dominant emotion of the item.  The item
    enters the ranking with that score, and every recommendation returned
    carries the score of its row. *)
Theorem match_score_formula (idx : nat) (row : Engine.MovieRow) :
  movies_df !! idx = Some row ->
  (exists score,
     (idx, score) ∈ Engine.ranked_by_mood movies_df current_mood desired_feeling
     /\ score == match_score_spec (Engine.mood_params_of current_mood)
                   (Engine.desired_emotions_of desired_feeling) row)
  /\ (forall n rec,
        rec ∈ Engine.recommend_by_mood movies_df current_mood desired_feeling n ->
        exists row', row' ∈ movies_df
          /\ Engine.rec_title rec = Engine.title row'
          /\ Engine.match_score rec
             == match_score_spec (Engine.mood_params_of current_mood)
                  (Engine.desired_emotions_of desired_feeling) row').
Proof.
  intros Hrow. split.
  - exists (mood_score current_mood desired_feeling row). split.
    + apply ranked_by_mood_elem. eauto.
    + apply calculate_match_score_spec.
  - intros n rec Hrec.
    pose proof (recommend_by_mood_slice n) as Hall.
    apply list_elem_of_lookup_1 in Hrec as [i Hi].
    destruct (Forall2_lookup_l _ _ _ _ _ Hall Hi) as ([idx' score] & Hranked & row' & Hrow' & ->).
    apply list_elem_of_lookup_2 in Hranked.
    assert ((idx', score) ∈ Engine.ranked_by_mood movies_df current_mood desired_feeling)
      as Hin.
    { unfold Py.slice_to in Hranked.
      destruct (0 <=? n)%Z; by apply (subseteq_take _ _) in Hranked. }
    apply ranked_by_mood_elem in Hin as (row'' & Hrow'' & ->).
    simpl in Hrow'. rewrite Hrow' in Hrow''. simplify_eq.
    exists row''. split; [by eapply list_elem_of_lookup_2 |].
    split; [done |]. simpl. apply calculate_match_score_spec.
Qed.

Lemma recommend_by_mood_instance (n : Z) :
  Engine.recommend_by_mood movies_df current_mood desired_feeling n
  = Engine.recommend_by (mood_score current_mood desired_feeling)
      (fun row => Engine._generate_explanation row current_mood desired_feeling)
      movies_df n.
Proof. reflexivity. Qed.

(** C3: for a fixed catalog and mood query the candidates are in one
    determined order.  Whatever numbers the scoring gives the rows (the
    statement does not depend on how a score is computed or rounded, so it
    holds for the scores the program computes), the ranking holds every
    catalog item once with its score, it is ordered by descending score
    with equal scores in catalog order, and no other arrangement of the
    candidates respects that order; the records returned are those of the
    first [n] entries, each with the title, the genres, the poster, the
    dominant emotions, the intensity and the comfort of its row and the
    score of its entry; an [n] beyond the catalog size returns every
    item.  [recommend_by_mood] is the instance at the score of the
    query. *)
Theorem rank_by_mood_total_order (score : Engine.MovieRow -> Q)
    (explain : Engine.MovieRow -> string) (n : Z) :
  (0 <= n)%Z ->
  let ranked := Engine.ranked_by score movies_df in
  ranked ≡ₚ imap (fun idx row => (idx, score row)) movies_df
  /\ StronglySorted rank_order ranked
  /\ (forall other, other ≡ₚ ranked -> StronglySorted rank_order other -> other = ranked)
  /\ Forall2 (record_of movies_df)
       (Engine.recommend_by score explain movies_df n) (take (Z.to_nat n) ranked)
  /\ ((Z.of_nat (length movies_df) <= n)%Z ->
      length (Engine.recommend_by score explain movies_df n) = length movies_df)
  /\ Engine.recommend_by_mood movies_df current_mood desired_feeling n
     = Engine.recommend_by (mood_score current_mood desired_feeling)
         (fun row => Engine._generate_explanation row current_mood desired_feeling)
         movies_df n.
Proof.
  intros Hn ranked. split; [apply ranked_by_perm |].
  split; [apply ranked_by_sorted |]. split; [| split; [| split]].
  - apply ranked_by_unique.
  - rewrite <- slice_to_nonneg by done. apply recommend_by_slice.
  - intros Hall. pose proof (recommend_by_slice score explain movies_df n) as H.
    apply Forall2_length in H. rewrite H, slice_to_nonneg by done.
    rewrite length_take, ranked_by_perm, length_imap. lia.
  - reflexivity.
Qed.

End MoodRanking.

(** ** The journey planner *)

Section Journey.
Context (movies_df : list Engine.MovieRow) (start_mood end_mood : string).

Lemma append_first_short {A} (journey recs : list A) :
  (length recs <= 1)%nat -> Engine.append_first journey recs = journey ++ recs.
Proof.
  destruct recs as [| r [| r' recs]]; simpl; intros H;
    [by rewrite app_nil_r | done | lia].
Qed.

Lemma get_mood_journey_calls (n_movies : Z) :
  Engine.get_mood_journey movies_df start_mood end_mood n_movies
  = Py.slice_to n_movies (journey_calls movies_df start_mood end_mood n_movies).
Proof.
  unfold Engine.get_mood_journey, journey_calls. cbv zeta. f_equal.
  rewrite !append_first_short by (rewrite recommend_by_mood_length; lia).
  destruct (3 <=? n_movies)%Z; simpl; by rewrite ?app_nil_r, <- ?app_assoc.
Qed.

Lemma journey_calls_length (n_movies : Z) :
  movies_df <> [] -> (1 <= n_movies)%Z ->
  length (journey_calls movies_df start_mood end_mood n_movies)
  = if (3 <=? n_movies)%Z
    then (2 + Nat.min (Z.to_nat (n_movies - 2)) (length movies_df))%nat
    else 2%nat.
Proof.
  intros Hne Hn. unfold journey_calls. rewrite !length_app.
  rewrite !recommend_by_mood_length by lia.
  assert (0 < length movies_df)%nat by (destruct movies_df; [done | simpl; lia]).
  destruct (3 <=? n_movies)%Z eqn:E.
  - apply Z.leb_le in E. rewrite recommend_by_mood_length by lia. lia.
  - simpl length. lia.
Qed.

(** C6, as amended: for a non-empty catalog and [n_movies >= 1] the
    journey is the first [n_movies] entries of the concatenation of the
    three ranking calls, with nothing removed in between; it has at most
    [n_movies] entries, exactly [n_movies] when the catalog has at least
    [n_movies - 2] items, and [|catalog| + 2] entries otherwise. *)
Theorem mood_journey_entries (n_movies : Z) :
  movies_df <> [] -> (1 <= n_movies)%Z ->
  Engine.get_mood_journey movies_df start_mood end_mood n_movies
  = take (Z.to_nat n_movies) (journey_calls movies_df start_mood end_mood n_movies)
  /\ (length (Engine.get_mood_journey movies_df start_mood end_mood n_movies)
      <= Z.to_nat n_movies)%nat
  /\ ((n_movies <= Z.of_nat (length movies_df) + 2)%Z ->
      length (Engine.get_mood_journey movies_df start_mood end_mood n_movies)
      = Z.to_nat n_movies)
  /\ ((Z.of_nat (length movies_df) + 2 < n_movies)%Z ->
      length (Engine.get_mood_journey movies_df start_mood end_mood n_movies)
      = (length movies_df + 2)%nat).
Proof.
  intros Hne Hn. rewrite get_mood_journey_calls, slice_to_nonneg by lia.
  rewrite length_take, journey_calls_length by done.
  split; [done |]. destruct (3 <=? n_movies)%Z eqn:E.
  - apply Z.leb_le in E. lia.
  - apply Z.leb_gt in E. lia.
Qed.

End Journey.

(** C6, as stated, fails: on a catalog of one film a journey of four films
    has three entries (the same film from each of the three calls). *)
Lemma mood_journey_short_catalog :
  [the_lighthouse] <> [] /\ (1 <= 4)%Z
  /\ map Engine.rec_title (Engine.get_mood_journey [the_lighthouse] "sad" "inspired" 4)
     = ["The Lighthouse"; "The Lighthouse"; "The Lighthouse"]
  /\ length (Engine.get_mood_journey [the_lighthouse] "sad" "inspired" 4) <> Z.to_nat 4.
Proof. split; [done |]. split; [lia |]. split; [by vm_compute | by vm_compute]. Qed.

Lemma mood_journey_entries_witness :
  [the_lighthouse] <> [] /\ (1 <= 3)%Z
  /\ length (Engine.get_mood_journey [the_lighthouse] "sad" "inspired" 3) = Z.to_nat 3.
Proof.
  split; [done |]. split; [lia |].
  destruct (mood_journey_entries [the_lighthouse] "sad" "inspired" 3)
    as (_ & _ & Hexact & _); [done | lia |].
  apply Hexact. simpl length. lia.
Defined.

(** ** [rank_by_emotions] *)

Section EmotionRanking.
Context (movies_df : list Engine.MovieRow) (target_emotions : list string).
Context (min_intensity max_intensity min_comfort : Q).

Lemma in_bounds_true (row : Engine.MovieRow) :
  Engine.in_bounds min_intensity max_intensity min_comfort row = true
  <-> within_bounds min_intensity max_intensity min_comfort row.
Proof.
  unfold Engine.in_bounds, within_bounds.
  rewrite !andb_true_iff, !Qle_bool_iff. tauto.
Qed.

Lemma sum_ones {A} (l : list A) :
  Py.sum (map (fun _ => 1) l) == inject_Z (Z.of_nat (length l)).
Proof.
  induction l as [| x l IH]; [done |].
  change (map (fun _ => 1) (x :: l)) with (1 :: map (fun _ : A => 1) l).
  rewrite sum_cons, IH. simpl length.
  rewrite Nat2Z.inj_succ, <- Z.add_1_l, inject_Z_plus. done.
Qed.

Lemma emotion_fraction_spec (targets dominant : list string) :
  Engine.emotion_fraction targets dominant == fraction_present targets dominant.
Proof.
  unfold Engine.emotion_fraction, fraction_present. cbv zeta.
  destruct targets as [| e targets]; [done |].
  rewrite sum_ones. unfold Py.len, Engine.mem.
  assert (filter (fun e0 => bool_decide (e0 ∈ dominant) = true) (e :: targets)
          = filter (.∈ dominant) (e :: targets)) as ->; [| done].
  apply list_filter_iff. intros x. by rewrite bool_decide_eq_true.
Qed.

Lemma ranked_by_emotions_perm :
  Engine.ranked_by_emotions movies_df target_emotions
    min_intensity max_intensity min_comfort
  ≡ₚ map (fun ir => (ir.1, Engine.emotion_fraction target_emotions
                             (Engine.dominant_emotions ir.2)))
       (filter (fun ir => Engine.in_bounds min_intensity max_intensity min_comfort ir.2 = true)
               (imap pair movies_df)).
Proof. unfold Engine.ranked_by_emotions. cbv zeta. apply sorted_desc_perm. Qed.

Lemma emotion_scores_index_sorted :
  StronglySorted index_order
    (map (fun ir => (ir.1, Engine.emotion_fraction target_emotions
                             (Engine.dominant_emotions ir.2)))
       (filter (fun ir => Engine.in_bounds min_intensity max_intensity min_comfort ir.2 = true)
               (imap pair movies_df))).
Proof.
  eapply (map_sorted (fun x y : nat * Engine.MovieRow => (x.1 < y.1)%nat));
    [by intros a b H |].
  apply filter_sorted. by apply (imap_sorted_by_index pair fst).
Qed.

Lemma ranked_by_emotions_elem (idx : nat) (score : Q) :
  (idx, score) ∈ Engine.ranked_by_emotions movies_df target_emotions
                   min_intensity max_intensity min_comfort
  <-> exists row, movies_df !! idx = Some row /\ within_bounds min_intensity max_intensity min_comfort row
        /\ score = Engine.emotion_fraction target_emotions (Engine.dominant_emotions row).
Proof.
  rewrite ranked_by_emotions_perm, list_elem_of_fmap. split.
  - intros ([i row] & Heq & Hin). simplify_eq/=.
    apply list_elem_of_filter in Hin as [Hb Hin]. simpl in Hb.
    apply elem_of_lookup_imap in Hin as (i' & row' & Heq & Hrow). simplify_eq.
    exists row'. by rewrite <- in_bounds_true.
  - intros (row & Hrow & Hb & ->). exists (idx, row). split; [done |].
    apply list_elem_of_filter. split; [by apply in_bounds_true |].
    apply elem_of_lookup_imap. eauto.
Qed.

Lemma ranked_by_emotions_sorted :
  StronglySorted rank_order
    (Engine.ranked_by_emotions movies_df target_emotions
       min_intensity max_intensity min_comfort).
Proof.
  unfold Engine.ranked_by_emotions. cbv zeta.
  apply sorted_desc_sorted, emotion_scores_index_sorted.
Qed.

Lemma recommend_by_emotions_slice (n : Z) :
  Forall2 (emotion_recommendation movies_df)
    (Engine.recommend_by_emotions movies_df target_emotions
       min_intensity max_intensity min_comfort n)
    (Py.slice_to n (Engine.ranked_by_emotions movies_df target_emotions
                      min_intensity max_intensity min_comfort)).
Proof.
  unfold Engine.recommend_by_emotions. cbv zeta.
  set (ranked := Engine.ranked_by_emotions _ _ _ _ _).
  set (g := fun '(idx, score) => _).
  assert (Forall (fun x => is_Some (g x)) (Py.slice_to n ranked)) as Hdef.
  { apply Forall_forall. intros [idx score] Hin.
    assert ((idx, score) ∈ ranked) as Hranked.
    { unfold Py.slice_to in Hin.
      destruct (0 <=? n)%Z; by apply (subseteq_take _ ranked) in Hin. }
    apply ranked_by_emotions_elem in Hranked as (row & Hrow & _).
    subst g. simpl. rewrite Hrow. by eexists. }
  eapply Forall2_impl; [by apply omap_Forall2 |].
  intros rec [idx score] Hg. subst g. simpl in Hg.
  destruct (movies_df !! idx) as [row |] eqn:Hrow; simplify_eq/=.
  by exists row.
Qed.

Lemma recommend_by_emotions_records (n : Z) :
  Forall2 (record_of movies_df)
    (Engine.recommend_by_emotions movies_df target_emotions
       min_intensity max_intensity min_comfort n)
    (Py.slice_to n (Engine.ranked_by_emotions movies_df target_emotions
                      min_intensity max_intensity min_comfort)).
Proof.
  eapply Forall2_impl; [apply recommend_by_emotions_slice |].
  intros rec ranked (row & Hrow & ->). exists row. by repeat split.
Qed.

(** C8: [rank_by_emotions] ranks exactly the catalog items whose intensity
    lies in [[min_intensity, max_intensity]] and whose comfort is at least
    [min_comfort], each once; the score of an item is the fraction of the
    target categories among its dominant emotions and nothing else; the
    ranking is by descending score with ties in catalog order; the records
    returned are those of its first [n] entries, each with the title and
    the other fields of its row, a row within the bounds, and with that
    fraction as its match score.  With no target category every score is
    [0] and the ranking is in catalog order. *)
Theorem rank_by_emotions_filter_then_fraction (n : Z) :
  (0 <= n)%Z ->
  let ranked := Engine.ranked_by_emotions movies_df target_emotions
                  min_intensity max_intensity min_comfort in
  (forall idx row,
      movies_df !! idx = Some row -> within_bounds min_intensity max_intensity min_comfort row ->
      exists score, (idx, score) ∈ ranked
        /\ score == fraction_present target_emotions (Engine.dominant_emotions row))
  /\ (forall idx score,
        (idx, score) ∈ ranked ->
        exists row, movies_df !! idx = Some row /\ within_bounds min_intensity max_intensity min_comfort row
          /\ score == fraction_present target_emotions (Engine.dominant_emotions row))
  /\ NoDup ranked.*1
  /\ StronglySorted rank_order ranked
  /\ Forall2 (record_of movies_df)
       (Engine.recommend_by_emotions movies_df target_emotions
          min_intensity max_intensity min_comfort n)
       (take (Z.to_nat n) ranked)
  /\ (forall rec,
        rec ∈ Engine.recommend_by_emotions movies_df target_emotions
                min_intensity max_intensity min_comfort n ->
        exists row, row ∈ movies_df
          /\ within_bounds min_intensity max_intensity min_comfort row
          /\ Engine.rec_title rec = Engine.title row
          /\ Engine.match_score rec
             == fraction_present target_emotions (Engine.dominant_emotions row))
  /\ (target_emotions = [] ->
      Forall (fun ranked_pair => ranked_pair.2 = 0) ranked
      /\ StronglySorted index_order ranked).
Proof.
  intros Hn ranked.
  split; [| split; [| split; [| split; [| split; [| split; [| intros Hempty; split]]]]]].
  - intros idx row Hrow Hb. eexists. split.
    + apply ranked_by_emotions_elem. eauto.
    + apply emotion_fraction_spec.
  - intros idx score Hin.
    apply ranked_by_emotions_elem in Hin as (row & Hrow & Hb & ->).
    exists row. split; [done |]. split; [done |]. apply emotion_fraction_spec.
  - subst ranked. rewrite ranked_by_emotions_perm.
    apply index_sorted_NoDup, emotion_scores_index_sorted.
  - apply ranked_by_emotions_sorted.
  - rewrite <- slice_to_nonneg by done. apply recommend_by_emotions_records.
  - intros rec Hrec. apply list_elem_of_lookup_1 in Hrec as [i Hi].
    destruct (Forall2_lookup_l _ _ _ _ _ (recommend_by_emotions_records n) Hi)
      as ([idx score] & Hranked & row & Hrow & Htitle & _ & _ & _ & _ & _ & Hscore).
    cbn [fst snd] in *.
    apply list_elem_of_lookup_2 in Hranked. rewrite slice_to_nonneg in Hranked by done.
    apply subseteq_take, ranked_by_emotions_elem in Hranked as (row' & Hrow' & Hb & ->).
    simplify_eq. exists row'. split; [by eapply list_elem_of_lookup_2 |].
    split; [done |]. split; [done |]. rewrite Hscore. apply emotion_fraction_spec.
  - apply Forall_forall. intros [idx score] Hin.
    apply ranked_by_emotions_elem in Hin as (row & _ & _ & ->).
    by rewrite Hempty.
  - subst ranked. unfold Engine.ranked_by_emotions. cbv zeta.
    rewrite (sorted_desc_ties snd _ 0); [apply emotion_scores_index_sorted |].
    apply Forall_forall. intros [idx score] Hin.
    apply list_elem_of_fmap in Hin as (ir & -> & _). simpl.
    by rewrite Hempty.
Qed.

End EmotionRanking.

(** ** Dicts updated key by key *)

Section KeyedFold.
Context (combine : Q -> Q -> Q).

Lemma upsert_lookup (acc : gmap string Q) (k c : string) (v : Q) :
  match acc !! k with
  | Some old => <[k := combine old v]> acc
  | None => <[k := v]> acc
  end !! c
  = if decide (k = c) then merge_score combine (acc !! k) v else acc !! c.
Proof.
  unfold merge_score. destruct (decide (k = c)) as [-> | Hne].
  - destruct (acc !! c); by rewrite lookup_insert_eq.
  - destruct (acc !! k); by rewrite lookup_insert_ne.
Qed.

(** The first score is kept as it is, each later one is combined with
    what is held. *)
Lemma merge_score_foldl (x : Q) (xs : list Q) :
  foldl (merge_score combine) None (x :: xs) = Some (foldl combine x xs).
Proof.
  simpl. generalize x. induction xs as [| y ys IH]; intros x0; simpl; [done |].
  apply IH.
Qed.

(** A combination that stays within bounds keeps every held value
    within them. *)
Lemma merge_fold_range (P : Q -> Prop) (held : option Q) (xs : list Q) (m : Q) :
  (forall a b, P a -> P b -> P (combine a b)) ->
  (forall v, held = Some v -> P v) -> Forall P xs ->
  foldl (merge_score combine) held xs = Some m -> P m.
Proof.
  intros Hcombine Hheld Hxs. revert held Hheld.
  induction Hxs as [| x xs Hx _ IH]; intros held Hheld; cbn [foldl]; [by apply Hheld |].
  apply IH. unfold merge_score. intros v [= <-].
  destruct held as [old |]; [apply Hcombine; auto | done].
Qed.

End KeyedFold.

(** ** The classifier-output mapper *)

Section ClassifierMapper.

Lemma max_list_greatest (x : Q) (xs : list Q) :
  Py.max_list x xs ∈ x :: xs /\ Forall (fun y => y <= Py.max_list x xs) (x :: xs).
Proof.
  unfold Py.max_list. revert x. induction xs as [| y ys IH]; intros x; simpl.
  - split; [left | repeat constructor; lra].
  - destruct (IH (Py.max x y)) as [Hin Hall].
    apply Forall_cons_1 in Hall as [Hmax Hall].
    destruct (max_cases x y) as [[Hlt Heq] | [Hle Heq]]; rewrite Heq in *.
    + split; [by right |]. constructor; [lra |]. by constructor.
    + split.
      * apply elem_of_cons in Hin as [-> | Hin]; [left | by do 2 right].
      * constructor; [done |]. constructor; [lra | done].
Qed.

Lemma map_step_lookup (acc : gmap string Q) (item : string * Q) (c : string) :
  Classifier.map_step acc item !! c
  = if decide (Classifier.category_of item.1 = Some c)
    then merge_score Py.max (acc !! c) item.2 else acc !! c.
Proof.
  destruct item as [emotion score]. unfold Classifier.map_step. cbn [fst snd].
  destruct (Classifier.category_of emotion) as [category |].
  - rewrite upsert_lookup. destruct (decide (category = c)) as [-> | Hne].
    + by rewrite decide_True.
    + by rewrite decide_False by congruence.
  - by rewrite decide_False.
Qed.

Lemma map_fold_lookup (acc : gmap string Q) (emotions : list (string * Q)) (c : string) :
  foldl Classifier.map_step acc emotions !! c
  = foldl (merge_score Py.max) (acc !! c) (scores_for c emotions).
Proof.
  revert acc. induction emotions as [| item emotions IH]; intros acc; [reflexivity |].
  cbn [foldl]. rewrite IH, map_step_lookup. unfold scores_for.
  rewrite filter_cons. destruct (decide _); reflexivity.
Qed.

Lemma map_to_categories_lookup (emotions : list (string * Q)) (c : string) :
  Classifier.map_to_categories emotions !! c = maximum (scores_for c emotions).
Proof.
  unfold Classifier.map_to_categories. rewrite map_fold_lookup, lookup_empty.
  destruct (scores_for c emotions) as [| x xs]; [reflexivity |].
  apply merge_score_foldl.
Qed.

(** The lookup of the code agrees with the table. *)
Lemma category_of_table (label c : string) :
  Classifier.category_of label = Some c <-> (Py.lower label, c) ∈ label_categories.
Proof.
  unfold Classifier.category_of. split.
  - destruct (Classifier.MODEL_TO_CATEGORY !! Py.lower label) as [[c' |] |] eqn:E;
      [| discriminate | discriminate].
    destruct (String.eqb c' ""); [discriminate |]. intros [= <-].
    unfold Classifier.MODEL_TO_CATEGORY in E.
    apply elem_of_list_to_map_2, list_elem_of_In in E. revert E.
    match goal with
    | |- In _ ?table -> _ =>
        assert (forallb (fun kv : string * option string =>
                           match kv.2 with
                           | Some c => bool_decide ((kv.1, c) ∈ label_categories)
                           | None => true
                           end) table = true) as Hok by (vm_compute; reflexivity)
    end.
    intros E. rewrite forallb_forall in Hok. specialize (Hok _ E). cbn [fst snd] in Hok.
    by apply bool_decide_eq_true_1 in Hok.
  - intros Hin.
    assert (forallb (fun kc : string * string =>
                       match Classifier.MODEL_TO_CATEGORY !! kc.1 with
                       | Some (Some c') => String.eqb c' kc.2 && negb (String.eqb c' "")
                       | _ => false
                       end) label_categories = true) as Hok by (vm_compute; reflexivity).
    rewrite forallb_forall in Hok. apply list_elem_of_In, Hok in Hin. cbn [fst snd] in Hin.
    destruct (Classifier.MODEL_TO_CATEGORY !! Py.lower label) as [[c' |] |];
      [| discriminate | discriminate].
    apply andb_true_iff in Hin as [Heq Hne].
    apply String.eqb_eq in Heq as ->. apply negb_true_iff in Hne. by rewrite Hne.
Qed.

Lemma table_scores_spec (c : string) (emotions : list (string * Q)) :
  scores_for c emotions = table_scores c emotions.
Proof.
  unfold scores_for, table_scores. f_equal.
  apply list_filter_iff. intros item. apply category_of_table.
Qed.

Lemma category_of_listed (label : string) :
  is_Some (Classifier.category_of label) <-> Py.lower label ∈ label_categories.*1.
Proof.
  split.
  - intros [c Hc]. apply category_of_table in Hc.
    apply list_elem_of_fmap. by exists (Py.lower label, c).
  - intros Hin. apply list_elem_of_fmap in Hin as ([k c] & Hk & Hin). cbn [fst] in Hk.
    subst k. exists c. by apply category_of_table.
Qed.

(** C7: for every raw classifier output, a category holds the maximum of
    the scores of all the external labels that stand for it in the lookup
    table (a score of the output that no other such score exceeds), so
    every label of the table is counted, without regard to its case; the
    category is absent when no label of the output stands for it; labels
    that are not in the table, as ['neutral'], which stands for nothing,
    are dropped and change nothing. *)
Theorem map_to_categories_maximum (emotions : list (string * Q)) (c : string) :
  Classifier.map_to_categories emotions !! c = maximum (table_scores c emotions)
  /\ (forall m, Classifier.map_to_categories emotions !! c = Some m ->
        m ∈ table_scores c emotions /\ Forall (fun s => s <= m) (table_scores c emotions))
  /\ (Classifier.map_to_categories emotions !! c = None <-> table_scores c emotions = [])
  /\ Classifier.map_to_categories emotions
     = Classifier.map_to_categories
         (filter (fun item => Py.lower item.1 ∈ label_categories.*1) emotions)
  /\ "neutral" ∉ label_categories.*1.
Proof.
  pose proof (map_to_categories_lookup emotions c) as Hmax.
  rewrite table_scores_spec in Hmax.
  split; [exact Hmax |]. rewrite Hmax. split; [| split; [| split]].
  - intros m Hm. destruct (table_scores c emotions) as [| x xs]; [discriminate |].
    injection Hm as <-. apply max_list_greatest.
  - destruct (table_scores c emotions); split; intros H; (reflexivity || discriminate).
  - clear Hmax. unfold Classifier.map_to_categories. generalize (∅ : gmap string Q).
    induction emotions as [| [emotion score] emotions IH]; intros acc; [reflexivity |].
    rewrite filter_cons. cbn [foldl fst].
    destruct (decide (Py.lower emotion ∈ label_categories.*1)) as [Hsome | Hnone].
    + cbn [foldl]. apply IH.
    + rewrite IH. apply (f_equal (fun a => foldl _ a _)). unfold Classifier.map_step.
      destruct (Classifier.category_of emotion) as [category |] eqn:E; [| reflexivity].
      destruct Hnone. apply category_of_listed. by eexists.
  - apply (bool_decide_eq_false_1 _). vm_compute. reflexivity.
Qed.

End ClassifierMapper.

(** Labels that differ in case or that share a category, and labels the
    table does not hold. *)
Example map_to_categories_mixed :
  Classifier.map_to_categories
    [("Joy", 0.3); ("amusement", 0.7); ("neutral", 0.9); ("boredom", 0.8); ("fear", 0.2)]
  = {[ "pure_joy" := 0.7; "controlled_fear" := 0.2 ]}.
Proof. by vm_compute. Qed.

(** ** The genre heuristic model *)

Section GenreModel.

Lemma emotion_step_lookup (acc : gmap string Q) (item : string * Q) (c : string) :
  GenreMapper.emotion_step acc item !! c
  = if decide (item.1 = c) then merge_score average (acc !! c) item.2 else acc !! c.
Proof.
  destruct item as [emotion score]. unfold GenreMapper.emotion_step. cbn [fst snd].
  etrans; [exact (upsert_lookup average acc emotion c score) |].
  destruct (decide (emotion = c)) as [-> | Hne]; reflexivity.
Qed.

Lemma emotion_fold_lookup (acc : gmap string Q) (genre_emotions : list (string * Q))
    (c : string) :
  foldl GenreMapper.emotion_step acc genre_emotions !! c
  = foldl (merge_score average) (acc !! c)
      (map snd (filter (fun item => item.1 = c) genre_emotions)).
Proof.
  revert acc. induction genre_emotions as [| item genre_emotions IH]; intros acc;
    [reflexivity |].
  cbn [foldl]. rewrite IH, emotion_step_lookup, filter_cons.
  destruct (decide (item.1 = c)); reflexivity.
Qed.

Lemma genre_fold_lookup (acc : gmap string Q) (genres : list string) (c : string) :
  foldl GenreMapper.genre_step acc genres !! c
  = foldl (merge_score average) (acc !! c) (contributions c genres).
Proof.
  revert acc. induction genres as [| genre genres IH]; intros acc; [reflexivity |].
  cbn [foldl]. rewrite IH. unfold contributions. cbn [flat_map].
  rewrite foldl_app. f_equal. unfold GenreMapper.genre_step.
  destruct (GenreMapper.GENRE_EMOTION_MAP !! GenreMapper.normalize genre)
    as [genre_emotions |]; [| reflexivity].
  apply emotion_fold_lookup.
Qed.

Lemma get_genre_emotions_fold (genres : list string) (c : string) :
  GenreMapper.get_genre_emotions genres !! c
  = foldl (merge_score average) None (contributions c genres).
Proof.
  unfold GenreMapper.get_genre_emotions.
  destruct genres as [| genre genres]; [reflexivity |].
  by rewrite genre_fold_lookup, lookup_empty.
Qed.

(** C4: the score the genre model gives a category is the running average
    of the scores the known genres of the input contribute to it, taken
    in input order: absent without a contribution, the first value as it
    is, and after that the mean of the estimate so far and the next
    value. *)
Theorem genre_scores_running_average (genres : list string) (c : string) :
  GenreMapper.get_genre_emotions genres !! c = running_average (contributions c genres).
Proof.
  rewrite get_genre_emotions_fold.
  destruct (contributions c genres) as [| s scores]; [reflexivity |].
  apply (merge_score_foldl average).
Qed.

(** Two genres that both score a category: neither the larger value nor
    the sum, and the order of the genres matters. *)
Example action_adventure_tension :
  GenreMapper.get_genre_emotions ["Action"; "Adventure"] !! "thrilling_tension"
  = Some ((0.8 + 0.6) / 2).
Proof. by vm_compute. Qed.

Example genre_order_matters :
  (exists a b,
      GenreMapper.get_genre_emotions ["Action"; "Adventure"; "Thriller"]
        !! "thrilling_tension" = Some a
      /\ GenreMapper.get_genre_emotions ["Thriller"; "Action"; "Adventure"]
           !! "thrilling_tension" = Some b
      /\ a == 0.8 /\ b == 0.725).
Proof. eexists _, _. split; [by vm_compute |]. split; [by vm_compute |]. split; reflexivity. Qed.

End GenreModel.

(** ** Insertion-ordered dicts *)

Section DictFacts.
Context {V : Type}.

Lemma get_Some_elem (d : list (string * V)) (k : string) (v : V) :
  Py.get d k = Some v -> (k, v) ∈ d.
Proof.
  induction d as [| [k' v'] d IH]; cbn [Py.get]; [discriminate |].
  destruct (String.eqb_spec k' k) as [-> | Hne].
  - intros [= ->]. left.
  - intros H. right. by apply IH.
Qed.

Lemma get_None_keys (d : list (string * V)) (k : string) :
  Py.get d k = None -> k ∉ d.*1.
Proof.
  induction d as [| [k' v'] d IH]; cbn [Py.get]; [intros _; apply not_elem_of_nil |].
  destruct (String.eqb_spec k' k) as [-> | Hne]; [discriminate |].
  intros H. rewrite fmap_cons. apply not_elem_of_cons.
  split; [intros ->; by apply Hne | by apply IH].
Qed.

Lemma get_NoDup (d : list (string * V)) (k : string) (v : V) :
  NoDup d.*1 -> (k, v) ∈ d -> Py.get d k = Some v.
Proof.
  induction d as [| [k' v'] d IH]; intros Hnd Hin; [by apply elem_of_nil in Hin |].
  rewrite fmap_cons in Hnd. apply NoDup_cons in Hnd as [Hk' Hnd].
  cbn [Py.get]. apply elem_of_cons in Hin as [Heq | Hin].
  - injection Heq as <- <-. by rewrite String.eqb_refl.
  - destruct (String.eqb_spec k' k) as [-> | Hne]; [| by apply IH].
    destruct Hk'. apply list_elem_of_fmap. by exists (k, v).
Qed.

End DictFacts.

(** ** The synthesized profile *)

Section ProfileShape.

Lemma taxonomy_NoDup : NoDup Profiler.EMOTION_CATEGORIES.
Proof. apply (bool_decide_unpack _). vm_compute. exact I. Qed.

Lemma taxonomy_before_asym (a b : string) :
  taxonomy_before a b -> taxonomy_before b a -> False.
Proof.
  intros (i & j & Hij & Hi & Hj) (i' & j' & Hij' & Hi' & Hj').
  pose proof taxonomy_NoDup as Hnd.
  assert (i = j') by (eapply NoDup_lookup; eauto).
  assert (j = i') by (eapply NoDup_lookup; eauto). lia.
Qed.

Lemma combined_entry_key (nlp genre : gmap string Q) (w1 w2 : Q) (c : string)
    (e : string * Q) :
  Profiler.combined_entry nlp genre w1 w2 c = Some e ->
  e.1 = c /\ 0.01 <= e.2.
Proof.
  unfold Profiler.combined_entry. cbv zeta.
  destruct (Py.ltb 0.01 _) eqn:E; [| discriminate].
  intros [= <-]. split; [reflexivity |]. cbn [snd].
  apply ltb_lt in E.
  match goal with |- _ <= Py.round ?x 3 => set (s := x) in * end.
  pose proof (round_lower s 3 10) as Hlo. cbv zeta in Hlo.
  change (inject_Z (10 ^ Z.of_nat 3)) with 1000 in Hlo.
  change (inject_Z 10) with 10 in Hlo. clearbody s.
  assert (10 <= s * 1000) as H by lra. apply Hlo in H. lra.
Qed.

Lemma omap_sorted {A B} (R : A -> A -> Prop) (f : A -> option B) (g : B -> A)
    (l : list A) :
  (forall a b, f a = Some b -> g b = a) ->
  StronglySorted R l -> StronglySorted (fun x y => R (g x) (g y)) (omap f l).
Proof.
  intros Hg. induction 1 as [| a l Hl IH Ha]; cbn [omap list_omap]; [constructor |].
  destruct (f a) as [b |] eqn:Hb; [| done].
  constructor; [done |]. apply Forall_forall. intros y Hy.
  apply list_elem_of_omap in Hy as (a' & Ha' & Hfa').
  rewrite (Hg a b Hb), (Hg a' y Hfa').
  rewrite Forall_forall in Ha. by apply Ha.
Qed.

Lemma taxonomy_sorted : StronglySorted taxonomy_before Profiler.EMOTION_CATEGORIES.
Proof.
  apply StronglySorted_lookup_2. intros i j a b Hij Hi Hj. by exists i, j.
Qed.

Lemma entries_sorted (nlp genre : gmap string Q) (w1 w2 : Q) :
  StronglySorted entry_before
    (omap (Profiler.combined_entry nlp genre w1 w2) Profiler.EMOTION_CATEGORIES).
Proof.
  apply (omap_sorted taxonomy_before _ fst); [| apply taxonomy_sorted].
  intros c e He. by apply combined_entry_key in He as [-> _].
Qed.

Lemma entry_sorted_NoDup (d : list (string * Q)) :
  StronglySorted entry_before d -> NoDup d.*1.
Proof.
  induction 1 as [| x d Hd IH Hx]; rewrite ?fmap_cons; constructor; [| done].
  rewrite Forall_forall in Hx. intros Hin.
  apply list_elem_of_fmap in Hin as [y [Heq Hy]].
  specialize (Hx y Hy). unfold entry_before in Hx. rewrite <- Heq in Hx.
  by eapply taxonomy_before_asym.
Qed.

(** The shape of the profile [profile_of] returns: its score map is the
    list of the entries kept, its dominant emotions are the keys of the
    first three entries of that list sorted by descending score. *)
Lemma profile_of_shape (classifier : Classifier.model) (overview : option string)
    (genres : list string) (w1 w2 : Q) :
  let p := Profiler.profile_of classifier overview genres w1 w2 in
  (exists nlp genre,
      Profiler.emotion_scores p
      = omap (Profiler.combined_entry nlp genre w1 w2) Profiler.EMOTION_CATEGORIES)
  /\ Profiler.dominant_emotions p
     = (take 3 (Py.sorted_desc snd (Profiler.emotion_scores p))).*1.
Proof.
  unfold Profiler.profile_of. destruct (Profiler.text_used overview); cbv zeta.
  - split; [by eexists _, _ | reflexivity].
  - split; [by eexists _, _ | reflexivity].
Qed.

Lemma create_emotion_profile_inr (classifier : Classifier.model)
    (overview : option string) (genres : list string) (w1 w2 : Q)
    (p : Profiler.EmotionProfile) :
  Profiler.create_emotion_profile classifier overview genres w1 w2 = inr p ->
  ~ w1 + w2 == 0
  /\ p = Profiler.profile_of classifier overview genres (w1 / (w1 + w2)) (w2 / (w1 + w2)).
Proof.
  unfold Profiler.create_emotion_profile, Profiler.div, Profiler.bind. cbv zeta.
  destruct (Qeq_bool (w1 + w2) 0) eqn:E; [discriminate |].
  intros [= <-]. split; [by apply Qeq_bool_neq | reflexivity].
Qed.

(** The keys of the first [k] entries of a score map sorted by descending
    score. *)
Section TopEntries.
Context (d : list (string * Q)) (k : nat).
Context (Hsorted : StronglySorted entry_before d).
Context (Hpositive : Forall (fun e => 0 <= e.2) d).

Lemma top_lookup (i : nat) (a : string) :
  top_entries d k !! i = Some a ->
  (i < k)%nat /\ ranked_entries d !! i = Some (a, Profiler.score_of d a).
Proof.
  unfold top_entries. rewrite list_lookup_fmap_Some.
  intros ([a' s] & -> & Htake). apply lookup_take_Some in Htake as [Hi Hlt].
  split; [done |]. rewrite Hi. cbn [fst]. do 2 f_equal.
  unfold Profiler.score_of. rewrite (get_NoDup d a' s); [done | |].
  - by apply entry_sorted_NoDup.
  - apply list_elem_of_lookup_2 in Hi. unfold ranked_entries in Hi.
    by rewrite sorted_desc_perm in Hi.
Qed.

Lemma ranked_sorted :
  StronglySorted (ranks_before snd entry_before) (ranked_entries d).
Proof. by apply sorted_desc_sorted. Qed.

Lemma top_ordered (i j : nat) (a b : string) :
  (i < j)%nat -> top_entries d k !! i = Some a -> top_entries d k !! j = Some b ->
  Profiler.score_of d b <= Profiler.score_of d a
  /\ (Profiler.score_of d a == Profiler.score_of d b -> taxonomy_before a b).
Proof.
  intros Hij Hi Hj.
  apply top_lookup in Hi as [_ Hi]. apply top_lookup in Hj as [_ Hj].
  pose proof (StronglySorted_lookup _ _ _ _ _ _ ranked_sorted Hij Hi Hj)
    as [Hlt | [Heq Hbefore]]; cbn [snd] in *.
  - split; [lra |]. intros Heq. lra.
  - split; [lra | done].
Qed.

Lemma top_dominates (a b : string) :
  a ∈ top_entries d k -> b ∉ top_entries d k -> Profiler.score_of d b <= Profiler.score_of d a.
Proof.
  intros Ha Hb. apply list_elem_of_lookup_1 in Ha as [i Hi].
  apply top_lookup in Hi as [Hik Hi].
  assert (0 <= Profiler.score_of d a) as Hnonneg.
  { apply list_elem_of_lookup_2 in Hi. unfold ranked_entries in Hi.
    rewrite sorted_desc_perm in Hi. rewrite Forall_forall in Hpositive.
    by apply Hpositive in Hi. }
  unfold Profiler.score_of at 1. destruct (Py.get d b) as [s |] eqn:Hget; [| done].
  cbn [default]. apply get_Some_elem in Hget.
  rewrite <- (sorted_desc_perm snd d) in Hget. fold (ranked_entries d) in Hget.
  apply list_elem_of_lookup_1 in Hget as [j Hj].
  destruct (decide (j < k)%nat) as [Hjk | Hjk].
  - destruct Hb. unfold top_entries. apply list_elem_of_fmap. exists (b, s).
    split; [done |]. apply elem_of_take. eauto.
  - assert (i < j)%nat as Hij by lia.
    pose proof (StronglySorted_lookup _ _ _ _ _ _ ranked_sorted Hij Hi Hj)
      as [Hlt | [Heq _]]; cbn [snd] in *; unfold id; lra.
Qed.

End TopEntries.

Section TopThree.
Context (d : list (string * Q)).
Context (Hsorted : StronglySorted entry_before d).

Lemma outranks_asym (a b : string) : outranks d a b -> outranks d b a -> False.
Proof.
  intros [H1 | [H1 T1]] [H2 | [H2 T2]]; try lra.
  by eapply taxonomy_before_asym.
Qed.

Lemma ranked_key (b : string) :
  b ∈ d.*1 -> exists j, ranked_entries d !! j = Some (b, Profiler.score_of d b).
Proof.
  intros Hb. apply list_elem_of_fmap in Hb as ([b' s] & -> & Hin). cbn [fst].
  assert (Profiler.score_of d b' = s) as ->.
  { unfold Profiler.score_of. rewrite (get_NoDup d b' s); [done | | done].
    by apply entry_sorted_NoDup. }
  rewrite <- (sorted_desc_perm snd d) in Hin. fold (ranked_entries d) in Hin.
  by apply list_elem_of_lookup_1 in Hin.
Qed.

Lemma top_entries_outrank (k : nat) (a b : string) :
  a ∈ top_entries d k -> b ∈ d.*1 -> b ∉ top_entries d k -> outranks d a b.
Proof.
  intros Ha Hb Hout. apply list_elem_of_lookup_1 in Ha as [i Hi].
  apply (top_lookup d k Hsorted) in Hi as [Hik Hi].
  apply ranked_key in Hb as [j Hj].
  destruct (decide (j < k)%nat) as [Hjk | Hjk].
  - destruct Hout. unfold top_entries. apply list_elem_of_fmap.
    exists (b, Profiler.score_of d b). split; [done |]. apply elem_of_take. eauto.
  - assert (i < j)%nat as Hij by lia.
    exact (StronglySorted_lookup _ _ _ _ _ _ (ranked_sorted d Hsorted) Hij Hi Hj).
Qed.

Lemma top_entries_ordered (k i j : nat) (a b : string) :
  (i < j)%nat -> top_entries d k !! i = Some a -> top_entries d k !! j = Some b ->
  outranks d a b.
Proof.
  intros Hij Hi Hj.
  apply (top_lookup d k Hsorted) in Hi as [_ Hi].
  apply (top_lookup d k Hsorted) in Hj as [_ Hj].
  exact (StronglySorted_lookup _ _ _ _ _ _ (ranked_sorted d Hsorted) Hij Hi Hj).
Qed.

Lemma top_entries_top_three : top_three d (top_entries d 3).
Proof.
  split; [| split; [| split]].
  - unfold top_entries, ranked_entries.
    by rewrite length_fmap, length_take, sorted_desc_length.
  - intros a Ha. unfold top_entries in Ha. rewrite fmap_take in Ha.
    apply subseteq_take in Ha. unfold ranked_entries in Ha.
    by rewrite (sorted_desc_perm snd d) in Ha.
  - intros i j a b. apply top_entries_ordered.
  - intros a b. apply top_entries_outrank.
Qed.

Lemma top_three_sorted (l : list string) :
  top_three d l -> StronglySorted (outranks d) l.
Proof. intros (_ & _ & Hord & _). by apply StronglySorted_lookup_2. Qed.

Lemma top_three_NoDup (l : list string) : top_three d l -> NoDup l.
Proof.
  intros (_ & _ & Hord & _). apply NoDup_alt. intros i j a Hi Hj.
  destruct (Nat.lt_trichotomy i j) as [Hlt | [Heq | Hgt]]; [| done |].
  - destruct (outranks_asym a a); by eapply Hord.
  - destruct (outranks_asym a a); by eapply Hord.
Qed.

Lemma top_three_subseteq (l l' : list string) :
  top_three d l -> top_three d l' -> l ⊆ l'.
Proof.
  intros Hl Hl' a Ha.
  destruct (decide (a ∈ l')) as [| Hout]; [done | exfalso].
  pose proof (top_three_NoDup l Hl) as Hnd. pose proof (top_three_NoDup l' Hl') as Hnd'.
  destruct Hl as (Hlen & Hkeys & _ & Hbest).
  destruct Hl' as (Hlen' & Hkeys' & _ & Hbest').
  destruct (decide (Forall (.∈ l) l')) as [Hall | Hnot].
  - rewrite Forall_forall in Hall.
    assert (l' ≡ₚ l) as Hperm.
    { apply submseteq_length_Permutation; [by apply NoDup_submseteq | lia]. }
    apply Hout. by rewrite Hperm.
  - apply not_Forall_Exists in Hnot; [| apply _].
    apply Exists_exists in Hnot as (b & Hb & Hbout).
    apply (outranks_asym a b).
    + apply Hbest; auto.
    + apply Hbest'; auto.
Qed.

(** The three best categories are determined. *)
Lemma top_three_unique (l l' : list string) :
  top_three d l -> top_three d l' -> l = l'.
Proof.
  intros Hl Hl'.
  apply (StronglySorted_unique_strong (outranks d)).
  - intros a b _ _ H1 H2. destruct (outranks_asym a b H1 H2).
  - by apply top_three_sorted.
  - by apply top_three_sorted.
  - apply NoDup_Permutation; [by apply top_three_NoDup | by apply top_three_NoDup |].
    intros a. split; by apply top_three_subseteq.
Qed.

End TopThree.

(** C2: the dominant emotions of a synthesized profile are at most three;
    the score the profile holds for a listed category is at least the
    score of any category that is not listed, a category without an entry
    in the score map counting as [0]; the list is in descending order of
    score, and of two listed categories with equal scores the one
    declared first in the taxonomy comes first.  More precisely the list
    is the one list of the three best categories of the score map (of all
    of them, when it holds fewer): every listed category has a score, and
    a scored category that is not listed has a lower score than each
    listed one, or the same score and a later place in the taxonomy. *)
Theorem dominant_emotions_top_three (classifier : Classifier.model)
    (overview : option string) (genres : list string) (nlp_weight genre_weight : Q)
    (p : Profiler.EmotionProfile) :
  Profiler.create_emotion_profile classifier overview genres nlp_weight genre_weight
  = inr p ->
  let score := Profiler.score_of (Profiler.emotion_scores p) in
  (length (Profiler.dominant_emotions p) <= 3)%nat
  /\ (forall listed other,
        listed ∈ Profiler.dominant_emotions p ->
        other ∉ Profiler.dominant_emotions p ->
        score other <= score listed)
  /\ (forall i j a b,
        (i < j)%nat ->
        Profiler.dominant_emotions p !! i = Some a ->
        Profiler.dominant_emotions p !! j = Some b ->
        score b <= score a /\ (score a == score b -> taxonomy_before a b))
  /\ top_three (Profiler.emotion_scores p) (Profiler.dominant_emotions p)
  /\ (forall l, top_three (Profiler.emotion_scores p) l ->
        l = Profiler.dominant_emotions p).
Proof.
  intros Hp score. apply create_emotion_profile_inr in Hp as [_ ->].
  subst score.
  destruct (profile_of_shape classifier overview genres
              (nlp_weight / (nlp_weight + genre_weight))
              (genre_weight / (nlp_weight + genre_weight))) as [(nlp & genre & Hscores) Hdom].
  rewrite Hdom. clear Hdom.
  set (d := Profiler.emotion_scores _) in *. clearbody d.
  assert (StronglySorted entry_before d) as Hsorted
    by (rewrite Hscores; apply entries_sorted).
  assert (Forall (fun e => 0 <= e.2) d) as Hpositive.
  { rewrite Hscores. apply Forall_forall. intros e He.
    apply list_elem_of_omap in He as (c & _ & He).
    apply combined_entry_key in He as [_ He]. lra. }
  fold (ranked_entries d). fold (top_entries d 3).
  split; [| split; [| split; [| split]]].
  - unfold top_entries. rewrite length_fmap, length_take. lia.
  - intros listed other. by apply top_dominates.
  - intros i j a b. by apply top_ordered.
  - by apply top_entries_top_three.
  - intros l Hl. apply (top_three_unique d); [done |].
    by apply top_entries_top_three.
Qed.

(** A tie at the cut: four categories with the same score, of which the
    three declared first in the taxonomy are listed. *)
Example dominant_emotions_tie_at_cut :
  match Profiler.create_emotion_profile
          (fun _ => Some [("love", 0.5); ("fear", 0.5); ("joy", 0.5); ("sadness", 0.5)])
          (Some "Four feelings of the same strength.") [] 0.6 0.4 with
  | inr p => Profiler.dominant_emotions p
             = ["cathartic_sadness"; "pure_joy"; "controlled_fear"]
  | inl _ => False
  end.
Proof. vm_compute. reflexivity. Qed.

End ProfileShape.

(** ** Failures of the synthesizer *)

Section ProfileErrors.
Context (classifier : Classifier.model) (overview : option string).
Context (genres : list string) (nlp_weight genre_weight : Q).




End ProfileErrors.


(** With the default weights the division changes nothing. *)
Example normalized_weights_default :
  Float64.normalized_weights 0x1.3333333333333p-1%float 0x1.999999999999ap-2%float
  = Some (0x1.3333333333333p-1%float, 0x1.999999999999ap-2%float).
Proof. vm_compute. reflexivity. Qed.

(** ** The confidence of a profile *)

Section Confidence.

Lemma round_half_even_comp (x y : Q) :
  x == y -> Py.round_half_even x = Py.round_half_even y.
Proof.
  intros H. unfold Py.round_half_even. cbv zeta.
  rewrite (Qfloor_comp _ _ H).
  assert (x - inject_Z (Qfloor y) == y - inject_Z (Qfloor y)) as H' by (rewrite H; reflexivity).
  by rewrite (Qcompare_comp _ _ H' (1 # 2) (1 # 2)).
Qed.

Lemma round_comp (x y : Q) (ndigits : nat) :
  x == y -> Py.round x ndigits = Py.round y ndigits.
Proof.
  intros H. unfold Py.round. cbv zeta.
  rewrite (round_half_even_comp (x * _) (y * inject_Z (10 ^ Z.of_nat ndigits))); [done |].
  by rewrite H.
Qed.

Lemma text_used_long (text : string) :
  Profiler.text_used (Some text)
  = if (String.length text <=? 20)%nat then None else Some text.
Proof.
  unfold Profiler.text_used.
  destruct (String.length text <=? 20)%nat eqn:E1, (20 <? String.length text)%nat eqn:E2,
    (String.length text =? 0)%nat eqn:E3; try reflexivity;
    apply Nat.leb_le in E1 || apply Nat.leb_gt in E1;
    apply Nat.ltb_lt in E2 || apply Nat.ltb_ge in E2;
    apply Nat.eqb_eq in E3 || apply Nat.eqb_neq in E3; lia.
Qed.

Lemma profile_of_confidence (classifier : Classifier.model) (overview : option string)
    (genres : list string) (w1 w2 : Q) :
  Profiler.confidence (Profiler.profile_of classifier overview genres w1 w2)
  = Py.round (confidence_spec overview) 2.
Proof.
  unfold Profiler.profile_of, confidence_spec.
  destruct overview as [text |]; [| reflexivity].
  rewrite text_used_long.
  destruct (String.length text <=? 20)%nat; [reflexivity |].
  cbv zeta. cbn [Profiler.confidence]. apply round_comp, min_Qmin.
Qed.

Lemma confidence_spec_range (overview : option string) :
  0.5 <= confidence_spec overview <= 0.9.
Proof.
  unfold confidence_spec. destruct overview as [text |]; [| lra].
  destruct (String.length text <=? 20)%nat; [lra |].
  assert (0 <= Profiler.text_len text) as Hlen.
  { unfold Profiler.text_len. rewrite <- (Zle_Qle 0). lia. }
  destruct (Q.min_spec 0.9 (0.5 + Profiler.text_len text / 1000)) as [[? ->] | [? ->]];
    lra_div.
Qed.




End Confidence.

(** ** The ranges of the derived scores *)

Section ScalarRanges.

Lemma set_values (P : Q -> Prop) (d : list (string * Q)) (k : string) (v : Q) :
  Forall (fun r => P r.2) d -> P v -> Forall (fun r => P r.2) (Py.set d k v).
Proof.
  induction 1 as [| [k' v'] d Hk' Hd IH]; intros Hv; cbn [Py.set].
  - by repeat constructor.
  - destruct (String.eqb k' k); constructor; auto.
Qed.

Lemma classify_text_range (classifier : Classifier.model) (text : string) (n : nat) :
  classifier_contract classifier ->
  Forall (fun r => unit_range r.2) (Classifier.classify_text classifier text n).
Proof.
  intros Hcontract. unfold Classifier.classify_text.
  destruct (_ || _)%bool; [constructor |]. cbv zeta.
  destruct (classifier _) as [results |] eqn:Hcl; [| constructor].
  apply Hcontract in Hcl.
  assert (forall acc : list (string * Q),
             Forall (fun r => unit_range r.2) acc ->
             Forall (fun r => unit_range r.2)
               (foldl (fun emotions '(label, score) =>
                         Py.set emotions (Py.lower label) score) acc results)) as Hfold.
  { induction Hcl as [| [label score] results Hscore _ IH]; intros acc Hacc;
      cbn [foldl]; [done |].
    apply IH. by apply set_values. }
  apply Hfold. constructor.
Qed.

Lemma map_to_categories_range (emotions : list (string * Q)) (c : string) (m : Q) :
  Forall (fun r => unit_range r.2) emotions ->
  Classifier.map_to_categories emotions !! c = Some m -> unit_range m.
Proof.
  intros Hall. rewrite map_to_categories_lookup.
  destruct (scores_for c emotions) as [| x xs] eqn:Hscores; [discriminate |].
  intros [= <-]. destruct (max_list_greatest x xs) as [Hin _].
  rewrite <- Hscores in Hin. unfold scores_for in Hin.
  apply list_elem_of_fmap in Hin as (r & -> & Hr).
  apply list_elem_of_filter in Hr as [_ Hr].
  rewrite Forall_forall in Hall. by apply Hall.
Qed.

Lemma genre_table_range (genre : string) (genre_emotions : list (string * Q)) :
  GenreMapper.GENRE_EMOTION_MAP !! genre = Some genre_emotions ->
  Forall (fun e => 0 <= e.2 <= 0.9) genre_emotions.
Proof.
  unfold GenreMapper.GENRE_EMOTION_MAP. intros H.
  apply elem_of_list_to_map_2, list_elem_of_In in H. revert H.
  match goal with
  | |- In _ ?table -> _ =>
      assert (forallb (fun gd : string * list (string * Q) =>
                         forallb (fun e : string * Q =>
                                    Qle_bool 0 e.2 && Qle_bool e.2 0.9) gd.2)
                table = true) as Hok by (vm_compute; reflexivity)
  end.
  intros H. rewrite forallb_forall in Hok.
  specialize (Hok _ H). cbn [snd] in Hok. rewrite forallb_forall in Hok.
  apply Forall_forall. intros e He. apply list_elem_of_In in He.
  specialize (Hok e He). apply andb_true_iff in Hok as [H1 H2].
  by rewrite !Qle_bool_iff in H1, H2.
Qed.

Lemma contributions_range (c : string) (genres : list string) :
  Forall (fun s => 0 <= s <= 0.9) (contributions c genres).
Proof.
  unfold contributions. induction genres as [| genre genres IH]; cbn [flat_map];
    [constructor |].
  apply Forall_app. split; [| done].
  destruct (GenreMapper.GENRE_EMOTION_MAP !! GenreMapper.normalize genre)
    as [genre_emotions |] eqn:Hg; [| constructor].
  apply genre_table_range in Hg. apply Forall_forall. intros s Hs.
  apply list_elem_of_fmap in Hs as (e & -> & He).
  apply list_elem_of_filter in He as [_ He].
  rewrite Forall_forall in Hg. by apply Hg.
Qed.

Lemma get_genre_emotions_range (genres : list string) (c : string) (v : Q) :
  GenreMapper.get_genre_emotions genres !! c = Some v -> 0 <= v <= 0.9.
Proof.
  rewrite get_genre_emotions_fold.
  apply (merge_fold_range average (fun s => 0 <= s <= 0.9)).
  - intros a b Ha Hb. unfold average. lra_div.
  - discriminate.
  - apply contributions_range.
Qed.

Lemma combined_entry_range (nlp genre : gmap string Q) (w1 w2 : Q) (c : string)
    (e : string * Q) :
  (forall m, nlp !! c = Some m -> unit_range m) ->
  (forall v, genre !! c = Some v -> 0 <= v <= 0.9) ->
  0 <= w1 -> 0 <= w2 -> w1 + w2 == 1 ->
  Profiler.combined_entry nlp genre w1 w2 c = Some e -> unit_range e.2.
Proof.
  intros Hnlp Hgenre Hw1 Hw2 Hsum He. split.
  - apply combined_entry_key in He as [_ He]. lra.
  - revert He. unfold Profiler.combined_entry. cbv zeta.
    destruct (Py.ltb 0.01 _); [| discriminate]. intros [= <-]. cbn [snd].
    assert (unit_range (default 0 (nlp !! c))) as [Hn0 Hn1].
    { destruct (nlp !! c) as [m |]; [by apply Hnlp | unfold unit_range; cbn; lra]. }
    assert (0 <= default 0 (genre !! c) <= 0.9) as [Hg0 Hg1].
    { destruct (genre !! c) as [v |]; [by apply Hgenre | cbn; lra]. }
    set (n := default 0 (nlp !! c)) in *. set (g := default 0 (genre !! c)) in *.
    clearbody n g.
    pose proof (round_upper (n * w1 + g * w2) 3 1000) as Hup. cbv zeta in Hup.
    change (inject_Z (10 ^ Z.of_nat 3)) with 1000 in Hup.
    change (inject_Z 1000) with 1000 in Hup.
    assert (Py.round (n * w1 + g * w2) 3 * 1000 <= 1000) as H; [apply Hup; nra | lra].
Qed.

Lemma score_of_range (d : list (string * Q)) (e : string) :
  Forall (fun r => unit_range r.2) d -> unit_range (Profiler.score_of d e).
Proof.
  intros Hd. unfold Profiler.score_of.
  destruct (Py.get d e) as [s |] eqn:Hget; [| unfold unit_range; cbn; lra].
  apply get_Some_elem in Hget. rewrite Forall_forall in Hd. by apply (Hd (e, s)).
Qed.

Lemma max_or_zero_range (xs : list Q) :
  Forall unit_range xs -> unit_range (Profiler.max_or_zero xs).
Proof.
  intros Hxs. destruct Hxs as [| x xs Hx Hxs]; cbn [Profiler.max_or_zero].
  - unfold unit_range. lra.
  - by apply max_list_bounds.
Qed.

Lemma mean_or_zero_range (xs : list Q) :
  Forall unit_range xs -> unit_range (Profiler.mean_or_zero xs).
Proof.
  intros Hxs. destruct xs as [| x xs]; cbn [Profiler.mean_or_zero].
  - unfold unit_range. lra.
  - by apply mean_bounds.
Qed.

Lemma scores_range (d : list (string * Q)) (categories : list string) :
  Forall (fun r => unit_range r.2) d ->
  Forall unit_range (map (Profiler.score_of d) categories).
Proof.
  intros Hd. apply Forall_fmap, Forall_forall. intros e _. by apply score_of_range.
Qed.

Lemma intensity_of_range (genre : string) : 3 <= GenreMapper.intensity_of genre <= 8.
Proof.
  unfold GenreMapper.intensity_of. cbv zeta.
  repeat destruct (bool_decide _); lra.
Qed.

Lemma get_intensity_from_genres_range (genres : list string) :
  3 <= GenreMapper.get_intensity_from_genres genres <= 8.
Proof.
  unfold GenreMapper.get_intensity_from_genres. cbv zeta.
  destruct genres as [| genre genres]; [cbn [map]; lra |].
  apply (mean_bounds 3 8); [done |].
  apply Forall_fmap, Forall_forall. intros g _. apply intensity_of_range.
Qed.

Lemma calculate_intensity_range (d : list (string * Q)) (genres : list string) :
  Forall (fun r => unit_range r.2) d ->
  0 <= Profiler.calculate_intensity d genres <= 10.
Proof.
  intros Hd. unfold Profiler.calculate_intensity. cbv zeta.
  pose proof (max_or_zero_range _ (scores_range d Profiler.HIGH_INTENSITY_EMOTIONS Hd))
    as [He0 He1].
  pose proof (get_intensity_from_genres_range genres) as [Hg0 Hg1].
  set (e := Profiler.max_or_zero _) in *.
  set (g := GenreMapper.get_intensity_from_genres genres) in *.
  clearbody e g. lra_div.
Qed.

Lemma calculate_catharsis_range (d : list (string * Q)) :
  Forall (fun r => unit_range r.2) d -> 0 <= Profiler.calculate_catharsis d <= 10.
Proof.
  intros Hd. unfold Profiler.calculate_catharsis. cbv zeta.
  pose proof (max_or_zero_range _ (scores_range d Profiler.CATHARTIC_EMOTIONS Hd))
    as [Hm0 Hm1].
  pose proof (mean_or_zero_range _ (scores_range d Profiler.CATHARTIC_EMOTIONS Hd))
    as [Ha0 Ha1].
  set (m := Profiler.max_or_zero _) in *. set (a := Profiler.mean_or_zero _) in *.
  clearbody m a. lra.
Qed.

Lemma calculate_comfort_range (d : list (string * Q)) (genres : list string) :
  0 <= Profiler.calculate_comfort d genres <= 10.
Proof.
  unfold Profiler.calculate_comfort. cbv zeta.
  set (x := _ * 10).
  destruct (max_cases 0 (Py.min 10 x)) as [[H ->] | [H ->]]; [| lra].
  destruct (min_cases 10 x) as [[H' Heq] | [H' Heq]]; rewrite Heq in *; lra.
Qed.

Lemma round_one_range (x : Q) : 0 <= x <= 10 -> 0 <= Py.round x 1 <= 10.
Proof.
  intros [H0 H10].
  pose proof (round_lower x 1 0) as Hlo. pose proof (round_upper x 1 100) as Hup.
  cbv zeta in Hlo, Hup. change (inject_Z (10 ^ Z.of_nat 1)) with 10 in *.
  change (inject_Z 0) with 0 in *. change (inject_Z 100) with 100 in *.
  assert (0 <= Py.round x 1 * 10) by (apply Hlo; lra).
  assert (Py.round x 1 * 10 <= 100) by (apply Hup; lra). lra.
Qed.

Lemma profile_of_scalars (classifier : Classifier.model) (overview : option string)
    (genres : list string) (w1 w2 : Q) :
  let p := Profiler.profile_of classifier overview genres w1 w2 in
  Profiler.intensity_score p
  = Py.round (Profiler.calculate_intensity (Profiler.emotion_scores p) genres) 1
  /\ Profiler.catharsis_score p
     = Py.round (Profiler.calculate_catharsis (Profiler.emotion_scores p)) 1
  /\ Profiler.comfort_score p
     = Py.round (Profiler.calculate_comfort (Profiler.emotion_scores p) genres) 1.
Proof.
  unfold Profiler.profile_of. destruct (Profiler.text_used overview); cbv zeta;
    repeat split; reflexivity.
Qed.

Lemma profile_of_scores_range (classifier : Classifier.model) (overview : option string)
    (genres : list string) (w1 w2 : Q) :
  classifier_contract classifier -> 0 <= w1 -> 0 <= w2 -> w1 + w2 == 1 ->
  Forall (fun r => unit_range r.2)
    (Profiler.emotion_scores (Profiler.profile_of classifier overview genres w1 w2)).
Proof.
  intros Hcontract Hw1 Hw2 Hsum.
  assert (forall nlp : gmap string Q,
             (forall c m, nlp !! c = Some m -> unit_range m) ->
             Forall (fun r => unit_range r.2)
               (omap (Profiler.combined_entry nlp (GenreMapper.get_genre_emotions genres)
                        w1 w2) Profiler.EMOTION_CATEGORIES)) as Hentries.
  { intros nlp Hnlp. apply Forall_forall. intros e He.
    apply list_elem_of_omap in He as (c & _ & He).
    apply (combined_entry_range nlp (GenreMapper.get_genre_emotions genres) w1 w2 c);
      [apply Hnlp | apply get_genre_emotions_range | done..]. }
  unfold Profiler.profile_of. destruct (Profiler.text_used overview) as [text |];
    cbv zeta; cbn [Profiler.emotion_scores]; apply Hentries.
  - intros c m. apply map_to_categories_range. by apply classify_text_range.
  - intros c m. by rewrite lookup_empty.
Qed.

(** C5: under the classifier contract, and with weights that are not
    negative (the defaults [0.6] and [0.4] among them), the intensity,
    catharsis and comfort scores of a synthesized profile lie in
    [[0, 10]] and its confidence lies in [[0, 1]]. *)
Theorem profile_scalars_in_range (classifier : Classifier.model)
    (overview : option string) (genres : list string) (nlp_weight genre_weight : Q)
    (p : Profiler.EmotionProfile) :
  classifier_contract classifier ->
  0 <= nlp_weight -> 0 <= genre_weight ->
  Profiler.create_emotion_profile classifier overview genres nlp_weight genre_weight
  = inr p ->
  0 <= Profiler.intensity_score p <= 10
  /\ 0 <= Profiler.catharsis_score p <= 10
  /\ 0 <= Profiler.comfort_score p <= 10
  /\ 0 <= Profiler.confidence p <= 1.
Proof.
  intros Hcontract Hw1 Hw2 Hp.
  apply create_emotion_profile_inr in Hp as [Hsum ->].
  assert (0 < nlp_weight + genre_weight) as Hpos.
  { destruct (Qlt_le_dec 0 (nlp_weight + genre_weight)); [done |].
    destruct Hsum. lra. }
  set (w1 := nlp_weight / (nlp_weight + genre_weight)).
  set (w2 := genre_weight / (nlp_weight + genre_weight)).
  assert (0 <= w1) as Hw1' by (apply Qle_shift_div_l; [done | lra]).
  assert (0 <= w2) as Hw2' by (apply Qle_shift_div_l; [done | lra]).
  assert (w1 + w2 == 1) as Hone by (subst w1 w2; field; lra).
  pose proof (profile_of_scores_range classifier overview genres w1 w2
                Hcontract Hw1' Hw2' Hone) as Hscores.
  destruct (profile_of_scalars classifier overview genres w1 w2) as (-> & -> & ->).
  rewrite profile_of_confidence.
  split; [| split; [| split]].
  - by apply round_one_range, calculate_intensity_range.
  - by apply round_one_range, calculate_catharsis_range.
  - apply round_one_range, calculate_comfort_range.
  - pose proof (confidence_spec_range overview) as [Hlo Hhi].
    pose proof (round_lower (confidence_spec overview) 2 0) as Hrl.
    pose proof (round_upper (confidence_spec overview) 2 100) as Hru.
    cbv zeta in Hrl, Hru. change (inject_Z (10 ^ Z.of_nat 2)) with 100 in *.
    change (inject_Z 0) with 0 in *. change (inject_Z 100) with 100 in *.
    assert (0 <= Py.round (confidence_spec overview) 2 * 100) by (apply Hrl; lra).
    assert (Py.round (confidence_spec overview) 2 * 100 <= 100) by (apply Hru; lra).
    lra.
Qed.

End ScalarRanges.

(** ** The theorems on a small catalog *)

Lemma joyful_contract : classifier_contract joyful.
Proof.
  intros text results [= <-]. repeat constructor; cbn [snd]; lra.
Qed.

Lemma match_score_formula_witness :
  two_films !! 1%nat = Some paddington
  /\ exists score,
       (1%nat, score) ∈ Engine.ranked_by_mood two_films "stressed" "feel-good"
       /\ score == match_score_spec (Engine.mood_params_of "stressed")
                     (Engine.desired_emotions_of "feel-good") paddington.
Proof.
  split; [reflexivity |].
  exact (proj1 (match_score_formula two_films "stressed" "feel-good" 1 paddington eq_refl)).
Defined.

Lemma rank_by_mood_total_order_witness :
  (0 <= 3)%Z
  /\ StronglySorted rank_order
       (Engine.ranked_by (mood_score "stressed" "feel-good") two_films).
Proof.
  assert (0 <= 3)%Z as H by lia. split; [exact H |].
  exact (proj1 (proj2 (rank_by_mood_total_order two_films "stressed" "feel-good"
                         (mood_score "stressed" "feel-good") (fun _ => "") 3 H))).
Defined.

(** Two scores that differ by a rounding error only are no tie: the order
    follows the scores as they are computed, here [0.42] for the first
    film and [0.42000000000000004] for the second. *)
Example ranked_by_computed_scores :
  Engine.ranked_by
    (fun row => if String.eqb (Engine.title row) "Paddington"
                then 0.42000000000000004 else 0.42)
    two_films
  = [(1%nat, 0.42000000000000004); (0%nat, 0.42)].
Proof. reflexivity. Qed.

Lemma rank_by_emotions_filter_then_fraction_witness :
  (0 <= 3)%Z
  /\ StronglySorted rank_order
       (Engine.ranked_by_emotions two_films ["pure_joy"; "awe_wonder"] 0 10 0).
Proof.
  assert (0 <= 3)%Z as H by lia. split; [exact H |].
  exact (proj1 (proj2 (proj2 (proj2
    (rank_by_emotions_filter_then_fraction two_films ["pure_joy"; "awe_wonder"] 0 10 0 3 H))))).
Defined.

Lemma dominant_emotions_top_three_witness :
  match Profiler.create_emotion_profile joyful
          (Some "A young bear travels to London in search of a home.")
          ["Family"; "Comedy"; "Adventure"] 0.6 0.4 with
  | inr p => (length (Profiler.dominant_emotions p) <= 3)%nat
  | inl _ => False
  end.
Proof.
  destruct (Profiler.create_emotion_profile _ _ _ _ _) as [e | p] eqn:Hp.
  - vm_compute in Hp. discriminate.
  - exact (proj1 (dominant_emotions_top_three _ _ _ _ _ _ Hp)).
Defined.

(** The weights have to be non-negative for the upper bounds: with the
    weights [2] and [-1] a score of [1] for fear gives the intensity
    [15.5]. *)
Example intensity_with_negative_weight :
  match Profiler.create_emotion_profile fearful
          (Some "A storm nears the coast") [] 2 (-1) with
  | inr p => Profiler.intensity_score p == 15.5
  | inl _ => False
  end.
Proof. by vm_compute. Qed.

Lemma profile_scalars_in_range_witness :
  classifier_contract joyful /\ 0 <= 0.6 /\ 0 <= 0.4
  /\ match Profiler.create_emotion_profile joyful
             (Some "A young bear travels to London in search of a home.")
             ["Family"; "Comedy"; "Adventure"] 0.6 0.4 with
     | inr p => 0 <= Profiler.intensity_score p <= 10
     | inl _ => False
     end.
Proof.
  assert (0 <= 0.6) as H1 by lra. assert (0 <= 0.4) as H2 by lra.
  split; [exact joyful_contract |]. split; [exact H1 |]. split; [exact H2 |].
  destruct (Profiler.create_emotion_profile _ _ _ _ _) as [e | p] eqn:Hp.
  - vm_compute in Hp. discriminate.
  - exact (proj1 (profile_scalars_in_range _ _ _ _ _ _ joyful_contract H1 H2 Hp)).
Defined.

(** * Further properties of the code *)

(** ** Text *)

Section TextFacts.

Lemma lower_ascii_idem (c : ascii) : Py.lower_ascii (Py.lower_ascii c) = Py.lower_ascii c.
Proof. destruct c as [[] [] [] [] [] [] [] []]; reflexivity. Qed.

Lemma is_space_lower_ascii (c : ascii) : Py.is_space (Py.lower_ascii c) = Py.is_space c.
Proof. destruct c as [[] [] [] [] [] [] [] []]; reflexivity. Qed.

Lemma lower_idem (s : string) : Py.lower (Py.lower s) = Py.lower s.
Proof.
  induction s as [| c s IH]; cbn [Py.lower]; [reflexivity |].
  by rewrite lower_ascii_idem, IH.
Qed.

Lemma lower_length (s : string) : String.length (Py.lower s) = String.length s.
Proof. induction s as [| c s IH]; cbn [Py.lower String.length]; congruence. Qed.

Lemma lower_lstrip (s : string) : Py.lower (Py.lstrip s) = Py.lstrip (Py.lower s).
Proof.
  induction s as [| c s IH]; cbn [Py.lower Py.lstrip]; [reflexivity |].
  rewrite is_space_lower_ascii. by destruct (Py.is_space c).
Qed.

Lemma lower_rstrip (s : string) : Py.lower (Py.rstrip s) = Py.rstrip (Py.lower s).
Proof.
  induction s as [| c s IH]; cbn [Py.lower Py.rstrip]; [reflexivity |].
  rewrite <- IH, is_space_lower_ascii.
  destruct (Py.rstrip s) as [| c' r]; cbn [Py.lower]; [| reflexivity].
  by destruct (Py.is_space c).
Qed.

Lemma lower_strip (s : string) : Py.lower (Py.strip s) = Py.strip (Py.lower s).
Proof. unfold Py.strip. by rewrite lower_rstrip, lower_lstrip. Qed.

Lemma rstrip_cons (c : ascii) (s : string) :
  Py.rstrip (String c s)
  = match Py.rstrip s with
    | EmptyString => if Py.is_space c then EmptyString else String c EmptyString
    | r => String c r
    end.
Proof. reflexivity. Qed.

Lemma rstrip_idem (s : string) : Py.rstrip (Py.rstrip s) = Py.rstrip s.
Proof.
  induction s as [| c s IH]; [reflexivity |].
  rewrite rstrip_cons. destruct (Py.rstrip s) as [| c' r] eqn:Hr.
  - destruct (Py.is_space c) eqn:Hc; [reflexivity |].
    rewrite rstrip_cons. cbn [Py.rstrip]. by rewrite Hc.
  - by rewrite rstrip_cons, IH.
Qed.

(** A text that does not start with a space keeps its first character
    under [rstrip]. *)
Lemma rstrip_head (c : ascii) (s : string) :
  Py.is_space c = false -> exists r, Py.rstrip (String c s) = String c r.
Proof.
  intros Hc. cbn [Py.rstrip]. destruct (Py.rstrip s); rewrite ?Hc; eauto.
Qed.

Lemma lstrip_head (s : string) :
  Py.lstrip s = EmptyString
  \/ exists c r, Py.lstrip s = String c r /\ Py.is_space c = false.
Proof.
  induction s as [| c s IH]; cbn [Py.lstrip]; [by left |].
  destruct (Py.is_space c) eqn:Hc; [done | right; eauto].
Qed.

Lemma strip_idem (s : string) : Py.strip (Py.strip s) = Py.strip s.
Proof.
  unfold Py.strip. destruct (lstrip_head s) as [-> | (c & r & -> & Hc)]; [reflexivity |].
  destruct (rstrip_head c r Hc) as [r' Hr']. rewrite Hr'.
  cbn [Py.lstrip]. rewrite Hc, <- Hr'. apply rstrip_idem.
Qed.

(** [genre.lower().strip()] is idempotent. *)
Lemma normalize_idem (genre : string) :
  GenreMapper.normalize (GenreMapper.normalize genre) = GenreMapper.normalize genre.
Proof.
  unfold GenreMapper.normalize. by rewrite lower_strip, lower_idem, strip_idem.
Qed.

Lemma prefix_app (kw s : string) : String.prefix kw (kw +:+ s) = true.
Proof.
  induction kw as [| c kw IH]; simpl; [by destruct s |].
  destruct (ascii_dec c c); [exact IH | congruence].
Qed.

Lemma prefix_split (kw s : string) :
  String.prefix kw s = true -> exists post, s = kw +:+ post.
Proof.
  revert s. induction kw as [| c kw IH]; intros s H; [by exists s |].
  destruct s as [| c' s]; [discriminate |]. simpl in H.
  destruct (ascii_dec c c') as [-> | Hne]; [| discriminate].
  destruct (IH s H) as [post ->]. by exists post.
Qed.

(** [Py.contains] is the substring test. *)
Lemma contains_spec (kw s : string) :
  Py.contains kw s = true <-> exists pre post, s = pre +:+ kw +:+ post.
Proof.
  split.
  - induction s as [| c s IH]; cbn [Py.contains]; rewrite orb_true_iff.
    + intros [H | H]; [| discriminate].
      apply prefix_split in H as [post ->]. by exists EmptyString, post.
    + intros [H | H].
      * apply prefix_split in H as [post ->]. by exists EmptyString, post.
      * destruct (IH H) as (pre & post & ->). by exists (String c pre), post.
  - intros (pre & post & ->). induction pre as [| c pre IH].
    + change (EmptyString +:+ kw +:+ post) with (kw +:+ post).
      destruct (kw +:+ post) eqn:E; cbn [Py.contains];
        rewrite <- ?E, prefix_app; reflexivity.
    + change (String c pre +:+ kw +:+ post) with (String c (pre +:+ kw +:+ post)).
      cbn [Py.contains]. rewrite IH. apply orb_true_r.
Qed.

End TextFacts.

(** ** The range of the match scores *)

Section ScoreRange.

Lemma fraction_present_range (targets dominant : list string) :
  0 <= fraction_present targets dominant <= 1.
Proof.
  unfold fraction_present.
  pose proof (length_filter (.∈ dominant) targets) as Hlen.
  set (k := length (filter (.∈ dominant) targets)) in *.
  destruct targets as [| t targets].
  - split; apply Qle_bool_imp_le; reflexivity.
  - set (n := length (t :: targets)) in *.
    assert (0 < inject_Z (Z.of_nat n)) as Hn.
    { rewrite <- (Zlt_Qlt 0). subst n. cbn [length]. lia. }
    split.
    + apply Qle_shift_div_l; [done |]. rewrite Qmult_0_l, <- (Zle_Qle 0). lia.
    + apply Qle_shift_div_r; [done |]. rewrite Qmult_1_l, <- Zle_Qle. lia.
Qed.

Lemma preference_match_nonneg (preference : option string) (x : Q) :
  0 <= x <= 10 -> 0 <= preference_match preference x.
Proof.
  intros [H0 H10]. unfold preference_match.
  destruct (decide _); [apply Q.le_max_l |].
  destruct (decide _); [lra_div |].
  assert (Qabs (x - 5) <= 5) as Habs by (apply Qabs_Qle_condition; lra).
  set (a := Qabs (x - 5)) in *. clearbody a. lra_div.
Qed.

Lemma primary_bonus_nonneg (primary : option string) (dominant : list string) :
  0 <= primary_bonus primary dominant.
Proof. unfold primary_bonus. destruct primary; [destruct (decide _) |]; lra. Qed.

Lemma match_score_spec_range (row : Engine.MovieRow) (params : Engine.MoodParams)
    (targets : list string) :
  0 <= Engine.intensity_score row <= 10 ->
  0 <= Engine.comfort_score row <= 10 ->
  0 <= match_score_spec params targets row <= 1.
Proof.
  intros Hi Hc. unfold match_score_spec.
  pose proof (fraction_present_range targets (Engine.dominant_emotions row)) as [Hf _].
  pose proof (preference_match_nonneg (Engine.intensity params) _ Hi) as Hpi.
  pose proof (preference_match_nonneg (Engine.comfort params) _ Hc) as Hpc.
  pose proof (primary_bonus_nonneg (Engine.primary params) (Engine.dominant_emotions row))
    as Hb.
  set (f := fraction_present _ _) in *. set (pi := preference_match _ _) in *.
  set (pc := preference_match (Engine.comfort params) _) in *.
  set (b := primary_bonus _ _) in *. clearbody f pi pc b.
  destruct (Q.min_spec 1 (0.4 * f + 0.3 * pi + 0.3 * pc + b)) as [[H ->] | [H ->]]; lra.
Qed.

(** X1: a row whose intensity and comfort lie in [[0, 10]] gets a match
    score in [[0, 1]], whatever the mood parameters and the target list. *)
Theorem match_score_in_unit_range (row : Engine.MovieRow) (params : Engine.MoodParams)
    (targets : list string) :
  0 <= Engine.intensity_score row <= 10 ->
  0 <= Engine.comfort_score row <= 10 ->
  0 <= Engine._calculate_match_score row params targets <= 1.
Proof.
  intros Hi Hc. rewrite calculate_match_score_spec.
  by apply match_score_spec_range.
Qed.

(** Outside that range the score can be negative: an intensity of [20]
    under no preference. *)
Example match_score_negative :
  Engine._calculate_match_score
    {| Engine.title := ""; Engine.overview := ""; Engine.genres := [];
       Engine.poster_url := ""; Engine.dominant_emotions := [];
       Engine.intensity_score := 20; Engine.comfort_score := 5 |}
    Engine.no_params ["pure_joy"] == -0.3.
Proof. by vm_compute. Qed.

Lemma emotion_fraction_range (targets dominant : list string) :
  0 <= Engine.emotion_fraction targets dominant <= 1.
Proof. rewrite emotion_fraction_spec. apply fraction_present_range. Qed.

End ScoreRange.

(** ** More on [recommend_by_mood] *)

Section MoodRankingMore.
Context (movies_df : list Engine.MovieRow) (current_mood desired_feeling : string).

Lemma slice_to_take {A} (n : Z) (l : list A) :
  Py.slice_to n l = take (slice_length n (length l)) l.
Proof.
  unfold Py.slice_to, slice_length. destruct (0 <=? n)%Z; [| reflexivity].
  destruct (decide (Z.to_nat n <= length l)%nat).
  - by rewrite Nat.min_l.
  - rewrite Nat.min_r by lia. rewrite !take_ge by lia. reflexivity.
Qed.

Lemma slice_length_le (n : Z) (len : nat) : (slice_length n len <= len)%nat.
Proof. unfold slice_length. destruct (0 <=? n)%Z eqn:E; lia. Qed.

Lemma recommend_by_mood_slice_length (n : Z) :
  length (Engine.recommend_by_mood movies_df current_mood desired_feeling n)
  = slice_length n (length movies_df).
Proof.
  pose proof (recommend_by_mood_slice movies_df current_mood desired_feeling n) as H.
  apply Forall2_length in H. rewrite H, slice_to_take, length_take.
  rewrite ranked_by_mood_length. pose proof (slice_length_le n (length movies_df)).
  by rewrite Nat.min_l.
Qed.

(** X2: the number of recommendations: [min(n, |catalog|)] for [n >= 0],
    and for a negative [n] no error but all the ranking except its last
    [|n|] entries; in particular none for an empty catalog. *)
Theorem recommend_by_mood_count (n : Z) :
  length (Engine.recommend_by_mood movies_df current_mood desired_feeling n)
  = (if (0 <=? n)%Z then Nat.min (Z.to_nat n) (length movies_df)
     else Z.to_nat (Z.of_nat (length movies_df) + n)).
Proof. rewrite recommend_by_mood_slice_length. reflexivity. Qed.

Lemma recommend_by_mood_ranked (n : Z) (i : nat) (rec : Engine.MovieRecommendation) :
  Engine.recommend_by_mood movies_df current_mood desired_feeling n !! i = Some rec ->
  exists idx row,
    Engine.ranked_by_mood movies_df current_mood desired_feeling !! i
    = Some (idx, Engine.match_score rec)
    /\ movies_df !! idx = Some row
    /\ rec = Engine.recommendation row (mood_score current_mood desired_feeling row)
               (Engine._generate_explanation row current_mood desired_feeling).
Proof.
  intros Hi.
  pose proof (recommend_by_mood_slice movies_df current_mood desired_feeling n) as Hall.
  destruct (Forall2_lookup_l _ _ _ _ _ Hall Hi) as ([idx score] & Hranked & row & Hrow & ->).
  rewrite slice_to_take in Hranked. apply lookup_take_Some in Hranked as [Hranked _].
  exists idx, row. split; [done |]. split; [done |].
  apply list_elem_of_lookup_2, ranked_by_mood_elem in Hranked as (row' & Hrow' & ->).
  cbn [fst snd] in *. by simplify_eq.
Qed.

Lemma recommend_by_mood_descending (n : Z) (i j : nat)
    (r1 r2 : Engine.MovieRecommendation) :
  (i < j)%nat ->
  Engine.recommend_by_mood movies_df current_mood desired_feeling n !! i = Some r1 ->
  Engine.recommend_by_mood movies_df current_mood desired_feeling n !! j = Some r2 ->
  Engine.match_score r2 <= Engine.match_score r1.
Proof.
  pose proof (ranked_by_mood_sorted movies_df current_mood desired_feeling) as Hsorted.
  intros Hij H1 H2.
  apply recommend_by_mood_ranked in H1 as (idx1 & _ & H1 & _).
  apply recommend_by_mood_ranked in H2 as (idx2 & _ & H2 & _).
  pose proof (StronglySorted_lookup _ _ _ _ _ _ Hsorted Hij H1 H2) as [Hlt | [Heq _]];
    cbn [snd] in *; lra.
Qed.

Lemma recommend_by_mood_first_best (n : Z) (first : Engine.MovieRecommendation)
    (rest : list Engine.MovieRecommendation) (row : Engine.MovieRow) :
  Engine.recommend_by_mood movies_df current_mood desired_feeling n = first :: rest ->
  row ∈ movies_df ->
  mood_score current_mood desired_feeling row <= Engine.match_score first.
Proof.
  pose proof (ranked_by_mood_sorted movies_df current_mood desired_feeling) as Hsorted.
  intros Hout Hrow.
  assert (Engine.recommend_by_mood movies_df current_mood desired_feeling n !! 0%nat
          = Some first) as H0 by (by rewrite Hout).
  apply recommend_by_mood_ranked in H0 as (idx0 & _ & H0 & _).
  apply list_elem_of_lookup_1 in Hrow as [idx Hidx].
  assert ((idx, mood_score current_mood desired_feeling row)
            ∈ Engine.ranked_by_mood movies_df current_mood desired_feeling) as Hin
    by (apply ranked_by_mood_elem; eauto).
  apply list_elem_of_lookup_1 in Hin as [j Hj].
  destruct j as [| j].
  - rewrite H0 in Hj. injection Hj as _ <-. lra.
  - assert (0 < S j)%nat as Hlt by lia.
    pose proof (StronglySorted_lookup _ _ _ _ _ _ Hsorted Hlt H0 Hj) as [H | [H _]];
      cbn [snd] in *; lra.
Qed.

(** X3: recommendations come best first: the match scores never increase
    along the result, and no film of the catalog scores higher than the
    first recommendation. *)
Theorem recommendations_best_first (n : Z) :
  (forall i j r1 r2,
      (i < j)%nat ->
      Engine.recommend_by_mood movies_df current_mood desired_feeling n !! i = Some r1 ->
      Engine.recommend_by_mood movies_df current_mood desired_feeling n !! j = Some r2 ->
      Engine.match_score r2 <= Engine.match_score r1)
  /\ (forall first rest row,
        Engine.recommend_by_mood movies_df current_mood desired_feeling n = first :: rest ->
        row ∈ movies_df ->
        mood_score current_mood desired_feeling row <= Engine.match_score first).
Proof.
  split.
  - intros i j r1 r2. apply recommend_by_mood_descending.
  - intros first rest row. apply recommend_by_mood_first_best.
Qed.

Lemma ranked_by_mood_lower :
  Engine.ranked_by_mood movies_df (Py.lower current_mood) (Py.lower desired_feeling)
  = Engine.ranked_by_mood movies_df current_mood desired_feeling.
Proof.
  unfold Engine.ranked_by_mood, Engine.mood_params_of, Engine.desired_emotions_of.
  by rewrite !lower_idem.
Qed.

(** X4: mood and feeling names are matched without regard to case: with
    the names in lower case the same films are recommended, in the same
    order and with the same scores; only the explanation, whose template is
    chosen by the feeling as it was typed, can differ. *)
Theorem mood_names_case_insensitive (n : Z) :
  map (with_explanation "")
    (Engine.recommend_by_mood movies_df (Py.lower current_mood) (Py.lower desired_feeling) n)
  = map (with_explanation "")
      (Engine.recommend_by_mood movies_df current_mood desired_feeling n).
Proof.
  unfold Engine.recommend_by_mood. cbv zeta. rewrite ranked_by_mood_lower.
  induction (Py.slice_to n _) as [| [idx score] l IH]; [reflexivity |].
  cbn [omap list_omap]. destruct (movies_df !! idx) as [row |]; cbn; [| exact IH].
  by rewrite IH.
Qed.

End MoodRankingMore.

(** The explanation does depend on the case of the feeling. *)
Example explanation_case_sensitive :
  map Engine.explanation (Engine.recommend_by_mood two_films "sad" "cry" 1)
  = ["An emotional journey with controlled fear, thrilling tension for a good cathartic release."]
  /\ map Engine.explanation (Engine.recommend_by_mood two_films "sad" "Cry" 1)
     = ["Featuring controlled fear, thrilling tension - a great match for your mood."].
Proof. split; by vm_compute. Qed.

(** ** The preset tables *)

Section Presets.

Lemma list_to_map_Forall {V} (P : string -> V -> Prop) (table : list (string * V))
    (k : string) (v : V) :
  Forall (fun kv => P kv.1 kv.2) table ->
  (list_to_map table : gmap string V) !! k = Some v -> P k v.
Proof.
  intros Hall Hk. apply elem_of_list_to_map_2 in Hk.
  rewrite Forall_forall in Hall. exact (Hall (k, v) Hk).
Qed.

Lemma desired_feelings_table (feeling : string) (targets : list string) :
  Engine.DESIRED_FEELINGS !! feeling = Some targets ->
  targets <> [] /\ NoDup targets /\ Forall (.∈ Profiler.EMOTION_CATEGORIES) targets.
Proof.
  unfold Engine.DESIRED_FEELINGS.
  apply (list_to_map_Forall
           (fun _ l => l <> [] /\ NoDup l /\ Forall (.∈ Profiler.EMOTION_CATEGORIES) l)).
  apply (bool_decide_unpack _). vm_compute. exact I.
Qed.

Lemma known_band_check (band : option string) :
  match band with
  | None => true
  | Some s => String.eqb s "low" || String.eqb s "medium" || String.eqb s "high"
  end = true -> known_band band.
Proof.
  unfold known_band. destruct band as [s |]; [| by left].
  rewrite !orb_true_iff, !String.eqb_eq. intros [[-> | ->] | ->]; tauto.
Qed.

Lemma mood_presets_table (mood : string) (params : Engine.MoodParams) :
  Engine.MOOD_PRESETS !! mood = Some params ->
  (forall p, Engine.primary params = Some p -> p ∈ Profiler.EMOTION_CATEGORIES)
  /\ known_band (Engine.intensity params) /\ known_band (Engine.comfort params).
Proof.
  unfold Engine.MOOD_PRESETS. intros H.
  apply elem_of_list_to_map_2, list_elem_of_In in H. revert H.
  match goal with
  | |- In _ ?table -> _ =>
      assert (forallb
                (fun kv : string * Engine.MoodParams =>
                   match Engine.primary kv.2 with
                   | None => true
                   | Some p => bool_decide (p ∈ Profiler.EMOTION_CATEGORIES)
                   end
                   && match Engine.intensity kv.2 with
                      | None => true
                      | Some s =>
                          String.eqb s "low" || String.eqb s "medium" || String.eqb s "high"
                      end
                   && match Engine.comfort kv.2 with
                      | None => true
                      | Some s =>
                          String.eqb s "low" || String.eqb s "medium" || String.eqb s "high"
                      end)
                table = true) as Hok by (vm_compute; reflexivity)
  end.
  intros H. rewrite forallb_forall in Hok. specialize (Hok _ H). cbn [snd] in Hok.
  apply andb_true_iff in Hok as [Hok Hc]. apply andb_true_iff in Hok as [Hp Hi].
  split; [| split; by apply known_band_check].
  intros p Hprimary. rewrite Hprimary in Hp. by apply bool_decide_eq_true in Hp.
Qed.

(** X5: whatever names a query uses, the resolved target list is not
    empty, has no duplicate and holds taxonomy categories only; the primary
    category of the resolved mood, if any, is a taxonomy category, and its
    bands are among the three the score function tells apart. *)
Theorem resolved_query_well_formed (current_mood desired_feeling : string) :
  Engine.desired_emotions_of desired_feeling <> []
  /\ NoDup (Engine.desired_emotions_of desired_feeling)
  /\ Forall (.∈ Profiler.EMOTION_CATEGORIES) (Engine.desired_emotions_of desired_feeling)
  /\ (forall p, Engine.primary (Engine.mood_params_of current_mood) = Some p ->
        p ∈ Profiler.EMOTION_CATEGORIES)
  /\ known_band (Engine.intensity (Engine.mood_params_of current_mood))
  /\ known_band (Engine.comfort (Engine.mood_params_of current_mood)).
Proof.
  assert (["pure_joy"; "cozy_comfort"] <> []
          /\ NoDup ["pure_joy"; "cozy_comfort"]
          /\ Forall (.∈ Profiler.EMOTION_CATEGORIES) ["pure_joy"; "cozy_comfort"])
    as Hdefault.
  { apply (bool_decide_unpack _). vm_compute. exact I. }
  assert (Engine.desired_emotions_of desired_feeling <> []
          /\ NoDup (Engine.desired_emotions_of desired_feeling)
          /\ Forall (.∈ Profiler.EMOTION_CATEGORIES)
               (Engine.desired_emotions_of desired_feeling)) as (H1 & H2 & H3).
  { unfold Engine.desired_emotions_of.
    destruct (Engine.DESIRED_FEELINGS !! Py.lower desired_feeling) as [targets |] eqn:E;
      cbn [default from_option id]; [| exact Hdefault].
    apply desired_feelings_table in E. by destruct targets. }
  split; [done |]. split; [done |]. split; [done |].
  unfold Engine.mood_params_of.
  destruct (Engine.MOOD_PRESETS !! Py.lower current_mood) as [params |] eqn:E;
    cbn [default from_option id].
  - by apply mood_presets_table in E.
  - unfold known_band. cbn. split; [discriminate | tauto].
Qed.

End Presets.

(** ** More on [recommend_by_emotions] *)

Section EmotionRankingMore.
Context (movies_df : list Engine.MovieRow) (target_emotions : list string).
Context (min_intensity max_intensity min_comfort : Q).

Lemma filter_imap_length {A} (P : A -> Prop) (R : nat * A -> Prop)
    `{!forall x, Decision (P x)} `{!forall ir, Decision (R ir)}
    (f : nat -> nat) (l : list A) :
  (forall ir, R ir <-> P ir.2) ->
  length (filter R (imap (fun i x => (f i, x)) l)) = length (filter P l).
Proof.
  intros HR. revert f. induction l as [| x l IH]; intros f; [reflexivity |].
  rewrite imap_cons, !filter_cons. specialize (IH (f ∘ S)). unfold compose in *.
  destruct (decide (R (f 0%nat, x))) as [Hr | Hr], (decide (P x)) as [Hp | Hp];
    cbn [length]; rewrite ?IH; try reflexivity.
  - destruct Hp. by apply (HR (f 0%nat, x)).
  - destruct Hr. by apply (HR (f 0%nat, x)).
Qed.

Lemma ranked_by_emotions_length :
  length (Engine.ranked_by_emotions movies_df target_emotions
            min_intensity max_intensity min_comfort)
  = length (filter (fun row => Engine.in_bounds min_intensity max_intensity min_comfort row
                               = true) movies_df).
Proof.
  rewrite ranked_by_emotions_perm, length_map.
  change (imap pair movies_df) with (imap (fun i (x : Engine.MovieRow) => (id i, x)) movies_df).
  by apply filter_imap_length.
Qed.

Lemma recommend_by_emotions_length (n : Z) :
  length (Engine.recommend_by_emotions movies_df target_emotions
            min_intensity max_intensity min_comfort n)
  = slice_length n
      (length (filter (fun row => Engine.in_bounds min_intensity max_intensity
                                    min_comfort row = true) movies_df)).
Proof.
  pose proof (recommend_by_emotions_slice movies_df target_emotions
                min_intensity max_intensity min_comfort n) as Hall.
  apply Forall2_length in Hall. rewrite Hall, slice_to_take, length_take.
  rewrite ranked_by_emotions_length.
  pose proof (slice_length_le n
    (length (filter (fun row => Engine.in_bounds min_intensity max_intensity
                                  min_comfort row = true) movies_df))).
  by rewrite Nat.min_l.
Qed.

(** X6: [recommend_by_emotions] returns [min(n, k)] recommendations for
    [n >= 0], where [k] is the number of rows within the bounds (all but the
    last [|n|] of the ranking for a negative [n]); each comes from a row
    within the bounds and has a match score in [[0, 1]]. *)
Theorem recommend_by_emotions_sound (n : Z) :
  length (Engine.recommend_by_emotions movies_df target_emotions
            min_intensity max_intensity min_comfort n)
  = slice_length n
      (length (filter (fun row => Engine.in_bounds min_intensity max_intensity
                                    min_comfort row = true) movies_df))
  /\ (forall rec,
        rec ∈ Engine.recommend_by_emotions movies_df target_emotions
                min_intensity max_intensity min_comfort n ->
        0 <= Engine.match_score rec <= 1
        /\ exists row, row ∈ movies_df
             /\ within_bounds min_intensity max_intensity min_comfort row
             /\ Engine.rec_title rec = Engine.title row
             /\ Engine.rec_intensity_score rec = Engine.intensity_score row
             /\ Engine.rec_comfort_score rec = Engine.comfort_score row).
Proof.
  pose proof (recommend_by_emotions_slice movies_df target_emotions
                min_intensity max_intensity min_comfort n) as Hall.
  split; [apply recommend_by_emotions_length |].
  intros rec Hrec. apply list_elem_of_lookup_1 in Hrec as [i Hi].
  destruct (Forall2_lookup_l _ _ _ _ _ Hall Hi) as ([idx score] & Hranked & row & Hrow & ->).
  rewrite slice_to_take in Hranked. apply lookup_take_Some in Hranked as [Hranked _].
  apply list_elem_of_lookup_2, ranked_by_emotions_elem in Hranked
    as (row' & Hrow' & Hb & ->).
  cbn [fst snd] in *. simplify_eq. split; [apply emotion_fraction_range |].
  exists row'. split; [by eapply list_elem_of_lookup_2 | done].
Qed.

End EmotionRankingMore.

(** ** The empty catalog and small journeys *)

Section Edges.

Lemma length_zero_nil {A} (l : list A) : length l = 0%nat -> l = [].
Proof. by destruct l. Qed.

(** X7: on an empty catalog the three operations return no recommendation,
    for every query and every [n]. *)
Theorem empty_catalog_no_recommendation :
  (forall current_mood desired_feeling n,
      Engine.recommend_by_mood [] current_mood desired_feeling n = [])
  /\ (forall targets min_intensity max_intensity min_comfort n,
        Engine.recommend_by_emotions [] targets min_intensity max_intensity min_comfort n
        = [])
  /\ (forall start_mood end_mood n, Engine.get_mood_journey [] start_mood end_mood n = []).
Proof.
  assert (forall current_mood desired_feeling n,
             Engine.recommend_by_mood [] current_mood desired_feeling n = []) as Hmood.
  { intros cm f n. apply length_zero_nil. rewrite recommend_by_mood_slice_length.
    unfold slice_length. cbn [length]. destruct (0 <=? n)%Z eqn:E; lia. }
  split; [exact Hmood |]. split.
  - intros targets lo hi c n. apply length_zero_nil.
    rewrite recommend_by_emotions_length, filter_nil. unfold slice_length. cbn [length]. destruct (0 <=? n)%Z eqn:E; lia.
  - intros s e n. rewrite get_mood_journey_calls. unfold journey_calls.
    rewrite !Hmood. destruct (3 <=? n)%Z; cbn [app]; unfold Py.slice_to;
      by destruct (0 <=? n)%Z; rewrite take_nil.
Qed.

Lemma top_recommendation (movies_df : list Engine.MovieRow) (current_mood feeling : string) :
  movies_df <> [] ->
  exists top, Engine.recommend_by_mood movies_df current_mood feeling 1 = [top]
    /\ forall row, row ∈ movies_df ->
         mood_score current_mood feeling row <= Engine.match_score top.
Proof.
  intros Hne.
  pose proof (recommend_by_mood_slice_length movies_df current_mood feeling 1) as Hlen.
  unfold slice_length in Hlen.
  assert (0 < length movies_df)%nat by (destruct movies_df; [done | cbn [length]; lia]).
  cbn [Z.leb] in Hlen. rewrite Nat.min_l in Hlen by lia.
  destruct (Engine.recommend_by_mood movies_df current_mood feeling 1)
    as [| top [| ? ?]] eqn:Hrecs; [done | | done].
  exists top. split; [reflexivity |]. intros row Hrow.
  by apply (recommend_by_mood_first_best movies_df current_mood feeling 1 top [] row).
Qed.

(** X8: a journey of at least two films on a non-empty catalog starts with
    the best film for the start mood taken as the wish, ends with the best
    film for the end mood wished from a neutral mood, and has the films of
    the transition call in between. *)
Theorem journey_ends (movies_df : list Engine.MovieRow) (start_mood end_mood : string)
    (n_movies : Z) :
  movies_df <> [] -> (2 <= n_movies)%Z ->
  exists first final,
    Engine.get_mood_journey movies_df start_mood end_mood n_movies
    = first
      :: (if (3 <=? n_movies)%Z
          then Engine.recommend_by_mood movies_df start_mood end_mood (n_movies - 2)
          else [])
      ++ [final]
    /\ (forall row, row ∈ movies_df ->
          mood_score start_mood start_mood row <= Engine.match_score first)
    /\ (forall row, row ∈ movies_df ->
          mood_score "neutral" end_mood row <= Engine.match_score final).
Proof.
  intros Hne Hn.
  destruct (top_recommendation movies_df start_mood start_mood Hne) as (first & Hfirst & Hbest).
  destruct (top_recommendation movies_df "neutral" end_mood Hne) as (final & Hfinal & Hbest').
  exists first, final. split; [| done].
  rewrite get_mood_journey_calls, slice_to_nonneg by lia. unfold journey_calls.
  rewrite Hfirst, Hfinal. cbn [app]. apply take_ge. cbn [length].
  rewrite length_app. cbn [length].
  destruct (3 <=? n_movies)%Z eqn:E.
  - apply Z.leb_le in E. rewrite recommend_by_mood_slice_length. unfold slice_length.
    rewrite (proj2 (Z.leb_le 0 (n_movies - 2))) by lia. lia.
  - cbn [length]. lia.
Qed.

(** X9: with [n_movies] below two nothing raises: on a non-empty catalog
    the journey is [journey[:n_movies]] of the two films of the first and
    the last call, so one film for [n_movies = 1], none for [0], one again
    for [-1] and none below. *)
Theorem journey_below_two (movies_df : list Engine.MovieRow) (start_mood end_mood : string)
    (n_movies : Z) :
  movies_df <> [] -> (n_movies < 2)%Z ->
  Engine.get_mood_journey movies_df start_mood end_mood n_movies
  = Py.slice_to n_movies
      (Engine.recommend_by_mood movies_df start_mood start_mood 1
       ++ Engine.recommend_by_mood movies_df "neutral" end_mood 1)
  /\ length (Engine.get_mood_journey movies_df start_mood end_mood n_movies)
     = (if (n_movies =? 1)%Z || (n_movies =? -1)%Z then 1 else 0)%nat.
Proof.
  intros Hne Hn.
  destruct (top_recommendation movies_df start_mood start_mood Hne) as (first & Hfirst & _).
  destruct (top_recommendation movies_df "neutral" end_mood Hne) as (final & Hfinal & _).
  rewrite get_mood_journey_calls. unfold journey_calls.
  rewrite (proj2 (Z.leb_gt 3 n_movies)) by lia. rewrite Hfirst, Hfinal.
  cbn [app]. split; [reflexivity |].
  rewrite slice_to_take, length_take. unfold slice_length. cbn [length].
  destruct (0 <=? n_movies)%Z eqn:E0, (n_movies =? 1)%Z eqn:E1, (n_movies =? -1)%Z eqn:E2;
    cbn [orb];
    repeat match goal with
      | H : (_ <=? _)%Z = true |- _ => apply Z.leb_le in H
      | H : (_ <=? _)%Z = false |- _ => apply Z.leb_gt in H
      | H : (_ =? _)%Z = true |- _ => apply Z.eqb_eq in H
      | H : (_ =? _)%Z = false |- _ => apply Z.eqb_neq in H
      end; lia.
Qed.

End Edges.

(** ** More on the synthesizer *)

Section SynthesizerMore.
Context (classifier : Classifier.model) (overview : option string) (genres : list string).

Lemma ltb_comp (a a' b b' : Q) : a == a' -> b == b' -> Py.ltb a b = Py.ltb a' b'.
Proof. intros Ha Hb. unfold Py.ltb. by rewrite (Qleb_comp _ _ Hb _ _ Ha). Qed.

Lemma combined_entry_comp (nlp genre : gmap string Q) (w1 w1' w2 w2' : Q) (c : string) :
  w1 == w1' -> w2 == w2' ->
  Profiler.combined_entry nlp genre w1 w2 c = Profiler.combined_entry nlp genre w1' w2' c.
Proof.
  intros H1 H2. unfold Profiler.combined_entry. cbv zeta.
  set (n := default 0 (nlp !! c)). set (g := default 0 (genre !! c)).
  assert (n * w1 + g * w2 == n * w1' + g * w2') as H by (by rewrite H1, H2).
  rewrite (ltb_comp 0.01 0.01 _ _ (Qeq_refl _) H).
  by rewrite (round_comp _ _ 3 H).
Qed.

(** The profile depends on the weights as rationals only. *)
Lemma profile_of_comp (w1 w1' w2 w2' : Q) :
  w1 == w1' -> w2 == w2' ->
  Profiler.profile_of classifier overview genres w1 w2
  = Profiler.profile_of classifier overview genres w1' w2'.
Proof.
  intros H1 H2. unfold Profiler.profile_of.
  destruct (Profiler.text_used overview); cbv zeta;
    (erewrite (list_omap_ext _ (Profiler.combined_entry _ _ w1' w2'));
     [reflexivity | apply Forall2_same_length_lookup_2; [done |];
                    intros i c c' Hc Hc'; simplify_eq;
                    by apply combined_entry_comp]).
Qed.

(** X10: with the default weights [0.6] and [0.4] the synthesizer never
    raises, and normalizing leaves the weights as they are. *)
Theorem default_weights_profile :
  Profiler.create_emotion_profile classifier overview genres
    Profiler.default_nlp_weight Profiler.default_genre_weight
  = inr (Profiler.profile_of classifier overview genres 0.6 0.4).
Proof.
  unfold Profiler.create_emotion_profile, Profiler.div, Profiler.bind,
    Profiler.default_nlp_weight, Profiler.default_genre_weight.
  cbv zeta. change (Qeq_bool (0.6 + 0.4) 0) with false. cbv iota. apply (f_equal inr).
  apply profile_of_comp; reflexivity.
Qed.


End SynthesizerMore.


(** ** The shape of a synthesized profile *)

Section ProfileMore.

Lemma omap_fst_sublist {B} (f : string -> option (string * B)) (l : list string) :
  (forall c e, f c = Some e -> e.1 = c) -> (omap f l).*1 `sublist_of` l.
Proof.
  intros Hf. induction l as [| c l IH]; cbn [omap list_omap]; [done |].
  destruct (f c) as [e |] eqn:E.
  - rewrite fmap_cons, (Hf c e E). by apply sublist_skip.
  - by apply sublist_cons.
Qed.

Lemma omap_none {A B} (f : A -> option B) (l : list A) :
  (forall a, f a = None) -> omap f l = [].
Proof.
  intros Hf. induction l as [| a l IH]; cbn [omap list_omap]; [done |].
  by rewrite Hf.
Qed.

(** X12: the score map of a profile lists its categories in the order of
    the taxonomy, each at most once, and every score it holds is a whole
    number of thousandths, at least ten of them. *)
Theorem profile_scores_shape (classifier : Classifier.model) (overview : option string)
    (genres : list string) (nlp_weight genre_weight : Q) (p : Profiler.EmotionProfile) :
  Profiler.create_emotion_profile classifier overview genres nlp_weight genre_weight
  = inr p ->
  (Profiler.emotion_scores p).*1 `sublist_of` Profiler.EMOTION_CATEGORIES
  /\ Forall (fun e => exists k : Z, (10 <= k)%Z /\ e.2 * 1000 == inject_Z k)
       (Profiler.emotion_scores p).
Proof.
  intros Hp. apply create_emotion_profile_inr in Hp as [_ ->].
  pose proof (profile_of_shape classifier overview genres
                (nlp_weight / (nlp_weight + genre_weight))
                (genre_weight / (nlp_weight + genre_weight))) as [(nlp & genre & Hs) _].
  rewrite Hs. clear Hs. split.
  - apply omap_fst_sublist. intros c e He. by apply combined_entry_key in He as [? _].
  - apply Forall_forall. intros e He. apply list_elem_of_omap in He as (c & _ & He).
    unfold Profiler.combined_entry in He. cbv zeta in He.
    destruct (Py.ltb 0.01 _) eqn:E; [| discriminate].
    injection He as <-. cbn [snd]. apply ltb_lt in E.
    set (x := _ + _) in *. clearbody x.
    exists (Py.round_half_even (x * 1000)). split.
    + apply round_half_even_lower. change (inject_Z 10) with 10. lra.
    + exact (round_scaled x 3).
Qed.

(** X13: a profile lists three dominant emotions, or as many as its score
    map has entries when it holds fewer: no category is listed twice and
    every category listed has a score. *)
Theorem dominant_emotions_shape (classifier : Classifier.model) (overview : option string)
    (genres : list string) (nlp_weight genre_weight : Q) (p : Profiler.EmotionProfile) :
  Profiler.create_emotion_profile classifier overview genres nlp_weight genre_weight
  = inr p ->
  length (Profiler.dominant_emotions p)
  = Nat.min 3 (length (Profiler.emotion_scores p))
  /\ NoDup (Profiler.dominant_emotions p)
  /\ Profiler.dominant_emotions p ⊆ (Profiler.emotion_scores p).*1.
Proof.
  intros Hp. apply create_emotion_profile_inr in Hp as [_ ->].
  pose proof (profile_of_shape classifier overview genres
                (nlp_weight / (nlp_weight + genre_weight))
                (genre_weight / (nlp_weight + genre_weight)))
    as [(nlp & genre & Hs) Hdom].
  cbv zeta in Hdom. rewrite Hdom. clear Hdom.
  set (d := Profiler.emotion_scores _) in *. clearbody d.
  assert (NoDup d.*1) as Hnd
    by (rewrite Hs; apply entry_sorted_NoDup, entries_sorted).
  pose proof (sorted_desc_perm snd d) as Hperm.
  split; [| split].
  - by rewrite length_fmap, length_take, sorted_desc_length.
  - rewrite fmap_take. eapply sublist_NoDup; [| apply sublist_take].
    by rewrite Hperm.
  - rewrite fmap_take. intros a Ha. apply subseteq_take in Ha.
    by rewrite Hperm in Ha.
Qed.

(** Every genre named in a level set has a row in the genre table. *)
Lemma level_sets_known (genre : string) :
  genre ∈ GenreMapper.HIGH_INTENSITY ∪ GenreMapper.MEDIUM_INTENSITY
          ∪ GenreMapper.LOW_INTENSITY ∪ GenreMapper.HIGH_COMFORT
          ∪ GenreMapper.MEDIUM_COMFORT ∪ GenreMapper.LOW_COMFORT ->
  is_Some (GenreMapper.GENRE_EMOTION_MAP !! genre).
Proof.
  assert (forallb (fun g => bool_decide (is_Some (GenreMapper.GENRE_EMOTION_MAP !! g)))
            ["action"; "thriller"; "horror"; "war"; "crime"; "adventure"; "mystery";
             "science fiction"; "drama"; "western"; "comedy"; "family"; "romance";
             "animation"; "music"; "fantasy"; "documentary"] = true) as Hall
    by (vm_compute; reflexivity).
  rewrite forallb_forall in Hall. intros Hg.
  unfold GenreMapper.HIGH_INTENSITY, GenreMapper.MEDIUM_INTENSITY,
    GenreMapper.LOW_INTENSITY, GenreMapper.HIGH_COMFORT, GenreMapper.MEDIUM_COMFORT,
    GenreMapper.LOW_COMFORT in Hg.
  rewrite !elem_of_union, !elem_of_list_to_set in Hg.
  eapply bool_decide_eq_true_1, Hall, list_elem_of_In.
  rewrite !elem_of_cons in Hg. rewrite !elem_of_cons. tauto.
Qed.

Lemma intensity_of_unknown (genre : string) :
  unknown_genre genre -> GenreMapper.intensity_of genre = 5.
Proof.
  unfold unknown_genre, GenreMapper.intensity_of. cbv zeta. intros Hu.
  assert (forall s : gset string,
            s ⊆ GenreMapper.HIGH_INTENSITY ∪ GenreMapper.MEDIUM_INTENSITY
                ∪ GenreMapper.LOW_INTENSITY ∪ GenreMapper.HIGH_COMFORT
                ∪ GenreMapper.MEDIUM_COMFORT ∪ GenreMapper.LOW_COMFORT ->
            bool_decide (GenreMapper.normalize genre ∈ s) = false) as Hout.
  { intros s Hs. apply bool_decide_eq_false_2. intros Hin.
    destruct (level_sets_known (GenreMapper.normalize genre)) as [? ?]; [| congruence].
    by apply Hs. }
  rewrite !Hout; [reflexivity | ..]; clear; intros x Hx; rewrite !elem_of_union; tauto.
Qed.

Lemma comfort_of_unknown (genre : string) :
  unknown_genre genre -> GenreMapper.comfort_of genre = 5.
Proof.
  unfold unknown_genre, GenreMapper.comfort_of. cbv zeta. intros Hu.
  assert (forall s : gset string,
            s ⊆ GenreMapper.HIGH_INTENSITY ∪ GenreMapper.MEDIUM_INTENSITY
                ∪ GenreMapper.LOW_INTENSITY ∪ GenreMapper.HIGH_COMFORT
                ∪ GenreMapper.MEDIUM_COMFORT ∪ GenreMapper.LOW_COMFORT ->
            bool_decide (GenreMapper.normalize genre ∈ s) = false) as Hout.
  { intros s Hs. apply bool_decide_eq_false_2. intros Hin.
    destruct (level_sets_known (GenreMapper.normalize genre)) as [? ?]; [| congruence].
    by apply Hs. }
  rewrite !Hout; [reflexivity | ..]; clear; intros x Hx; rewrite !elem_of_union; tauto.
Qed.

Lemma mean_constant (f : string -> Q) (v : Q) (genres : list string) :
  genres <> [] -> Forall (fun g => f g = v) genres ->
  Py.sum (map f genres) / Py.len (map f genres) == v.
Proof.
  intros Hne Hall.
  assert (v <= Py.sum (map f genres) / Py.len (map f genres) <= v); [| lra].
  apply mean_bounds; [by destruct genres |].
  apply Forall_fmap. eapply Forall_impl; [exact Hall |].
  cbn. intros g ->. lra.
Qed.

Lemma get_intensity_unknown (genres : list string) :
  Forall unknown_genre genres -> GenreMapper.get_intensity_from_genres genres == 5.
Proof.
  intros Hall. unfold GenreMapper.get_intensity_from_genres. cbv zeta.
  destruct genres as [| g gs]; [reflexivity |].
  change (Py.sum (map GenreMapper.intensity_of (g :: gs))
          / Py.len (map GenreMapper.intensity_of (g :: gs)) == 5).
  apply mean_constant; [done |].
  eapply Forall_impl; [exact Hall |]. apply intensity_of_unknown.
Qed.

Lemma get_comfort_unknown (genres : list string) :
  Forall unknown_genre genres -> GenreMapper.get_comfort_from_genres genres == 5.
Proof.
  intros Hall. unfold GenreMapper.get_comfort_from_genres. cbv zeta.
  destruct genres as [| g gs]; [reflexivity |].
  change (Py.sum (map GenreMapper.comfort_of (g :: gs))
          / Py.len (map GenreMapper.comfort_of (g :: gs)) == 5).
  apply mean_constant; [done |].
  eapply Forall_impl; [exact Hall |]. apply comfort_of_unknown.
Qed.

Lemma get_genre_emotions_unknown (genres : list string) :
  Forall unknown_genre genres -> GenreMapper.get_genre_emotions genres = ∅.
Proof.
  intros Hall.
  assert (forall acc, foldl GenreMapper.genre_step acc genres = acc) as Hfold.
  { induction Hall as [| g gs Hg _ IH]; intros acc; cbn [foldl]; [done |].
    rewrite IH. unfold GenreMapper.genre_step. by rewrite Hg. }
  unfold GenreMapper.get_genre_emotions. destruct genres; [done | apply Hfold].
Qed.

Lemma combined_entry_empty (w1 w2 : Q) (c : string) :
  Profiler.combined_entry ∅ ∅ w1 w2 c = None.
Proof.
  unfold Profiler.combined_entry. cbv zeta. rewrite !lookup_empty. cbn [default].
  destruct (Py.ltb 0.01 _) eqn:E; [| reflexivity].
  apply ltb_lt in E. lra.
Qed.

Lemma max_comp (a b b' : Q) : b == b' -> Py.max a b == Py.max a b'.
Proof.
  intros Hb. destruct (max_cases a b) as [[H ->] | [H ->]];
    destruct (max_cases a b') as [[H' ->] | [H' ->]]; lra.
Qed.

Lemma min_comp (a b b' : Q) : b == b' -> Py.min a b == Py.min a b'.
Proof.
  intros Hb. destruct (min_cases a b) as [[H ->] | [H ->]];
    destruct (min_cases a b') as [[H' ->] | [H' ->]]; lra.
Qed.

(** The profile of an item whose text is not used and whose genres are all
    unknown, whatever the weights. *)
Lemma profile_of_low_signal (classifier : Classifier.model) (overview : option string)
    (genres : list string) (w1 w2 : Q) :
  Profiler.text_used overview = None -> Forall unknown_genre genres ->
  Profiler.profile_of classifier overview genres w1 w2 = low_signal_profile.
Proof.
  intros Htext Hall. unfold Profiler.profile_of. rewrite Htext.
  rewrite (get_genre_emotions_unknown genres Hall). cbv zeta.
  rewrite (omap_none _ _ (combined_entry_empty w1 w2)).
  pose proof (get_intensity_unknown genres Hall) as Hi.
  pose proof (get_comfort_unknown genres Hall) as Hc.
  assert (Profiler.calculate_intensity [] genres == 3 # 2) as Hintensity.
  { unfold Profiler.calculate_intensity. cbv zeta. rewrite Hi. reflexivity. }
  assert (Profiler.calculate_comfort [] genres == 2) as Hcomfort.
  { unfold Profiler.calculate_comfort. cbv zeta.
    assert ((Profiler.mean_or_zero (map (Profiler.score_of []) Profiler.COMFORT_EMOTIONS)
             - Profiler.mean_or_zero
                 (map (Profiler.score_of []) Profiler.DISCOMFORT_EMOTIONS) * 0.5) * 0.6
            + GenreMapper.get_comfort_from_genres genres / 10 * 0.4 == 0.2) as H
      by (rewrite Hc; reflexivity).
    set (x := _ + _) in *. clearbody x.
    assert (x * 10 == 2) as H' by (rewrite H; reflexivity).
    rewrite (max_comp 0 _ _ (min_comp 10 _ _ H')). reflexivity. }
  rewrite (round_comp _ _ 1 Hintensity), (round_comp _ _ 1 Hcomfort).
  reflexivity.
Qed.

(** X14: an item without a usable text (none, or at most 20 characters)
    and with no genre of the genre table gets one fixed profile whatever
    the classifier and the weights: no scores, no dominant emotion,
    intensity 1.5, catharsis 0, comfort 2 and confidence 0.5. *)
Theorem low_signal_item (classifier : Classifier.model) (overview : option string)
    (genres : list string) (nlp_weight genre_weight : Q) (p : Profiler.EmotionProfile) :
  (forall text, overview = Some text -> (String.length text <= 20)%nat) ->
  Forall unknown_genre genres ->
  Profiler.create_emotion_profile classifier overview genres nlp_weight genre_weight
  = inr p ->
  p = low_signal_profile.
Proof.
  intros Hshort Hall Hp. apply create_emotion_profile_inr in Hp as [_ ->].
  apply profile_of_low_signal; [| done].
  destruct overview as [text |]; [| reflexivity].
  rewrite text_used_long. specialize (Hshort text eq_refl).
  by apply Nat.leb_le in Hshort as ->.
Qed.

Lemma low_signal_item_witness :
  match Profiler.create_emotion_profile fearful (Some "A short line.") ["Noir"; "Anime"]
          0.6 0.4 with
  | inr p => p = low_signal_profile
  | inl _ => False
  end.
Proof.
  destruct (Profiler.create_emotion_profile _ _ _ _ _) as [e | p] eqn:Hp.
  - vm_compute in Hp. discriminate.
  - refine (low_signal_item _ _ _ _ _ _ _ _ Hp).
    + intros text [= <-]. cbn. lia.
    + repeat constructor.
Defined.

(** X15: an ASCII text of more than 20 characters for which classification
    yields nothing (the classifier fails or returns no label, or the text
    has fewer than ten characters once its blanks are stripped) gives the
    scores of the item without text, and yet a higher confidence. *)
Theorem unclassified_text_confidence (classifier : Classifier.model) (text : string)
    (genres : list string) (nlp_weight genre_weight : Q)
    (p q : Profiler.EmotionProfile) :
  ascii_text text ->
  (20 < String.length text)%nat ->
  Classifier.classify_text classifier text 512 = [] ->
  Profiler.create_emotion_profile classifier (Some text) genres nlp_weight genre_weight
  = inr p ->
  Profiler.create_emotion_profile classifier None genres nlp_weight genre_weight
  = inr q ->
  Profiler.emotion_scores p = Profiler.emotion_scores q
  /\ Profiler.dominant_emotions p = Profiler.dominant_emotions q
  /\ Profiler.intensity_score p = Profiler.intensity_score q
  /\ Profiler.catharsis_score p = Profiler.catharsis_score q
  /\ Profiler.comfort_score p = Profiler.comfort_score q
  /\ Profiler.confidence q == 0.5
  /\ 0.52 <= Profiler.confidence p.
Proof.
  intros _ Hlong Hnone Hp Hq.
  apply create_emotion_profile_inr in Hp as [_ ->].
  apply create_emotion_profile_inr in Hq as [_ ->].
  set (w1 := nlp_weight / _). set (w2 := genre_weight / _). clearbody w1 w2.
  assert (Profiler.text_used (Some text) = Some text) as Hused.
  { rewrite text_used_long. apply Nat.leb_gt in Hlong. by rewrite Hlong. }
  unfold Profiler.profile_of. rewrite Hused, Hnone.
  change (Profiler.text_used None) with (@None string).
  change (Classifier.map_to_categories []) with (∅ : gmap string Q).
  cbv zeta. cbn [Profiler.emotion_scores Profiler.dominant_emotions
    Profiler.intensity_score Profiler.catharsis_score Profiler.comfort_score
    Profiler.confidence].
  do 5 (split; [reflexivity |]). split; [reflexivity |].
  assert (0.521 <= Py.min 0.9 (0.5 + Profiler.text_len text / 1000)) as Hc.
  { assert (21 <= Profiler.text_len text) as Hlen.
    { unfold Profiler.text_len. change 21 with (inject_Z 21). rewrite <- Zle_Qle. lia. }
    set (n := Profiler.text_len text) in *. clearbody n.
    destruct (min_cases 0.9 (0.5 + n / 1000)) as [[_ ->] | [_ ->]]; lra_div. }
  set (c := Py.min _ _) in *. clearbody c.
  pose proof (round_lower c 2 52) as Hr. cbv zeta in Hr.
  change (inject_Z 52) with 52 in Hr. change (inject_Z (10 ^ Z.of_nat 2)) with 100 in Hr.
  assert (52 <= c * 100) as H52 by lra. specialize (Hr H52). lra.
Qed.

Lemma unclassified_text_confidence_witness :
  match Profiler.create_emotion_profile (fun _ => None)
          (Some "Two keepers on a remote island.") ["Horror"; "Drama"] 0.6 0.4 with
  | inr p => 0.52 <= Profiler.confidence p
  | inl _ => False
  end.
Proof.
  destruct (Profiler.create_emotion_profile _ (Some _) _ _ _) as [e | p] eqn:Hp.
  - vm_compute in Hp. discriminate.
  - destruct (Profiler.create_emotion_profile (fun _ => None) None ["Horror"; "Drama"]
                0.6 0.4) as [e | q] eqn:Hq.
    + vm_compute in Hq. discriminate.
    + assert (20 < String.length "Two keepers on a remote island.")%nat as Hlong
        by (vm_compute; lia).
      assert (ascii_text "Two keepers on a remote island.") as Hascii
        by (apply (bool_decide_unpack _); vm_compute; exact I).
      exact (proj2 (proj2 (proj2 (proj2 (proj2 (proj2
               (unclassified_text_confidence (fun _ => None) _ _ _ _ _ _
                  Hascii Hlong eq_refl Hp Hq))))))).
Defined.

End ProfileMore.

(** ** More on the classifier and its mapper *)

Section ClassifierMore.

Lemma substring_length (n : nat) (s : string) :
  String.length (String.substring 0 n s) = Nat.min n (String.length s).
Proof.
  revert s. induction n as [| n IH]; intros [| c s]; cbn; try reflexivity.
  by rewrite IH.
Qed.

Lemma ascii_text_substring (n : nat) (text : string) :
  ascii_text text -> ascii_text (String.substring 0 n text).
Proof.
  unfold ascii_text. revert text.
  induction n as [| n IH]; intros [| c s] H; cbn; try constructor.
  - by apply Forall_cons_1 in H as [? _].
  - apply IH. by apply Forall_cons_1 in H as [_ ?].
Qed.

(** X16: of an ASCII text the classifier only ever sees the first
    [max_length] characters, so two classifiers that agree on the ASCII
    texts of at most that length give the same labels. *)
Theorem classify_text_guard (classifier classifier' : Classifier.model) (text : string)
    (max_length : nat) :
  ascii_text text ->
  (forall t, ascii_text t -> (String.length t <= max_length)%nat ->
             classifier t = classifier' t) ->
  Classifier.classify_text classifier text max_length
  = Classifier.classify_text classifier' text max_length.
Proof.
  intros Hascii Hagree. unfold Classifier.classify_text.
  destruct (_ || _); [reflexivity |]. cbv zeta.
  destruct (max_length <? String.length text)%nat eqn:E.
  - rewrite Hagree; [reflexivity | by apply ascii_text_substring |].
    rewrite substring_length. lia.
  - apply Nat.ltb_ge in E. by rewrite Hagree.
Qed.

Lemma classify_text_guard_witness :
  Classifier.classify_text joyful "A young bear travels to London." 10
  = Classifier.classify_text
      (fun t => if (String.length t <=? 10)%nat then joyful t else None)
      "A young bear travels to London." 10.
Proof.
  apply classify_text_guard.
  - apply (bool_decide_unpack _). vm_compute. exact I.
  - intros t _ Ht. apply Nat.leb_le in Ht. by rewrite Ht.
Defined.

Lemma set_keys {V} (P : string -> Prop) (d : list (string * V)) (k : string) (v : V) :
  P k -> Forall P d.*1 -> Forall P (Py.set d k v).*1.
Proof.
  intros Hk. induction d as [| [k' v'] d IH]; cbn [Py.set]; intros Hd.
  - by repeat constructor.
  - apply Forall_cons_1 in Hd as [Hk' Hd]. cbn [fst] in Hk'.
    destruct (String.eqb k' k); rewrite fmap_cons; constructor; auto.
Qed.

Lemma set_NoDup {V} (d : list (string * V)) (k : string) (v : V) :
  NoDup d.*1 -> NoDup (Py.set d k v).*1.
Proof.
  induction d as [| [k' v'] d IH]; cbn [Py.set]; intros Hd.
  - rewrite fmap_cons. constructor; [apply not_elem_of_nil | constructor].
  - rewrite fmap_cons in Hd. apply NoDup_cons in Hd as [Hk' Hd]. cbn [fst] in Hk'.
    destruct (String.eqb k' k) eqn:E; rewrite fmap_cons; cbn [fst].
    + by constructor.
    + constructor; [| by apply IH].
      apply String.eqb_neq in E.
      assert (Forall (fun x => x <> k') (Py.set d k v).*1) as Hall.
      { apply set_keys; [congruence |]. apply Forall_forall. intros x Hx ->. done. }
      rewrite Forall_forall in Hall. intros Hin. by apply (Hall k').
Qed.

(** X17: the raw emotions of a text form a dict proper: no label occurs
    twice, and every label is in lower case, so labels of the classifier
    that differ in case only are merged. *)
Theorem classify_text_labels (classifier : Classifier.model) (text : string)
    (max_length : nat) :
  NoDup (Classifier.classify_text classifier text max_length).*1
  /\ Forall (fun label => Py.lower label = label)
       (Classifier.classify_text classifier text max_length).*1.
Proof.
  unfold Classifier.classify_text.
  destruct (_ || _); [split; constructor |]. cbv zeta.
  destruct (classifier _) as [results |]; [| split; constructor].
  assert (forall d : list (string * Q),
             NoDup d.*1 /\ Forall (fun label => Py.lower label = label) d.*1 ->
             NoDup (foldl (fun emotions '(label, score) =>
                             Py.set emotions (Py.lower label) score) d results).*1
             /\ Forall (fun label => Py.lower label = label)
                  (foldl (fun emotions '(label, score) =>
                            Py.set emotions (Py.lower label) score) d results).*1) as H.
  { induction results as [| [label score] results IH]; intros d [Hnd Hlow]; [done |].
    cbn [foldl]. apply IH. split; [by apply set_NoDup |].
    apply set_keys; [apply lower_idem | done]. }
  apply H. split; constructor.
Qed.

Lemma model_table_categories (label category : string) :
  Classifier.category_of label = Some category ->
  category ∈ Profiler.EMOTION_CATEGORIES /\ category <> "awe_wonder".
Proof.
  unfold Classifier.category_of.
  destruct (Classifier.MODEL_TO_CATEGORY !! Py.lower label) as [[c |] |] eqn:E;
    [| discriminate | discriminate].
  destruct (String.eqb c ""); [discriminate |]. intros [= <-].
  unfold Classifier.MODEL_TO_CATEGORY in E.
  apply elem_of_list_to_map_2, list_elem_of_In in E. revert E.
  match goal with
  | |- In _ ?table -> _ =>
      assert (forallb (fun kv : string * option string =>
                         match kv.2 with
                         | Some c => bool_decide (c ∈ Profiler.EMOTION_CATEGORIES)
                                     && negb (String.eqb c "awe_wonder")
                         | None => true
                         end) table = true) as Hok by (vm_compute; reflexivity)
  end.
  intros E. rewrite forallb_forall in Hok. specialize (Hok _ E). cbn [snd] in Hok.
  apply andb_true_iff in Hok as [H1 H2].
  apply bool_decide_eq_true in H1. apply negb_true_iff, String.eqb_neq in H2. done.
Qed.

(** X18: whatever the classifier returns, the mapper scores categories of
    the taxonomy only, and never ['awe_wonder']: no label of the table maps
    to it. *)
Theorem map_to_categories_keys (emotions : list (string * Q)) (c : string) :
  is_Some (Classifier.map_to_categories emotions !! c) ->
  c ∈ Profiler.EMOTION_CATEGORIES /\ c <> "awe_wonder".
Proof.
  rewrite map_to_categories_lookup. unfold scores_for. intros [m Hm].
  destruct (filter _ emotions) as [| item items] eqn:E; [discriminate |].
  assert (item ∈ filter (fun item => Classifier.category_of item.1 = Some c) emotions)
    as Hin by (rewrite E; left).
  apply list_elem_of_filter in Hin as [Hcat _].
  by apply model_table_categories in Hcat.
Qed.

Lemma map_to_categories_keys_witness :
  "pure_joy" ∈ Profiler.EMOTION_CATEGORIES /\ "pure_joy" <> "awe_wonder".
Proof.
  apply (map_to_categories_keys [("Joy", 0.9); ("neutral", 0.1)]).
  vm_compute. eauto.
Defined.

Lemma category_of_lower (label : string) :
  Classifier.category_of (Py.lower label) = Classifier.category_of label.
Proof. unfold Classifier.category_of. by rewrite lower_idem. Qed.

(** X19: the mapper reads labels without regard to case: putting the
    labels of its input in lower case changes nothing. *)
Theorem map_to_categories_case_insensitive (emotions : list (string * Q)) :
  Classifier.map_to_categories (map (fun item => (Py.lower item.1, item.2)) emotions)
  = Classifier.map_to_categories emotions.
Proof.
  unfold Classifier.map_to_categories. generalize (∅ : gmap string Q).
  induction emotions as [| [label score] emotions IH]; intros acc; [reflexivity |].
  cbn [map foldl fst snd]. rewrite IH. apply (f_equal (fun a => foldl _ a emotions)).
  unfold Classifier.map_step. by rewrite category_of_lower.
Qed.

End ClassifierMore.

(** ** More on the genre heuristic model *)

Section GenreMore.

Lemma genre_table_entries (genre : string) (genre_emotions : list (string * Q)) :
  GenreMapper.GENRE_EMOTION_MAP !! genre = Some genre_emotions ->
  Forall (fun e => e.1 ∈ Profiler.EMOTION_CATEGORIES /\ 0.2 <= e.2 <= 0.9) genre_emotions.
Proof.
  unfold GenreMapper.GENRE_EMOTION_MAP. intros H.
  apply elem_of_list_to_map_2, list_elem_of_In in H. revert H.
  match goal with
  | |- In _ ?table -> _ =>
      assert (forallb (fun gd : string * list (string * Q) =>
                         forallb (fun e : string * Q =>
                                    bool_decide (e.1 ∈ Profiler.EMOTION_CATEGORIES)
                                    && Qle_bool 0.2 e.2 && Qle_bool e.2 0.9) gd.2)
                table = true) as Hok by (vm_compute; reflexivity)
  end.
  intros H. rewrite forallb_forall in Hok.
  specialize (Hok _ H). cbn [snd] in Hok. rewrite forallb_forall in Hok.
  apply Forall_forall. intros e He. apply list_elem_of_In in He.
  specialize (Hok e He). apply andb_true_iff in Hok as [Hok H2].
  apply andb_true_iff in Hok as [H0 H1].
  apply bool_decide_eq_true in H0. by rewrite !Qle_bool_iff in H1, H2.
Qed.

Lemma contributions_entries (c : string) (genres : list string) :
  Forall (fun s => c ∈ Profiler.EMOTION_CATEGORIES /\ 0.2 <= s <= 0.9)
    (contributions c genres).
Proof.
  unfold contributions. induction genres as [| genre genres IH]; cbn [flat_map];
    [constructor |].
  apply Forall_app. split; [| done].
  destruct (GenreMapper.GENRE_EMOTION_MAP !! GenreMapper.normalize genre)
    as [genre_emotions |] eqn:Hg; [| constructor].
  apply genre_table_entries in Hg. apply Forall_forall. intros s Hs.
  apply list_elem_of_fmap in Hs as (e & -> & He).
  apply list_elem_of_filter in He as [<- He].
  rewrite Forall_forall in Hg. by apply Hg.
Qed.

(** X20: the genre model scores categories of the taxonomy only, and every
    score it gives lies between [0.2] and [0.9], the smallest and the
    largest value of the genre table: averaging never leaves that range. *)
Theorem genre_emotions_entries (genres : list string) (c : string) (v : Q) :
  GenreMapper.get_genre_emotions genres !! c = Some v ->
  c ∈ Profiler.EMOTION_CATEGORIES /\ 0.2 <= v <= 0.9.
Proof.
  rewrite get_genre_emotions_fold.
  pose proof (contributions_entries c genres) as Hall. intros Hv. split.
  - destruct (contributions c genres) as [| s scores]; [discriminate |].
    by apply Forall_cons_1 in Hall as [[? _] _].
  - revert Hv. apply (merge_fold_range average (fun s => 0.2 <= s <= 0.9)).
    + intros a b Ha Hb. unfold average. lra_div.
    + discriminate.
    + eapply Forall_impl; [exact Hall |]. cbn. tauto.
Qed.

Lemma genre_emotions_entries_witness :
  "thrilling_tension" ∈ Profiler.EMOTION_CATEGORIES /\ 0.2 <= (0.8 + 0.6) / 2 <= 0.9.
Proof.
  apply (genre_emotions_entries ["Action"; "Adventure"]). by vm_compute.
Defined.

Lemma genre_step_normalize (acc : gmap string Q) (genre : string) :
  GenreMapper.genre_step acc (GenreMapper.normalize genre)
  = GenreMapper.genre_step acc genre.
Proof. unfold GenreMapper.genre_step. by rewrite normalize_idem. Qed.

Lemma intensity_of_normalize (genre : string) :
  GenreMapper.intensity_of (GenreMapper.normalize genre) = GenreMapper.intensity_of genre.
Proof. unfold GenreMapper.intensity_of. by rewrite normalize_idem. Qed.

Lemma comfort_of_normalize (genre : string) :
  GenreMapper.comfort_of (GenreMapper.normalize genre) = GenreMapper.comfort_of genre.
Proof. unfold GenreMapper.comfort_of. by rewrite normalize_idem. Qed.

(** X21: genre names are read without regard to case and to the blanks
    around them: with every name in lower case and stripped, the three
    functions of the model return what they return for the names as
    given. *)
Theorem genre_names_insensitive (genres : list string) :
  GenreMapper.get_genre_emotions (map GenreMapper.normalize genres)
  = GenreMapper.get_genre_emotions genres
  /\ GenreMapper.get_intensity_from_genres (map GenreMapper.normalize genres)
     = GenreMapper.get_intensity_from_genres genres
  /\ GenreMapper.get_comfort_from_genres (map GenreMapper.normalize genres)
     = GenreMapper.get_comfort_from_genres genres.
Proof.
  split; [| split].
  - unfold GenreMapper.get_genre_emotions.
    assert (forall acc, foldl GenreMapper.genre_step acc (map GenreMapper.normalize genres)
                        = foldl GenreMapper.genre_step acc genres) as H.
    { induction genres as [| g gs IH]; intros acc; [reflexivity |].
      cbn [map foldl]. by rewrite genre_step_normalize, IH. }
    destruct genres as [| g gs]; [reflexivity |]. apply (H ∅).
  - unfold GenreMapper.get_intensity_from_genres. cbv zeta. rewrite map_map.
    by rewrite (map_ext _ _ intensity_of_normalize).
  - unfold GenreMapper.get_comfort_from_genres. cbv zeta. rewrite map_map.
    by rewrite (map_ext _ _ comfort_of_normalize).
Qed.

(** X22: a genre that is not in the genre table adds nothing to the
    emotion scores, as if it were not in the list; for the intensity and
    the comfort it counts as a medium genre, so a list of unknown genres
    gets 5 for both. *)
Theorem unknown_genres_skipped (genres : list string) :
  GenreMapper.get_genre_emotions
    (filter (fun genre => is_Some (GenreMapper.GENRE_EMOTION_MAP
                                     !! GenreMapper.normalize genre)) genres)
  = GenreMapper.get_genre_emotions genres
  /\ (Forall unknown_genre genres ->
      GenreMapper.get_intensity_from_genres genres == 5
      /\ GenreMapper.get_comfort_from_genres genres == 5).
Proof.
  split.
  - assert (forall acc,
               foldl GenreMapper.genre_step acc
                 (filter (fun genre => is_Some (GenreMapper.GENRE_EMOTION_MAP
                                                  !! GenreMapper.normalize genre)) genres)
               = foldl GenreMapper.genre_step acc genres) as H.
    { induction genres as [| g gs IH]; intros acc; [reflexivity |].
      rewrite filter_cons. cbn [foldl]. destruct (decide _) as [Hk | Hu].
      - cbn [foldl]. apply IH.
      - rewrite IH. apply (f_equal (fun a => foldl _ a gs)).
        unfold GenreMapper.genre_step.
        destruct (GenreMapper.GENRE_EMOTION_MAP !! GenreMapper.normalize g) eqn:E;
          [| reflexivity].
        destruct Hu. by eexists. }
    assert (forall l, GenreMapper.get_genre_emotions l
                      = foldl GenreMapper.genre_step ∅ l) as Hm by (by intros []).
    rewrite !Hm. apply H.
  - intros Hall. split; [by apply get_intensity_unknown | by apply get_comfort_unknown].
Qed.

Lemma comfort_of_range (genre : string) : 2 <= GenreMapper.comfort_of genre <= 8.
Proof.
  unfold GenreMapper.comfort_of. cbv zeta. repeat case_bool_decide; lra.
Qed.

(** X23: the intensity a genre list gets lies between 3 and 8 and its
    comfort between 2 and 8, and both are 5 for the empty list. *)
Theorem genre_levels_range (genres : list string) :
  3 <= GenreMapper.get_intensity_from_genres genres <= 8
  /\ 2 <= GenreMapper.get_comfort_from_genres genres <= 8
  /\ GenreMapper.get_intensity_from_genres [] = 5
  /\ GenreMapper.get_comfort_from_genres [] = 5.
Proof.
  split; [apply get_intensity_from_genres_range |]. split; [| done].
  unfold GenreMapper.get_comfort_from_genres. cbv zeta.
  destruct (map GenreMapper.comfort_of genres) as [| s scores] eqn:E; [lra |].
  rewrite <- E. apply mean_bounds; [by rewrite E |].
  apply Forall_fmap, Forall_forall. intros g _. apply comfort_of_range.
Qed.

End GenreMore.

(** ** The web layer *)

Section ApiFacts.

Lemma detect_step_cases (text : string) (cur : string) (m : nat)
    (key : string) (kws : list string) :
  ((m < Api.keyword_matches kws text)%nat
   /\ Api.detect_step text (cur, m) (key, kws) = (key, Api.keyword_matches kws text))
  \/ ((Api.keyword_matches kws text <= m)%nat
      /\ Api.detect_step text (cur, m) (key, kws) = (cur, m)).
Proof.
  unfold Api.detect_step. cbv zeta.
  destruct (m <? Api.keyword_matches kws text)%nat eqn:E.
  - left. by apply Nat.ltb_lt in E.
  - right. by apply Nat.ltb_ge in E.
Qed.

Lemma detect_fold_key (text : string) (table : list (string * list string))
    (best : string * nat) :
  (foldl (Api.detect_step text) best table).1 ∈ best.1 :: table.*1.
Proof.
  revert best. induction table as [| [key kws] table IH]; intros [cur m]; cbn [foldl].
  - left.
  - specialize (IH (Api.detect_step text (cur, m) (key, kws))).
    rewrite fmap_cons. cbn [fst] in *.
    destruct (detect_step_cases text cur m key kws) as [[_ Heq] | [_ Heq]];
      rewrite Heq in *; cbn [fst] in IH;
      apply elem_of_cons in IH as [-> | IH];
      rewrite !elem_of_cons; auto.
Qed.

(** What a detection loop returns from a best key [cur] with [m] matches:
    that pair if no entry has more than [m] matches, and otherwise the
    first of the entries with the most matches. *)
Lemma detect_fold_spec (text : string) (table : list (string * list string))
    (cur : string) (m : nat) :
  let r := foldl (Api.detect_step text) (cur, m) table in
  (r = (cur, m)
   /\ Forall (fun e => (Api.keyword_matches e.2 text <= m)%nat) table)
  \/ exists i kws,
       table !! i = Some (r.1, kws)
       /\ Api.keyword_matches kws text = r.2 /\ (m < r.2)%nat
       /\ Forall (fun e => (Api.keyword_matches e.2 text <= r.2)%nat) table
       /\ forall j e, (j < i)%nat -> table !! j = Some e ->
            (Api.keyword_matches e.2 text < r.2)%nat.
Proof.
  revert cur m. induction table as [| [key kws] table IH]; intros cur m; cbn [foldl].
  - left. by split.
  - cbv zeta.
    destruct (detect_step_cases text cur m key kws) as [[Hlt ->] | [Hle ->]].
    + right. destruct (IH key (Api.keyword_matches kws text))
        as [[Hr Hall] | (i & kws' & Hi & Hk & Hm & Hall & Hbefore)].
      * rewrite Hr. cbn [fst snd]. exists 0%nat, kws.
        split; [reflexivity |]. split; [reflexivity |]. split; [done |].
        split; [by constructor |]. intros j e Hj. lia.
      * exists (S i), kws'. split; [exact Hi |]. split; [done |]. split; [lia |].
        split; [constructor; [cbn [snd]; lia | done] |].
        intros [| j] e Hj He.
        -- injection He as <-. cbn [snd]. lia.
        -- apply (Hbefore j); [lia | done].
    + destruct (IH cur m) as [[Hr Hall] | (i & kws' & Hi & Hk & Hm & Hall & Hbefore)].
      * left. split; [done |]. by constructor.
      * right. exists (S i), kws'. split; [exact Hi |]. split; [done |]. split; [done |].
        split; [constructor; [cbn [snd]; lia | done] |].
        intros [| j] e Hj He.
        -- injection He as <-. cbn [snd]. lia.
        -- apply (Hbefore j); [lia | done].
Qed.

Lemma detect_first_best (text : string) (table : list (string * list string))
    (default : string) :
  first_best text table default (foldl (Api.detect_step text) (default, 0%nat) table).1.
Proof.
  destruct (detect_fold_spec text table default 0)
    as [[Hr Hall] | (i & kws & Hi & Hk & Hm & Hall & Hbefore)].
  - left. cbv zeta in Hr. rewrite Hr. split; [| reflexivity].
    eapply Forall_impl; [exact Hall |]. cbn. lia.
  - right. cbv zeta in *. exists i, kws. rewrite Hk. done.
Qed.

(** X24: each of the two detection loops returns its default when no
    keyword of its table occurs in the text, and otherwise the key with the
    most keywords in the text, the first such key of the table on a tie. *)
Theorem detection_first_best (text_lower : string) :
  first_best text_lower Api.MOOD_KEYWORDS "bored" (Api.detect_mood text_lower)
  /\ first_best text_lower Api.FEELING_KEYWORDS "feel-good"
       (Api.detect_feeling text_lower).
Proof. split; apply detect_first_best. Qed.

Lemma detect_mood_key (text : string) :
  (Api.detect_mood_from_text text).1 ∈ "anxious" :: "bored" :: Api.MOOD_KEYWORDS.*1.
Proof.
  unfold Api.detect_mood_from_text. cbv zeta.
  destruct (_ || _); cbn [fst]; [left |]. right.
  apply (detect_fold_key (Py.lower text) Api.MOOD_KEYWORDS ("bored", 0%nat)).
Qed.

Lemma detect_feeling_key (text : string) :
  (Api.detect_mood_from_text text).2
  ∈ "relaxed" :: "romantic" :: "feel-good" :: Api.FEELING_KEYWORDS.*1.
Proof.
  unfold Api.detect_mood_from_text. cbv zeta.
  destruct (Py.contains "can't sleep" _ || _); cbn [snd]; [left |].
  destruct (Py.contains "date" _); [right; left |].
  destruct (Py.contains "sunday" _ && _); [left |]. do 2 right.
  apply (detect_fold_key (Py.lower text) Api.FEELING_KEYWORDS ("feel-good", 0%nat)).
Qed.

Lemma forallb_elem {A} (f : A -> bool) (l : list A) (x : A) :
  forallb f l = true -> x ∈ l -> f x = true.
Proof. rewrite forallb_forall. intros H Hx. by apply H, list_elem_of_In. Qed.

(** X25: whatever the message, the detected mood has a preset and the
    detected feeling has a target list in the recommender, as the
    recommender looks them up, and the feeling has a sentence of its own in
    the chat responses. *)
Theorem detected_names_known (text : string) :
  is_Some (Engine.MOOD_PRESETS !! Py.lower (Api.detect_mood_from_text text).1)
  /\ is_Some (Engine.DESIRED_FEELINGS !! Py.lower (Api.detect_mood_from_text text).2)
  /\ is_Some (Py.get Api.responses (Api.detect_mood_from_text text).2).
Proof.
  assert (forallb (fun m => bool_decide (is_Some (Engine.MOOD_PRESETS !! Py.lower m)))
            ("anxious" :: "bored" :: Api.MOOD_KEYWORDS.*1) = true) as Hmoods
    by (vm_compute; reflexivity).
  assert (forallb (fun f => bool_decide (is_Some (Engine.DESIRED_FEELINGS !! Py.lower f))
                            && bool_decide (is_Some (Py.get Api.responses f)))
            ("relaxed" :: "romantic" :: "feel-good" :: Api.FEELING_KEYWORDS.*1) = true)
    as Hfeelings by (vm_compute; reflexivity).
  pose proof (forallb_elem _ _ _ Hmoods (detect_mood_key text)) as Hm.
  pose proof (forallb_elem _ _ _ Hfeelings (detect_feeling_key text)) as Hf.
  cbv beta in Hm, Hf. apply andb_true_iff in Hf as [Hf Hr].
  apply bool_decide_eq_true_1 in Hm, Hf, Hr. done.
Qed.

(** X26: the mood ['anxious'] is detected by the sleep patterns only, not
    by the keyword ['anxious'], which stands for ['stressed']; the mood
    ['reflective'] and the feeling ['empowered'] are never detected. *)
Theorem anxious_by_override_only (text : string) :
  ((Api.detect_mood_from_text text).1 = "anxious"
   <-> Py.contains "can't sleep" (Py.lower text) || Py.contains "insomnia" (Py.lower text)
       = true)
  /\ (Api.detect_mood_from_text text).1 <> "reflective"
  /\ (Api.detect_mood_from_text text).2 <> "empowered".
Proof.
  split; [| split].
  - unfold Api.detect_mood_from_text. cbv zeta.
    destruct (_ || _); cbn [fst]; [done |]. split; [| discriminate].
    intros Heq.
    pose proof (detect_fold_key (Py.lower text) Api.MOOD_KEYWORDS ("bored", 0%nat)) as Hin.
    fold (Api.detect_mood (Py.lower text)) in Hin. rewrite Heq in Hin.
    exfalso. revert Hin. apply (bool_decide_eq_false_1 _). vm_compute. reflexivity.
  - intros Heq. pose proof (detect_mood_key text) as Hin. rewrite Heq in Hin.
    revert Hin. apply (bool_decide_eq_false_1 _). vm_compute. reflexivity.
  - intros Heq. pose proof (detect_feeling_key text) as Hin. rewrite Heq in Hin.
    revert Hin. apply (bool_decide_eq_false_1 _). vm_compute. reflexivity.
Qed.

Lemma round_integer (k : Z) : Py.round_half_even (inject_Z k) = k.
Proof.
  unfold Py.round_half_even. cbv zeta. rewrite Qfloor_Z.
  destruct (Qcompare (inject_Z k - inject_Z k) (1 # 2)) eqn:E; [| reflexivity |].
  - apply Qeq_alt in E. lra.
  - apply Qgt_alt in E. lra.
Qed.

Lemma round_idem (x : Q) (ndigits : nat) :
  Py.round (Py.round x ndigits) ndigits = Py.round x ndigits.
Proof.
  unfold Py.round at 1. cbv zeta.
  rewrite (round_half_even_comp _ _ (round_scaled x ndigits)), round_integer.
  reflexivity.
Qed.

Lemma round_two_unit (x : Q) : unit_range x -> unit_range (Py.round x 2).
Proof.
  intros [H0 H1].
  pose proof (round_lower x 2 0) as Hl. pose proof (round_upper x 2 100) as Hu.
  cbv zeta in Hl, Hu. change (inject_Z (10 ^ Z.of_nat 2)) with 100 in *.
  change (inject_Z 0) with 0 in *. change (inject_Z 100) with 100 in *.
  assert (0 <= Py.round x 2 * 100) by (apply Hl; lra).
  assert (Py.round x 2 * 100 <= 100) by (apply Hu; lra).
  split; lra.
Qed.

(** X27: [to_dict] rounds the match score to two decimals, which moves it
    by at most [0.005] and keeps a score of [[0, 1]] in [[0, 1]]; a second
    [to_dict] changes nothing. *)
Theorem to_dict_rounding (rec : Engine.MovieRecommendation) :
  two_decimals (Engine.match_score (Engine.to_dict rec))
  /\ Qabs (Engine.match_score (Engine.to_dict rec) - Engine.match_score rec) <= 0.005
  /\ (unit_range (Engine.match_score rec) ->
      unit_range (Engine.match_score (Engine.to_dict rec)))
  /\ Engine.to_dict (Engine.to_dict rec) = Engine.to_dict rec.
Proof.
  split; [| split; [| split]].
  - exists (Py.round_half_even (Engine.match_score rec * 100)).
    exact (round_scaled (Engine.match_score rec) 2).
  - apply round_two_error.
  - apply round_two_unit.
  - unfold Engine.to_dict. cbn. by rewrite round_idem.
Qed.

Lemma slice_to_subseteq {A} (n : Z) (l : list A) : Py.slice_to n l ⊆ l.
Proof. rewrite slice_to_take. apply subseteq_take. Qed.

Lemma recommend_by_mood_scores (movies_df : list Engine.MovieRow)
    (current_mood desired_feeling : string) (n : Z) (rec : Engine.MovieRecommendation) :
  Forall on_scale movies_df ->
  rec ∈ Engine.recommend_by_mood movies_df current_mood desired_feeling n ->
  unit_range (Engine.match_score rec).
Proof.
  intros Hall Hrec. apply list_elem_of_lookup_1 in Hrec as [i Hi].
  apply recommend_by_mood_ranked in Hi as (idx & row & _ & Hrow & ->).
  cbn [Engine.match_score Engine.recommendation]. unfold unit_range, mood_score.
  rewrite calculate_match_score_spec.
  rewrite Forall_forall in Hall. apply list_elem_of_lookup_2, Hall in Hrow as [Hi Hc].
  by apply match_score_spec_range.
Qed.

Lemma recommend_by_emotions_scores (movies_df : list Engine.MovieRow)
    (target_emotions : list string) (min_intensity max_intensity min_comfort : Q)
    (n : Z) (rec : Engine.MovieRecommendation) :
  rec ∈ Engine.recommend_by_emotions movies_df target_emotions
          min_intensity max_intensity min_comfort n ->
  unit_range (Engine.match_score rec).
Proof.
  pose proof (recommend_by_emotions_slice movies_df target_emotions
                min_intensity max_intensity min_comfort n) as Hall.
  intros Hrec. apply list_elem_of_lookup_1 in Hrec as [i Hi].
  destruct (Forall2_lookup_l _ _ _ _ _ Hall Hi) as ([idx score] & Hranked & row & Hrow & ->).
  apply list_elem_of_lookup_2, slice_to_subseteq, ranked_by_emotions_elem in Hranked
    as (row' & Hrow' & Hb & ->).
  apply emotion_fraction_range.
Qed.

Lemma get_mood_journey_scores (movies_df : list Engine.MovieRow)
    (start_mood end_mood : string) (n_movies : Z) (rec : Engine.MovieRecommendation) :
  Forall on_scale movies_df ->
  rec ∈ Engine.get_mood_journey movies_df start_mood end_mood n_movies ->
  unit_range (Engine.match_score rec).
Proof.
  intros Hall. rewrite get_mood_journey_calls. intros Hrec.
  apply slice_to_subseteq in Hrec. unfold journey_calls in Hrec.
  rewrite !elem_of_app in Hrec. destruct Hrec as [Hrec | [Hrec | Hrec]].
  - by eapply recommend_by_mood_scores.
  - destruct (3 <=? n_movies)%Z; [by eapply recommend_by_mood_scores |].
    by apply elem_of_nil in Hrec.
  - by eapply recommend_by_mood_scores.
Qed.

Lemma to_dict_scores (recs : list Engine.MovieRecommendation) :
  Forall (fun rec => unit_range (Engine.match_score rec)) recs ->
  Forall (fun answer => unit_range (Engine.match_score answer)
                        /\ two_decimals (Engine.match_score answer))
    (map Engine.to_dict recs).
Proof.
  intros Hall. apply Forall_fmap. eapply Forall_impl; [exact Hall |].
  intros rec Hrec. cbn. split; [by apply round_two_unit |].
  exists (Py.round_half_even (Engine.match_score rec * 100)).
  exact (round_scaled (Engine.match_score rec) 2).
Qed.

(** X28: on a catalog whose rows have their intensity and comfort in
    [[0, 10]], every match score the three recommendation endpoints answer
    lies in [[0, 1]] and has at most two decimals. *)
Theorem endpoint_scores (movies_df : list Engine.MovieRow) :
  Forall on_scale movies_df ->
  (forall current_mood desired_feeling n,
      Forall (fun answer => unit_range (Engine.match_score answer)
                            /\ two_decimals (Engine.match_score answer))
        (Api.recommend_by_mood movies_df current_mood desired_feeling n))
  /\ (forall targets min_intensity max_intensity min_comfort n,
        Forall (fun answer => unit_range (Engine.match_score answer)
                              /\ two_decimals (Engine.match_score answer))
          (Api.recommend_by_emotions movies_df targets
             min_intensity max_intensity min_comfort n))
  /\ (forall start_mood end_mood n,
        Forall (fun answer => unit_range (Engine.match_score answer)
                              /\ two_decimals (Engine.match_score answer))
          (Api.recommend_journey movies_df start_mood end_mood n)).
Proof.
  intros Hall. split; [| split].
  - intros m f n. apply to_dict_scores, Forall_forall. intros rec.
    by apply recommend_by_mood_scores.
  - intros targets lo hi c n. apply to_dict_scores, Forall_forall. intros rec.
    apply recommend_by_emotions_scores.
  - intros s e n. apply to_dict_scores, Forall_forall. intros rec.
    by apply get_mood_journey_scores.
Qed.

Lemma two_films_on_scale : Forall on_scale two_films.
Proof. repeat constructor; cbn; lra. Qed.

Lemma endpoint_scores_witness :
  Forall (fun answer => unit_range (Engine.match_score answer)
                        /\ two_decimals (Engine.match_score answer))
    (Api.recommend_by_mood two_films "sad" "cry" 5).
Proof. exact (proj1 (endpoint_scores two_films two_films_on_scale) "sad" "cry" 5%Z). Defined.

(** X29: the chat endpoint answers with the five best films for the
    detected mood and feeling, or with the whole catalog when it is smaller,
    and always with the sentence of the detected feeling, never with the
    sentence for an unknown feeling. *)
Theorem chat_answer (movies_df : list Engine.MovieRow) (message : string) :
  length (Api.movies (Api.chat movies_df message)) = Nat.min 5 (length movies_df)
  /\ Api.movies (Api.chat movies_df message)
     = Api.recommend_by_mood movies_df
         (Api.detect_mood_from_text message).1 (Api.detect_mood_from_text message).2 5
  /\ (Api.detected_mood (Api.chat movies_df message),
      Api.detected_feeling (Api.chat movies_df message))
     = Api.detect_mood_from_text message
  /\ ((Api.detect_mood_from_text message).2, Api.response (Api.chat movies_df message))
     ∈ Api.responses
  /\ Api.response (Api.chat movies_df message) <> Api.fallback_response.
Proof.
  pose proof (detect_feeling_key message) as Hkey.
  unfold Api.chat. destruct (Api.detect_mood_from_text message) as [m f]. cbv zeta.
  cbn [Api.movies Api.response Api.detected_mood Api.detected_feeling fst snd] in *.
  split; [| split; [reflexivity | split; [reflexivity |]]].
  - rewrite length_map, recommend_by_mood_slice_length. reflexivity.
  - unfold Api.generate_chat_response.
    assert (forallb (fun f => match Py.get Api.responses f with
                              | Some r => bool_decide ((f, r) ∈ Api.responses)
                                          && negb (String.eqb r Api.fallback_response)
                              | None => false
                              end)
              ("relaxed" :: "romantic" :: "feel-good" :: Api.FEELING_KEYWORDS.*1) = true)
      as Hall by (vm_compute; reflexivity).
    pose proof (forallb_elem _ _ _ Hall Hkey) as Hf. cbv beta in Hf.
    destruct (Py.get Api.responses f) as [r |]; [| discriminate].
    cbn [default from_option id]. apply andb_true_iff in Hf as [Hin Hne].
    apply bool_decide_eq_true_1 in Hin. apply negb_true_iff, String.eqb_neq in Hne.
    done.
Qed.

End ApiFacts.

(** ** The further properties on the small catalog *)

Lemma match_score_in_unit_range_witness :
  0 <= Engine._calculate_match_score paddington (Engine.mood_params_of "stressed")
         (Engine.desired_emotions_of "feel-good") <= 1.
Proof. apply match_score_in_unit_range; cbn; lra. Defined.

Lemma journey_ends_witness :
  exists first final,
    Engine.get_mood_journey two_films "sad" "inspired" 3
    = first :: Engine.recommend_by_mood two_films "sad" "inspired" 1 ++ [final].
Proof.
  destruct (journey_ends two_films "sad" "inspired" 3) as (first & final & Heq & _);
    [discriminate | lia |].
  exists first, final. exact Heq.
Defined.

Lemma journey_below_two_witness :
  length (Engine.get_mood_journey two_films "sad" "inspired" 1) = 1%nat.
Proof.
  assert (two_films <> []) as Hne by discriminate.
  assert (1 < 2)%Z as Hn by lia.
  exact (proj2 (journey_below_two two_films "sad" "inspired" 1 Hne Hn)).
Defined.

Lemma profile_scores_shape_witness :
  match Profiler.create_emotion_profile joyful
          (Some "A young bear travels to London in search of a home.")
          ["Family"; "Comedy"; "Adventure"] 0.6 0.4 with
  | inr p => (Profiler.emotion_scores p).*1 `sublist_of` Profiler.EMOTION_CATEGORIES
  | inl _ => False
  end.
Proof.
  destruct (Profiler.create_emotion_profile _ _ _ _ _) as [e | p] eqn:Hp.
  - vm_compute in Hp. discriminate.
  - exact (proj1 (profile_scores_shape _ _ _ _ _ _ Hp)).
Defined.

Lemma dominant_emotions_shape_witness :
  match Profiler.create_emotion_profile joyful
          (Some "A young bear travels to London in search of a home.")
          ["Family"; "Comedy"; "Adventure"] 0.6 0.4 with
  | inr p => NoDup (Profiler.dominant_emotions p)
  | inl _ => False
  end.
Proof.
  destruct (Profiler.create_emotion_profile _ _ _ _ _) as [e | p] eqn:Hp.
  - vm_compute in Hp. discriminate.
  - exact (proj1 (proj2 (dominant_emotions_shape _ _ _ _ _ _ Hp))).
Defined.
